(** * Authorization core of the habit/challenge tracking backend

    A shallow embedding of the two authorization components of the
    repository:

    - [Plan]: the per-plan participant hierarchy
      (src/modules/plan/service/permission.service.ts and
      participant.service.ts);
    - [Rbac]: the global role/permission relation
      (src/modules/user/service/user.service.ts,
      src/modules/auth/service/role.service.ts and the user-context
      service).

    The relational store behind Prisma is an explicit value; every service
    method is a computation in a state-and-exception monad over it.  What
    the queries leave to the database engine, the comparison of strings
    under the collation of the tables and the order of the rows of a
    [findMany] on roles or permissions, is a parameter ([Engine]) of the
    services that issue them, and the statements about them hold for every
    engine.  Logging calls are effects outside the store and are left out. *)

From Stdlib Require Import ZArith String List Lia.
From stdpp Require Import base option list strings pretty gmap.

Local Open Scope string_scope.
Local Open Scope Z_scope.

(** ** Exceptions and the service monad *)

(** The NestJS exception classes thrown by the services, plus the error the
    Prisma client raises when a write violates a store constraint
    (P2002 unique index, P2003 foreign key, P2025 record not found). *)
Inductive HttpException : Type :=
  | BadRequestException (message : string)
  | ForbiddenException (message : string)
  | NotFoundException (message : string)
  | ConflictException (message : string)
  | PrismaClientKnownRequestError (code : string).

Inductive Result (A : Type) : Type :=
  | Ok (a : A)
  | Err (e : HttpException).
Arguments Ok {A} a.
Arguments Err {A} e.

(** An [async] method over the store [S]: it returns a value or throws, and
    leaves a store behind in both cases. *)
Definition M (S A : Type) : Type := S -> Result A * S.

Definition ret {S A} (a : A) : M S A := fun s => (Ok a, s).

Definition bind {S A B} (m : M S A) (k : A -> M S B) : M S B :=
  fun s => match m s with
           | (Ok a, s') => k a s'
           | (Err e, s') => (Err e, s')
           end.

Definition throw {S A} (e : HttpException) : M S A := fun s => (Err e, s).

(** A read-only query against the store. *)
Definition gets {S A} (f : S -> A) : M S A := fun s => (Ok (f s), s).

(** [prisma.$transaction]: when the body throws, every write it made is
    rolled back and the exception is rethrown. *)
Definition transaction {S A} (m : M S A) : M S A :=
  fun s => match m s with
           | (Ok a, s') => (Ok a, s')
           | (Err e, _) => (Err e, s)
           end.

Notation "x <- m ;; k" := (bind m (fun x => k))
  (at level 100, m at next level, right associativity).
Notation "m ;;; k" := (bind m (fun _ => k))
  (at level 100, right associativity).

(** JavaScript truthiness of an optional string ([undefined] and the empty
    string are falsy). *)
Definition truthy (s : option string) : bool :=
  match s with
  | Some EmptyString => false
  | Some _ => true
  | None => false
  end.

(** JavaScript truthiness of an optional number ([undefined] and 0 are
    falsy). *)
Definition truthy_num (n : option Z) : bool :=
  match n with
  | Some 0 => false
  | Some _ => true
  | None => false
  end.

(** The double-quote character used inside some messages. *)
Definition dquote : string := String (Ascii.ascii_of_nat 34) EmptyString.

(** ** The database engine *)

(** What the queries leave to the database engine.  The migration declares
    every table [utf8mb4_unicode_ci]: a text column compares two strings by
    their collation weights (MySQL's [WEIGHT_STRING]), not character by
    character, so that letters differing in case only are equal and trailing
    spaces do not count; [weight] stands for that function.  A [findMany]
    on [roles] or [permissions] without [orderBy] returns its rows in the
    order of the index the engine reads them through, the primary key or the
    unique index on [code]; [code_before], on the codes of two rows, stands
    for that order.  The comparisons the services make themselves ([===],
    [includes], [Set]) are character by character and do not go through
    [weight]. *)
Class Engine : Type := mkEngine {
  weight : string -> string;
  code_before : string -> string -> bool;
}.

(** The rows [l] in the order of an index: each row is placed before the
    first row it comes [before]; when every row comes before every other
    the order of insertion is kept. *)
Fixpoint insert_before {A} (before : A -> A -> bool) (x : A) (l : list A) : list A :=
  match l with
  | [] => [x]
  | y :: rest => if before x y then x :: y :: rest else y :: insert_before before x rest
  end.

Definition index_order {A} (before : A -> A -> bool) (l : list A) : list A :=
  foldr (insert_before before) [] l.

(** ASCII lower-casing, standing for [toLowerCase] in the examples. *)
Definition asciiLower (c : Ascii.ascii) : Ascii.ascii :=
  let n := Ascii.nat_of_ascii c in
  if (65 <=? n)%nat && (n <=? 90)%nat then Ascii.ascii_of_nat (n + 32) else c.

Fixpoint asciiLowerCase (s : string) : string :=
  match s with
  | EmptyString => EmptyString
  | String c rest => String (asciiLower c) (asciiLowerCase rest)
  end.

(** Two engines for the examples.  [exact_engine] compares character by
    character and reads a table in the order of insertion, as a store with
    a binary collation and no usable index does.  [caseless_engine]
    disregards the case of ASCII letters, one of the things
    [utf8mb4_unicode_ci] disregards, and reads [roles] and [permissions]
    through the index on [code]. *)
Definition exact_engine : Engine :=
  mkEngine (fun s => s) (fun _ _ => true).

Definition caseless_engine : Engine :=
  mkEngine asciiLowerCase
           (fun c1 c2 => String.leb (asciiLowerCase c1) (asciiLowerCase c2)).

(** ** The plan participant hierarchy *)

Module Plan.

Inductive ParticipantRole : Type := owner | admin | member | viewer.

Global Instance ParticipantRole_eq_dec : EqDecision ParticipantRole.
Proof. solve_decision. Defined.

(** [roleLevel] of permission.service.ts. *)
Definition roleLevel (r : ParticipantRole) : Z :=
  match r with
  | owner => 4
  | admin => 3
  | member => 2
  | viewer => 1
  end.

Record User : Type := mkUser {
  u_id : Z;
  u_user_key : string;
  u_phone : option string;
}.

Record PlanRow : Type := mkPlan {
  p_is_public : bool;
  p_creator : Z;
}.

(** A row of [plan_participants], as returned by the client. *)
Record PlanParticipant : Type := mkParticipant {
  pp_plan_id : Z;
  pp_user_id : Z;
  pp_role : ParticipantRole;
}.

(** The tables the plan services touch.  [planParticipant] is keyed by the
    unique index [unique_plan_user] = (plan_id, user_id); [plan] by its
    primary key. *)
Record Db : Type := mkDb {
  user : list User;
  plan : gmap Z PlanRow;
  planParticipant : gmap (Z * Z) ParticipantRole;
}.

Definition set_planParticipant (f : gmap (Z * Z) ParticipantRole -> gmap (Z * Z) ParticipantRole)
    (db : Db) : Db :=
  mkDb (user db) (plan db) (f (planParticipant db)).

Definition set_plan (f : gmap Z PlanRow -> gmap Z PlanRow) (db : Db) : Db :=
  mkDb (user db) (f (plan db)) (planParticipant db).

(** *** Store operations used by the services *)

(** [prisma.planParticipant.create]: rejected when the plan or the user does
    not exist (the foreign keys [plan_participants_plan_id_fkey] and
    [plan_participants_user_id_fkey]) or the pair is already present (the
    unique index on (plan_id, user_id), [unique_plan_user]). *)
Definition planParticipant_create (planId userId : Z) (role : ParticipantRole)
    : M Db PlanParticipant :=
  fun db =>
    match plan db !! planId with
    | None => (Err (PrismaClientKnownRequestError "P2003"), db)
    | Some _ =>
      if bool_decide (userId ∉ map u_id (user db))
      then (Err (PrismaClientKnownRequestError "P2003"), db)
      else
        match planParticipant db !! (planId, userId) with
        | Some _ => (Err (PrismaClientKnownRequestError "P2002"), db)
        | None =>
          (Ok (mkParticipant planId userId role),
           set_planParticipant (insert (planId, userId) role) db)
        end
    end.

(** [prisma.planParticipant.update] of the role of one row. *)
Definition planParticipant_update (planId userId : Z) (role : ParticipantRole)
    : M Db PlanParticipant :=
  fun db =>
    match planParticipant db !! (planId, userId) with
    | None => (Err (PrismaClientKnownRequestError "P2025"), db)
    | Some _ =>
      (Ok (mkParticipant planId userId role),
       set_planParticipant (insert (planId, userId) role) db)
    end.

(** [prisma.planParticipant.delete]. *)
Definition planParticipant_delete (planId userId : Z) : M Db unit :=
  fun db =>
    match planParticipant db !! (planId, userId) with
    | None => (Err (PrismaClientKnownRequestError "P2025"), db)
    | Some _ => (Ok tt, set_planParticipant (delete (planId, userId)) db)
    end.

(** [prisma.plan.update] of the [creator] column. *)
Definition plan_update_creator (planId newCreator : Z) : M Db PlanRow :=
  fun db =>
    match plan db !! planId with
    | None => (Err (PrismaClientKnownRequestError "P2025"), db)
    | Some p =>
      let p' := mkPlan (p_is_public p) newCreator in
      (Ok p', set_plan (insert planId p') db)
    end.

(** *** PlanPermissionService *)

Definition getUserRole (planId userId : Z) (db : Db) : option ParticipantRole :=
  planParticipant db !! (planId, userId).

Definition isParticipant (planId userId : Z) (db : Db) : bool :=
  bool_decide (getUserRole planId userId db <> None).

Definition hasRole (planId userId : Z) (requiredRole : ParticipantRole) (db : Db) : bool :=
  match getUserRole planId userId db with
  | None => false
  | Some userRole => roleLevel userRole >=? roleLevel requiredRole
  end.

Definition canInviteMembers (planId userId : Z) (db : Db) : bool :=
  hasRole planId userId admin db.

Definition canChangeRole (planId userId : Z) (db : Db) : bool :=
  hasRole planId userId owner db.

Definition canRemoveMember (planId operatorId targetUserId : Z) (db : Db) : bool :=
  match getUserRole planId operatorId db, getUserRole planId targetUserId db with
  | Some operatorRole, Some targetRole =>
    if roleLevel operatorRole <? roleLevel admin then false
    else if bool_decide (operatorRole = owner)
         then bool_decide (targetRole <> owner)
         else roleLevel operatorRole >? roleLevel targetRole
  | _, _ => false
  end.

(** *** PlanParticipantService *)

Section Services.
Context {E : Engine}.

(** [InviteParticipantDto], imported from participant.dto.ts (in the
    sources the class follows plan.controller.ts, lines 433-469): [plan_id]
    is required, [user_key], [phone] and [role] are optional.  The service
    takes the plan from its own argument and reads the other three fields. *)
Record InviteParticipantDto : Type := mkInviteDto {
  inv_plan_id : Z;
  inv_user_key : option string;
  inv_phone : option string;
  inv_role : option ParticipantRole;
}.

(** [UpdateParticipantRoleDto] (same file, lines 471-506): as above, but
    [role] is required. *)
Record UpdateParticipantRoleDto : Type := mkUpdateDto {
  upd_plan_id : Z;
  upd_user_key : option string;
  upd_phone : option string;
  upd_role : ParticipantRole;
}.

(** The two [findUnique] compare [user_key] and [phone] in the store, by
    weight. *)
Definition findUserByKeyOrPhone (user_key phone : option string) : M Db Z :=
  if negb (truthy user_key) && negb (truthy phone)
  then throw (BadRequestException "Must provide user_key or phone")
  else if truthy user_key then
    let k := default EmptyString user_key in
    u <- gets (fun db => find (fun u => bool_decide (weight (u_user_key u) = weight k))
                              (user db)) ;;
    match u with
    | None => throw (NotFoundException
                       ("User with user_key " +:+ dquote +:+ k +:+ dquote +:+ " not found"))
    | Some u => ret (u_id u)
    end
  else
    let ph := default EmptyString phone in
    u <- gets (fun db => find (fun u => bool_decide (weight <$> u_phone u = Some (weight ph)))
                              (user db)) ;;
    match u with
    | None => throw (NotFoundException
                       ("User with phone " +:+ dquote +:+ ph +:+ dquote +:+ " not found"))
    | Some u => ret (u_id u)
    end.

Definition isElevated (r : option ParticipantRole) : bool :=
  match r with
  | Some admin | Some owner => true
  | _ => false
  end.

Definition inviteParticipant (planId inviterId : Z) (inviteDto : InviteParticipantDto)
    : M Db PlanParticipant :=
  canInvite <- gets (canInviteMembers planId inviterId) ;;
  if negb canInvite
  then throw (ForbiddenException "You do not have permission to invite members")
  else
    targetUser <- findUserByKeyOrPhone (inv_user_key inviteDto) (inv_phone inviteDto) ;;
    existing <- gets (fun db => planParticipant db !! (planId, targetUser)) ;;
    match existing with
    | Some _ => throw (ConflictException "User is already a participant")
    | None =>
      (if isElevated (inv_role inviteDto) then
         inviterRole <- gets (getUserRole planId inviterId) ;;
         if bool_decide (inviterRole <> Some owner)
         then throw (ForbiddenException "Only owner can invite admin or owner")
         else ret tt
       else ret tt) ;;;
      planParticipant_create planId targetUser (default member (inv_role inviteDto))
    end.

Definition removeParticipant (planId : Z) (user_key phone : option string) (operatorId : Z)
    : M Db string :=
  targetUser <- findUserByKeyOrPhone user_key phone ;;
  canRemove <- gets (canRemoveMember planId operatorId targetUser) ;;
  if negb canRemove
  then throw (ForbiddenException "You do not have permission to remove this participant")
  else if bool_decide (targetUser = operatorId)
  then throw (ConflictException "Cannot remove yourself. Use leave instead.")
  else
    participant <- gets (fun db => planParticipant db !! (planId, targetUser)) ;;
    match participant with
    | None => throw (NotFoundException "Participant not found")
    | Some role =>
      if bool_decide (role = owner)
      then throw (ForbiddenException "Cannot remove plan owner")
      else
        planParticipant_delete planId targetUser ;;;
        ret "Participant removed successfully"
    end.

Definition updateParticipantRole (planId operatorId : Z) (updateDto : UpdateParticipantRoleDto)
    : M Db PlanParticipant :=
  canChange <- gets (canChangeRole planId operatorId) ;;
  if negb canChange
  then throw (ForbiddenException "Only owner can change participant roles")
  else
    targetUser <- findUserByKeyOrPhone (upd_user_key updateDto) (upd_phone updateDto) ;;
    participant <- gets (fun db => planParticipant db !! (planId, targetUser)) ;;
    match participant with
    | None => throw (NotFoundException "Participant not found")
    | Some role =>
      if bool_decide (targetUser = operatorId)
      then throw (ConflictException "Cannot change your own role")
      else if bool_decide (role = owner)
      then throw (ForbiddenException
                    "Cannot change owner role. Use transfer ownership instead.")
      else if bool_decide (upd_role updateDto = owner)
      then throw (ForbiddenException
                    "Cannot assign owner role. Use transfer ownership instead.")
      else planParticipant_update planId targetUser (upd_role updateDto)
    end.

Definition transferOwnership (planId currentOwnerId newOwnerId : Z)
    : M Db (PlanParticipant * PlanParticipant * PlanRow) :=
  currentOwner <- gets (fun db => planParticipant db !! (planId, currentOwnerId)) ;;
  if bool_decide (currentOwner <> Some owner)
  then throw (ForbiddenException "Only owner can transfer ownership")
  else
    newOwner <- gets (fun db => planParticipant db !! (planId, newOwnerId)) ;;
    match newOwner with
    | None => throw (NotFoundException "New owner must be a participant of the plan")
    | Some _ =>
      transaction (
        a <- planParticipant_update planId currentOwnerId admin ;;
        b <- planParticipant_update planId newOwnerId owner ;;
        c <- plan_update_creator planId newOwnerId ;;
        ret (a, b, c))
    end.

(** *** Stores and values the statements refer to *)

(** Two stores used in the examples: plan 1 with owner 10, admin 20 and
    member 30; user 40 is registered but takes no part in the plan. *)
Definition sample_users : list User :=
  [ mkUser 10 "k10" (Some "13800000010");
    mkUser 20 "k20" (Some "13800000020");
    mkUser 30 "k30" None;
    mkUser 40 "k40" None ].

Definition sample_db : Db :=
  mkDb sample_users
       {[ 1 := mkPlan false 10 ]}
       (<[ (1, 10) := owner ]> (<[ (1, 20) := admin ]> {[ (1, 30) := member ]})).

(** The store after a successful ownership transfer. *)
Definition transferred (planId currentOwnerId newOwnerId : Z) (p : PlanRow) (db : Db) : Db :=
  mkDb (user db)
       (<[ planId := mkPlan (p_is_public p) newOwnerId ]> (plan db))
       (<[ (planId, newOwnerId) := owner ]>
          (<[ (planId, currentOwnerId) := admin ]> (planParticipant db))).

(** *** PlanPermissionService: the other predicates *)

Definition canViewPlan (planId : Z) (userId : option Z) : M Db bool :=
  p <- gets (fun db => plan db !! planId) ;;
  match p with
  | None => throw (NotFoundException "Plan not found")
  | Some p =>
    if p_is_public p then ret true
    else if negb (truthy_num userId) then ret false
    else gets (isParticipant planId (default 0 userId))
  end.

Definition canViewTasks (planId : Z) (userId : option Z) : M Db bool :=
  canViewPlan planId userId.

Definition canCreateTask (planId userId : Z) (db : Db) : bool :=
  hasRole planId userId member db.

Definition canModifyTask (planId userId : Z) (db : Db) : bool :=
  hasRole planId userId member db.

Definition canDeleteTask (planId userId : Z) (db : Db) : bool :=
  hasRole planId userId admin db.

Definition canModifyPlan (planId userId : Z) (db : Db) : bool :=
  hasRole planId userId admin db.

Definition canDeletePlan (planId userId : Z) (db : Db) : bool :=
  hasRole planId userId owner db.

(** The string value of a member of the [ParticipantRole] enum. *)
Definition roleName (r : ParticipantRole) : string :=
  match r with
  | owner => "owner"
  | admin => "admin"
  | member => "member"
  | viewer => "viewer"
  end.

Definition ensurePermission (planId userId : Z) (requiredRole : ParticipantRole)
    (action : string) : M Db unit :=
  hasPermission <- gets (hasRole planId userId requiredRole) ;;
  if negb hasPermission
  then throw (ForbiddenException
                ("You do not have permission to " +:+ action
                 +:+ ". Required role: " +:+ roleName requiredRole))
  else ret tt.

Record PermissionSummary : Type := mkSummary {
  ps_role : option ParticipantRole;
  ps_canView : bool;
  ps_canCreateTask : bool;
  ps_canModifyTask : bool;
  ps_canDeleteTask : bool;
  ps_canModifyPlan : bool;
  ps_canDeletePlan : bool;
  ps_canInviteMembers : bool;
  ps_canRemoveMembers : bool;
  ps_canChangeRoles : bool;
}.

Definition getPermissionSummary (planId userId : Z) : M Db PermissionSummary :=
  role <- gets (getUserRole planId userId) ;;
  match role with
  | None =>
    canView <- canViewPlan planId (Some userId) ;;
    ret (mkSummary None canView false false false false false false false false)
  | Some r =>
    canCreateTask <- gets (canCreateTask planId userId) ;;
    canModifyTask <- gets (canModifyTask planId userId) ;;
    canDeleteTask <- gets (canDeleteTask planId userId) ;;
    canModifyPlan <- gets (canModifyPlan planId userId) ;;
    canDeletePlan <- gets (canDeletePlan planId userId) ;;
    canInviteMembers <- gets (canInviteMembers planId userId) ;;
    canChangeRoles <- gets (canChangeRole planId userId) ;;
    ret (mkSummary (Some r) true canCreateTask canModifyTask canDeleteTask canModifyPlan
           canDeletePlan canInviteMembers true canChangeRoles)
  end.

(** *** PlanParticipantService: joining and leaving *)

Definition joinPlan (planId userId : Z) : M Db PlanParticipant :=
  p <- gets (fun db => plan db !! planId) ;;
  match p with
  | None => throw (NotFoundException "Plan not found")
  | Some p =>
    if negb (p_is_public p)
    then throw (ForbiddenException "Cannot join private plan without invitation")
    else
      existing <- gets (fun db => planParticipant db !! (planId, userId)) ;;
      match existing with
      | Some _ => throw (ConflictException "Already joined this plan")
      | None => planParticipant_create planId userId member
      end
  end.

Definition leavePlan (planId userId : Z) : M Db string :=
  participant <- gets (fun db => planParticipant db !! (planId, userId)) ;;
  match participant with
  | None => throw (NotFoundException "You are not a participant of this plan")
  | Some role =>
    if bool_decide (role = owner)
    then throw (ConflictException
                  "Owner cannot leave their own plan. Transfer ownership first.")
    else
      planParticipant_delete planId userId ;;;
      ret "Successfully left the plan"
  end.

End Services.

End Plan.

(** ** The global role/permission relation *)

Module Rbac.

Record Role : Type := mkRole {
  role_id : Z;
  role_name : string;
  role_code : string;
  role_description : option string;
  role_is_system : bool;
}.

Record Permission : Type := mkPermission {
  perm_id : Z;
  perm_name : string;
  perm_code : string;
  perm_resource : string;
  perm_action : string;
}.

Record RolePermission : Type := mkRolePermission {
  rp_id : Z;
  rp_role_id : Z;
  rp_permission_id : Z;
}.

Record UserRole : Type := mkUserRole {
  ur_id : Z;
  ur_user_id : Z;
  ur_role_id : Z;
}.

(** The tables, in storage order, and the AUTO_INCREMENT counters of the
    tables the services insert into.  The timestamp columns play no part in
    any decision and are not represented. *)
Record Db : Type := mkDb {
  role : list Role;
  permission : list Permission;
  rolePermission : list RolePermission;
  userRole : list UserRole;
  role_seq : Z;
  rolePermission_seq : Z;
  userRole_seq : Z;
}.

Section Store.
Context {E : Engine}.

(** The primary keys and unique indexes of the migration on [roles] and
    [permissions]; the indexes on [code] compare by weight. *)
Record Db_wf (db : Db) : Prop := mkWf {
  wf_role_id : NoDup (map role_id (role db));
  wf_role_code : NoDup (map (fun r => weight (role_code r)) (role db));
  wf_perm_id : NoDup (map perm_id (permission db));
  wf_perm_code : NoDup (map (fun p => weight (perm_code p)) (permission db));
}.

(** *** Store operations *)

(** [findUnique({ where: { code } })]. *)
Definition role_findByCode (code : string) (db : Db) : option Role :=
  find (fun r => bool_decide (weight (role_code r) = weight code)) (role db).

Definition role_findById (roleId : Z) (db : Db) : option Role :=
  find (fun r => bool_decide (role_id r = roleId)) (role db).

(** The rows a clause [where: { code: { in: codes } }] selects: each row
    whose code has the weight of a listed code, once, however often the
    code is listed. *)
Definition findManyByCodes {A} (code : A -> string) (rows : list A) (codes : list string)
    : list A :=
  filter (fun r => weight (code r) ∈ map weight codes) rows.

(** [findMany({ where: { code: { in: codes } } })]. *)
Definition role_findManyByCodes (codes : list string) (db : Db) : list Role :=
  index_order (fun r1 r2 => code_before (role_code r1) (role_code r2))
              (findManyByCodes role_code (role db) codes).

Definition permission_findManyByCodes (codes : list string) (db : Db) : list Permission :=
  index_order (fun p1 p2 => code_before (perm_code p1) (perm_code p2))
              (findManyByCodes perm_code (permission db) codes).

Definition permission_findById (permId : Z) (db : Db) : option Permission :=
  find (fun p => bool_decide (perm_id p = permId)) (permission db).

Definition userRole_findMany (userId : Z) (db : Db) : list UserRole :=
  filter (fun ur => ur_user_id ur = userId) (userRole db).

Definition userRole_findUnique (userId roleId : Z) (db : Db) : option UserRole :=
  find (fun ur => bool_decide (ur_user_id ur = userId) && bool_decide (ur_role_id ur = roleId))
       (userRole db).

Definition rolePermission_findMany (roleId : Z) (db : Db) : list RolePermission :=
  filter (fun rp => rp_role_id rp = roleId) (rolePermission db).

(** A batch insert into a join table passes the unique index on the pair
    when the batch has no repeated pair and no pair is stored already. *)
Definition batch_unique (stored batch : list (Z * Z)) : bool :=
  bool_decide (NoDup batch /\ Forall (fun k => k ∉ stored) batch).

Fixpoint number_rows {A} (mk : Z -> Z * Z -> A) (seq : Z) (batch : list (Z * Z)) : list A :=
  match batch with
  | [] => []
  | k :: rest => mk (seq + 1) k :: number_rows mk (seq + 1) rest
  end.

(** [prisma.userRole.createMany]; the batch is a list of (user_id, role_id).
    The private methods that insert are reached through [assignRoles] and
    [updateUserRoles] only, with the id of the user [findByIdentifier] has
    just returned and with role ids read from [roles], so the two foreign
    keys of [user_roles] hold at every insert and [users] is not
    represented here. *)
Definition userRole_createMany (batch : list (Z * Z)) : M Db unit :=
  fun db =>
    if batch_unique (map (fun ur => (ur_user_id ur, ur_role_id ur)) (userRole db)) batch
    then (Ok tt,
          mkDb (role db) (permission db) (rolePermission db)
               (userRole db ++ number_rows (fun i k => mkUserRole i k.1 k.2) (userRole_seq db) batch)
               (role_seq db) (rolePermission_seq db)
               (userRole_seq db + Z.of_nat (length batch)))
    else (Err (PrismaClientKnownRequestError "P2002"), db).

(** [prisma.userRole.deleteMany({ where: { user_id } })], returning the count. *)
Definition userRole_deleteMany (userId : Z) : M Db nat :=
  fun db =>
    (Ok (length (userRole_findMany userId db)),
     mkDb (role db) (permission db) (rolePermission db)
          (filter (fun ur => ur_user_id ur <> userId) (userRole db))
          (role_seq db) (rolePermission_seq db) (userRole_seq db)).

(** Removal of the one row a primary key designates. *)
Fixpoint remove_by_id {A} (key : A -> Z) (i : Z) (rows : list A) : option (list A) :=
  match rows with
  | [] => None
  | r :: rest =>
    if bool_decide (key r = i) then Some rest
    else cons r <$> remove_by_id key i rest
  end.

(** [prisma.userRole.delete({ where: { id } })]. *)
Definition userRole_delete (i : Z) : M Db unit :=
  fun db =>
    match remove_by_id ur_id i (userRole db) with
    | None => (Err (PrismaClientKnownRequestError "P2025"), db)
    | Some rows =>
      (Ok tt,
       mkDb (role db) (permission db) (rolePermission db) rows
            (role_seq db) (rolePermission_seq db) (userRole_seq db))
    end.

(** [prisma.rolePermission.createMany]; the batch is a list of
    (role_id, permission_id). *)
Definition rolePermission_createMany (batch : list (Z * Z)) : M Db unit :=
  fun db =>
    if batch_unique (map (fun rp => (rp_role_id rp, rp_permission_id rp)) (rolePermission db)) batch
    then (Ok tt,
          mkDb (role db) (permission db)
               (rolePermission db
                  ++ number_rows (fun i k => mkRolePermission i k.1 k.2) (rolePermission_seq db) batch)
               (userRole db)
               (role_seq db)
               (rolePermission_seq db + Z.of_nat (length batch))
               (userRole_seq db))
    else (Err (PrismaClientKnownRequestError "P2002"), db).

Definition rolePermission_deleteMany (roleId : Z) : M Db nat :=
  fun db =>
    (Ok (length (rolePermission_findMany roleId db)),
     mkDb (role db) (permission db)
          (filter (fun rp => rp_role_id rp <> roleId) (rolePermission db))
          (userRole db) (role_seq db) (rolePermission_seq db) (userRole_seq db)).


(** [prisma.role.update] of [updated_at] only: the row must exist. *)
Definition role_touch (roleId : Z) : M Db unit :=
  fun db =>
    match role_findById roleId db with
    | None => (Err (PrismaClientKnownRequestError "P2025"), db)
    | Some _ => (Ok tt, db)
    end.

(** The permissions a role row carries through [role_permissions], as the
    nested [include] reads them. *)
Definition role_permissions (roleId : Z) (db : Db) : list Permission :=
  omap (fun rp => permission_findById (rp_permission_id rp) db)
       (rolePermission_findMany roleId db).

(** The role rows a user carries through [user_roles] ([include: { role }]). *)
Definition user_roles (userId : Z) (db : Db) : list Role :=
  omap (fun ur => role_findById (ur_role_id ur) db) (userRole_findMany userId db).

(** *** UserService: role management by user id *)

Record AssignRolesResult : Type := mkAssignRolesResult {
  ar_message : string;
  ar_userId : Z;
  ar_userKey : string;
  ar_assignedRoles : list Role;
}.

Record RemoveRoleResult : Type := mkRemoveRoleResult {
  rr_message : string;
  rr_userId : Z;
  rr_userKey : string;
  rr_removedRole : Role;
}.

Record UpdateUserRolesResult : Type := mkUpdateUserRolesResult {
  uu_message : string;
  uu_userId : Z;
  uu_userKey : string;
  uu_roles : list Role;
}.

(** The codes of [roleCodes] that no fetched row carries. *)
Definition notFoundCodes (foundCodes roleCodes : list string) : list string :=
  filter (fun c => c ∉ foundCodes) roleCodes.

Definition _assignRolesByUserId (userId : Z) (userKey : string) (roleCodes : list string)
    : M Db AssignRolesResult :=
  roles <- gets (role_findManyByCodes roleCodes) ;;
  if bool_decide (length roles <> length roleCodes)
  then throw (NotFoundException
                ("Roles not found: "
                 +:+ String.concat ", " (notFoundCodes (map role_code roles) roleCodes)))
  else
    let roleIds := map role_id roles in
    existingUserRoles <- gets (userRole_findMany userId) ;;
    let existingRoleIds := map ur_role_id existingUserRoles in
    let newRoleIds := filter (fun i => i ∉ existingRoleIds) roleIds in
    if bool_decide (length newRoleIds = 0%nat)
    then throw (ConflictException "All roles are already assigned to this user")
    else
      userRole_createMany (map (fun roleId => (userId, roleId)) newRoleIds) ;;;
      ret (mkAssignRolesResult
             (pretty (length newRoleIds) +:+ " role(s) assigned successfully")
             userId userKey
             (filter (fun r => role_id r ∈ newRoleIds) roles)).

Definition _removeRoleByUserId (userId : Z) (userKey : string) (roleCode : string)
    : M Db RemoveRoleResult :=
  role <- gets (role_findByCode roleCode) ;;
  match role with
  | None => throw (NotFoundException ("Role with code " +:+ roleCode +:+ " not found"))
  | Some role =>
    userRole <- gets (userRole_findUnique userId (role_id role)) ;;
    match userRole with
    | None => throw (NotFoundException ("User does not have role: " +:+ role_name role))
    | Some userRole =>
      userRolesCount <- gets (fun db => length (userRole_findMany userId db)) ;;
      if bool_decide (userRolesCount = 1%nat)
      then throw (ConflictException
                    "Cannot remove the last role. User must have at least one role.")
      else
        userRole_delete (ur_id userRole) ;;;
        ret (mkRemoveRoleResult "Role removed successfully" userId userKey role)
    end
  end.

Definition _updateUserRolesByUserId (userId : Z) (userKey : string) (roleCodes : list string)
    : M Db UpdateUserRolesResult :=
  if bool_decide (length roleCodes = 0%nat)
  then throw (ConflictException "User must have at least one role")
  else
    roles <- gets (role_findManyByCodes roleCodes) ;;
    if bool_decide (length roles <> length roleCodes)
    then throw (NotFoundException
                  ("Roles not found: "
                   +:+ String.concat ", " (notFoundCodes (map role_code roles) roleCodes)))
    else
      let roleIds := map role_id roles in
      transaction (
        deletedCount <- userRole_deleteMany userId ;;
        userRole_createMany (map (fun roleId => (userId, roleId)) roleIds) ;;;
        updatedUserRoles <- gets (user_roles userId) ;;
        ret (mkUpdateUserRolesResult "User roles updated successfully"
               userId userKey updatedUserRoles)).

(** *** UserContextService *)

(** [Set.prototype.add] on a set kept in insertion order. *)
Definition Set_add (s : list string) (x : string) : list string :=
  if decide (x ∈ s) then s else s ++ [x].

Definition getUserPermissions (userId : Z) (db : Db) : list string :=
  fold_left
    (fun permissions r =>
       fold_left (fun permissions p => Set_add permissions (perm_code p))
                 (role_permissions (role_id r) db) permissions)
    (user_roles userId db) [].

Definition hasPermission (userId : Z) (permissionCode : string) (db : Db) : bool :=
  bool_decide (permissionCode ∈ getUserPermissions userId db).

(** *** RoleService *)


Section RoleService.

(** [String.prototype.toLowerCase]; the results below hold for whatever it
    computes. *)
Variable toLowerCase : string -> string.


End RoleService.

Definition updateRolePermissions (roleId : Z) (permissionCodes : list string)
    : M Db (option (Role * list Permission)) :=
  role <- gets (role_findById roleId) ;;
  match role with
  | None => throw (NotFoundException ("Role with ID " +:+ pretty roleId +:+ " not found"))
  | Some role =>
    newPermissions <-
      (if bool_decide (0 < length permissionCodes)%nat
       then gets (permission_findManyByCodes permissionCodes)
       else ret []) ;;
    transaction (
      deletedCount <- rolePermission_deleteMany roleId ;;
      (if bool_decide (0 < length newPermissions)%nat
       then rolePermission_createMany (map (fun p => (roleId, perm_id p)) newPermissions)
       else ret tt) ;;;
      role_touch roleId ;;;
      gets (fun db => r ← role_findById roleId db;
                      Some (r, role_permissions roleId db)))
  end.

(** *** Stores and values the statements refer to *)

(** A store for the examples: roles admin, editor and user; editor holds
    plan:read and plan:update, admin holds plan:read and user:delete; user
    100 is an editor, user 200 is admin and user, user 300 has no role. *)
Definition sample_roles : list Role :=
  [ mkRole 1 "Admin" "admin" None true;
    mkRole 2 "Editor" "editor" None false;
    mkRole 3 "User" "user" None true ].

Definition sample_permissions : list Permission :=
  [ mkPermission 1 "Read plans" "plan:read" "plan" "read";
    mkPermission 2 "Update plans" "plan:update" "plan" "update";
    mkPermission 3 "Delete users" "user:delete" "user" "delete" ].

Definition sample_db : Db :=
  mkDb sample_roles sample_permissions
       [ mkRolePermission 1 2 1; mkRolePermission 2 2 2;
         mkRolePermission 3 1 1; mkRolePermission 4 1 3 ]
       [ mkUserRole 1 100 2; mkUserRole 2 200 1; mkUserRole 3 200 3 ]
       3 4 3.

(** The accumulation over the user's roles, from any starting set. *)
Definition collect (db : Db) (roles : list Role) (s : list string) : list string :=
  fold_left
    (fun permissions r =>
       fold_left (fun permissions p => Set_add permissions (perm_code p))
                 (role_permissions (role_id r) db) permissions)
    roles s.

(** The union the specification describes, as a finite set. *)
Definition permission_union (userId : Z) (db : Db) : gset string :=
  ⋃ ((fun r => list_to_set (perm_code <$> role_permissions (role_id r) db))
       <$> user_roles userId db).

(** The store after one more row is added to [user_roles]. *)
Definition with_userRole (ur : UserRole) (db : Db) : Db :=
  mkDb (role db) (permission db) (rolePermission db) (userRole db ++ [ur])
       (role_seq db) (rolePermission_seq db) (userRole_seq db).

Definition set_userRole (rows : list UserRole) (seq : Z) (db : Db) : Db :=
  mkDb (role db) (permission db) (rolePermission db) rows
       (role_seq db) (rolePermission_seq db) seq.

(** The rows a batch of role ids adds for one user. *)
Definition new_userRoles (userId : Z) (seq : Z) (roleIds : list Z) : list UserRole :=
  number_rows (fun i k => mkUserRole i k.1 k.2) seq (map (fun roleId => (userId, roleId)) roleIds).

Definition new_rolePermissions (roleId : Z) (seq : Z) (perms : list Permission)
    : list RolePermission :=
  number_rows (fun i k => mkRolePermission i k.1 k.2) seq
              (map (fun p => (roleId, perm_id p)) perms).

(** The store after the permissions of [roleId] are replaced by [perms]. *)
Definition replaced_permissions (roleId : Z) (perms : list Permission) (db : Db) : Db :=
  mkDb (role db) (permission db)
       (filter (fun rp => rp_role_id rp <> roleId) (rolePermission db)
          ++ new_rolePermissions roleId (rolePermission_seq db) perms)
       (userRole db) (role_seq db)
       (rolePermission_seq db + Z.of_nat (length perms)) (userRole_seq db).


(** The roles of a request the user does not hold yet. *)
Definition not_yet_held (userId : Z) (roleCodes : list string) (db : Db) : list Role :=
  filter (fun r => role_id r ∉ map ur_role_id (userRole_findMany userId db))
         (role_findManyByCodes roleCodes db).

(** *** UserContextService: role tests *)

(** [findFirst({ where: { user_id, role: { code ... } } })]: the first
    [user_roles] row of the user whose role row passes the test. *)
Definition userRole_findFirstByRole (userId : Z) (test : Role -> bool) (db : Db)
    : option UserRole :=
  find (fun ur => bool_decide (ur_user_id ur = userId)
                  && match role_findById (ur_role_id ur) db with
                     | Some r => test r
                     | None => false
                     end)
       (userRole db).

(** The role code is compared by the store, inside the query. *)
Definition hasRole (userId : Z) (roleCode : string) (db : Db) : bool :=
  match userRole_findFirstByRole userId
          (fun r => bool_decide (weight (role_code r) = weight roleCode)) db with
  | Some _ => true
  | None => false
  end.

Definition hasAnyRole (userId : Z) (roleCodes : list string) (db : Db) : bool :=
  match userRole_findFirstByRole userId
          (fun r => bool_decide (weight (role_code r) ∈ map weight roleCodes)) db with
  | Some _ => true
  | None => false
  end.

(** Here the codes are compared by the service, with [includes]. *)
Definition hasAllRoles (userId : Z) (roleCodes : list string) (db : Db) : bool :=
  let userRoleCodes := map role_code (user_roles userId db) in
  forallb (fun code => bool_decide (code ∈ userRoleCodes)) roleCodes.

(** *** RolesGuard and PermissionsGuard *)

(** What the guards read from the request: [request.user], absent for an
    anonymous request, with its [id]. *)
Record RequestUser : Type := mkRequestUser {
  ru_id : option Z;
}.

(** [!user || !user.id]. *)
Definition unauthenticated (user : option RequestUser) : bool :=
  match user with
  | None => true
  | Some u => negb (truthy_num (ru_id u))
  end.

Definition request_user_id (user : option RequestUser) : Z :=
  default 0 (user ≫= ru_id).

(** [RolesGuard.canActivate], given the roles the handler metadata
    requires. *)
Definition RolesGuard_canActivate (requiredRoles : option (list string))
    (user : option RequestUser) : M Db bool :=
  if match requiredRoles with
     | None => true
     | Some roles => bool_decide (length roles = 0%nat)
     end
  then ret true
  else
    let roles := default [] requiredRoles in
    if unauthenticated user
    then throw (ForbiddenException "User not authenticated")
    else
      hasAnyRole <- gets (hasAnyRole (request_user_id user) roles) ;;
      if negb hasAnyRole
      then throw (ForbiddenException
                    ("Insufficient roles. Required one of: " +:+ String.concat ", " roles))
      else ret true.

(** [PermissionsGuard.canActivate]. *)
Definition PermissionsGuard_canActivate (requiredPermissions : option (list string))
    (user : option RequestUser) : M Db bool :=
  if match requiredPermissions with
     | None => true
     | Some permissions => bool_decide (length permissions = 0%nat)
     end
  then ret true
  else
    let permissions := default [] requiredPermissions in
    if unauthenticated user
    then throw (ForbiddenException "User not authenticated")
    else
      userPermissions <- gets (getUserPermissions (request_user_id user)) ;;
      let hasAllPermissions :=
        forallb (fun permission => bool_decide (permission ∈ userPermissions)) permissions in
      if negb hasAllPermissions
      then throw (ForbiddenException
                    ("Insufficient permissions. Required: "
                     +:+ String.concat ", " permissions))
      else ret true.

(** *** RoleService: renaming and deleting a role *)

(** [_count.user_roles] of a role row. *)
Definition role_user_count (roleId : Z) (db : Db) : nat :=
  length (filter (fun ur => ur_role_id ur = roleId) (userRole db)).

(** [prisma.role.delete]; the foreign keys of [role_permissions] and
    [user_roles] are declared ON DELETE CASCADE. *)
Definition role_delete (roleId : Z) : M Db unit :=
  fun db =>
    match remove_by_id role_id roleId (role db) with
    | None => (Err (PrismaClientKnownRequestError "P2025"), db)
    | Some roles =>
      (Ok tt,
       mkDb roles (permission db)
            (filter (fun rp => rp_role_id rp <> roleId) (rolePermission db))
            (filter (fun ur => ur_role_id ur <> roleId) (userRole db))
            (role_seq db) (rolePermission_seq db) (userRole_seq db))
    end.

Record DeleteRoleResult : Type := mkDeleteRoleResult {
  dr_message : string;
  dr_roleId : Z;
  dr_roleName : string;
}.

Definition deleteRole (roleId : Z) : M Db DeleteRoleResult :=
  role <- gets (role_findById roleId) ;;
  match role with
  | None => throw (NotFoundException ("Role with ID " +:+ pretty roleId +:+ " not found"))
  | Some r =>
    if role_is_system r
    then throw (BadRequestException "Cannot delete system role")
    else
      count <- gets (role_user_count roleId) ;;
      if bool_decide (0 < count)%nat
      then throw (BadRequestException
                    ("Cannot delete role: " +:+ pretty count
                     +:+ " user(s) are using this role"))
      else
        role_delete roleId ;;;
        ret (mkDeleteRoleResult "Role deleted successfully" roleId (role_name r))
  end.




(** *** Store invariants the further statements refer to *)




End Store.

End Rbac.

(** * Equations of the service monad *)

(** Unfold the monad layer of a service method applied to a store. *)
Ltac run := unfold bind, gets, throw, ret, transaction in *; simpl in *.
Ltac step := unfold bind, gets, throw, ret, transaction; cbv beta.

Section MonadFacts.
Context {S A B : Type}.

Lemma bind_ok (m : M S A) (k : A -> M S B) (s s' : S) (a : A) :
  m s = (Ok a, s') -> bind m k s = k a s'.
Proof. intros H. unfold bind. rewrite H. reflexivity. Qed.


Lemma transaction_ok (m : M S A) (s s' : S) (a : A) :
  m s = (Ok a, s') -> transaction m s = (Ok a, s').
Proof. intros H. unfold transaction. rewrite H. reflexivity. Qed.

End MonadFacts.

(** * Properties of the plan participant hierarchy *)

Module PlanFacts.
Import Plan.

Section WithEnginePlan.
Context {E : Engine}.

Lemma roleLevel_range r : 1 <= roleLevel r <= 4.
Proof. destruct r; simpl; lia. Qed.

Lemma roleLevel_inj r1 r2 : roleLevel r1 = roleLevel r2 -> r1 = r2.
Proof. destruct r1, r2; simpl; intros H; try reflexivity; discriminate H. Qed.

(** [findUserByKeyOrPhone] only reads the store, and never answers with a
    Conflict. *)
Lemma findUserByKeyOrPhone_outcome uk ph db :
  (findUserByKeyOrPhone uk ph db).2 = db /\
  forall message, (findUserByKeyOrPhone uk ph db).1 <> Err (ConflictException message).
Proof.
  unfold findUserByKeyOrPhone.
  destruct (truthy uk), (truthy ph); simpl; step;
    try (split; [reflexivity | intros message Hc; discriminate Hc]);
    match goal with |- context [find ?f ?l] => destruct (find f l) end;
    (split; [reflexivity | intros message Hc; discriminate Hc]).
Qed.

Lemma findUserByKeyOrPhone_reads uk ph db :
  (findUserByKeyOrPhone uk ph db).2 = db.
Proof. apply findUserByKeyOrPhone_outcome. Qed.

Lemma findUserByKeyOrPhone_cases uk ph db :
  findUserByKeyOrPhone uk ph db = ((findUserByKeyOrPhone uk ph db).1, db).
Proof.
  rewrite <- (findUserByKeyOrPhone_reads uk ph db) at 3.
  destruct (findUserByKeyOrPhone uk ph db); reflexivity.
Qed.

(** A user the lookup returns is a row of [users]. *)
Lemma findUserByKeyOrPhone_registered uk ph db t :
  (findUserByKeyOrPhone uk ph db).1 = Ok t -> t ∈ map u_id (user db).
Proof.
  unfold findUserByKeyOrPhone.
  destruct (truthy uk), (truthy ph); simpl; step; try discriminate;
    match goal with |- context [find ?f ?l] => destruct (find f l) as [u|] eqn:Hfind end;
    simpl; try discriminate; intros Heq; injection Heq as <-;
    apply find_some in Hfind; destruct Hfind as [Hin _];
    apply list_elem_of_fmap; exists u; (split; [reflexivity | apply list_elem_of_In, Hin]).
Qed.

(** C1.  [canRemoveMember] answers true exactly when operator and target
    are both participants, the operator ranks at least admin, and either the
    operator is the owner and the target is not an owner, or the operator is
    an admin ranking strictly above the target; the ranks are viewer 1,
    member 2, admin 3, owner 4.  Hence an admin never removes an admin or
    the owner, and an owner never removes an owner. *)
Theorem canRemoveMember_spec :
  (roleLevel viewer = 1 /\ roleLevel member = 2 /\ roleLevel admin = 3 /\ roleLevel owner = 4) /\
  (forall (planId operatorId targetUserId : Z) (db : Db),
      canRemoveMember planId operatorId targetUserId db = true <->
      exists operatorRole targetRole,
        getUserRole planId operatorId db = Some operatorRole /\
        getUserRole planId targetUserId db = Some targetRole /\
        roleLevel operatorRole >= roleLevel admin /\
        ((operatorRole = owner /\ targetRole <> owner) \/
         (operatorRole = admin /\ roleLevel operatorRole > roleLevel targetRole))) /\
  (forall (planId operatorId targetUserId : Z) (db : Db) (targetRole : ParticipantRole),
      getUserRole planId operatorId db = Some admin ->
      getUserRole planId targetUserId db = Some targetRole ->
      targetRole = admin \/ targetRole = owner ->
      canRemoveMember planId operatorId targetUserId db = false) /\
  (forall (planId operatorId targetUserId : Z) (db : Db),
      getUserRole planId operatorId db = Some owner ->
      getUserRole planId targetUserId db = Some owner ->
      canRemoveMember planId operatorId targetUserId db = false).
Proof.
  split; [repeat split|]. split; [|split].
  - intros planId o t db. unfold canRemoveMember. split.
    + destruct (getUserRole planId o db) as [ro|] eqn:Ho; [|discriminate].
      destruct (getUserRole planId t db) as [rt|] eqn:Ht; [|discriminate].
      intros H. exists ro, rt. split; [reflexivity|]. split; [reflexivity|].
      destruct ro, rt; simpl in H; try discriminate H; simpl;
        (split; [lia|]); ((left; split; congruence) || (right; split; [reflexivity|lia])).
    + intros (ro & rt & -> & -> & Hge & [[-> Hne]|[-> Hgt]]).
      * destruct rt; simpl; try reflexivity. congruence.
      * destruct rt; simpl in *; try reflexivity; lia.
  - intros planId o t db rt Ho Ht Hrt. unfold canRemoveMember.
    rewrite Ho, Ht. destruct Hrt as [-> | ->]; reflexivity.
  - intros planId o t db Ho Ht. unfold canRemoveMember.
    rewrite Ho, Ht. reflexivity.
Qed.

(** C9.  A user never passes the remove-member check against themselves,
    whatever role they hold; so [removeParticipant] answers a self-removal
    with the Forbidden error of the permission check, and no call ever
    reaches its Conflict branch. *)
Theorem self_removal_forbidden :
  (forall (planId userId : Z) (db : Db),
      canRemoveMember planId userId userId db = false) /\
  (forall (planId operatorId : Z) (user_key phone : option string) (db : Db),
      (findUserByKeyOrPhone user_key phone db).1 = Ok operatorId ->
      removeParticipant planId user_key phone operatorId db =
      (Err (ForbiddenException "You do not have permission to remove this participant"), db)) /\
  (forall (planId operatorId : Z) (user_key phone : option string) (db : Db) (message : string),
      (removeParticipant planId user_key phone operatorId db).1
      <> Err (ConflictException message)).
Proof.
  assert (Hself : forall planId userId db, canRemoveMember planId userId userId db = false).
  { intros planId u db. unfold canRemoveMember.
    destruct (getUserRole planId u db) as [[]|]; reflexivity. }
  split; [exact Hself|]. split.
  - intros planId o uk ph db Hfind. unfold removeParticipant, bind at 1.
    rewrite findUserByKeyOrPhone_cases, Hfind. run. rewrite Hself. reflexivity.
  - intros planId o uk ph db msg. unfold removeParticipant, bind at 1.
    rewrite findUserByKeyOrPhone_cases.
    destruct (findUserByKeyOrPhone uk ph db).1 as [t|e] eqn:Hfind.
    + run. destruct (canRemoveMember planId o t db) eqn:Hcan; simpl;
        [|intros Hc; discriminate Hc].
      destruct (bool_decide (t = o)) eqn:Hto.
      * apply bool_decide_eq_true in Hto. subst t.
        rewrite (Hself planId o db) in Hcan. discriminate Hcan.
      * unfold planParticipant_delete.
        destruct (planParticipant db !! (planId, t)) as [r|] eqn:Hp;
          [|intros Hc; discriminate Hc].
        destruct (bool_decide (r = owner)); simpl; [intros Hc; discriminate Hc|].
        rewrite Hp. simpl. intros Hc; discriminate Hc.
    + simpl. intros Hc. injection Hc as ->.
      exact (proj2 (findUserByKeyOrPhone_outcome uk ph db) msg Hfind).
Qed.

(** A transfer that throws leaves the store as it was: none of the three
    writes is visible. *)
Lemma transferOwnership_rollback planId currentOwnerId newOwnerId db e :
  (transferOwnership planId currentOwnerId newOwnerId db).1 = Err e ->
  (transferOwnership planId currentOwnerId newOwnerId db).2 = db.
Proof.
  unfold transferOwnership. run.
  destruct (bool_decide (planParticipant db !! (planId, currentOwnerId) <> Some owner));
    [reflexivity|].
  destruct (planParticipant db !! (planId, newOwnerId)); [|reflexivity].
  match goal with |- context [match ?m with _ => _ end] => destruct m as [[a|e'] s'] end;
    [discriminate | reflexivity].
Qed.

(** C2, amended.  When the caller holds the owner role in plan P and the
    target is another participant of P, [transferOwnership] succeeds;
    afterwards the caller is admin, the target is owner and the plan's
    creator is the target, every other row being untouched.  The three
    writes are one transaction: a call that throws changes nothing. *)
Theorem transferOwnership_spec (planId currentOwnerId newOwnerId : Z) (db : Db) (p : PlanRow) :
  plan db !! planId = Some p ->
  getUserRole planId currentOwnerId db = Some owner ->
  is_Some (getUserRole planId newOwnerId db) ->
  currentOwnerId <> newOwnerId ->
  (exists r, transferOwnership planId currentOwnerId newOwnerId db =
             (Ok r, transferred planId currentOwnerId newOwnerId p db)) /\
  getUserRole planId currentOwnerId (transferred planId currentOwnerId newOwnerId p db)
    = Some admin /\
  getUserRole planId newOwnerId (transferred planId currentOwnerId newOwnerId p db)
    = Some owner /\
  p_creator <$> plan (transferred planId currentOwnerId newOwnerId p db) !! planId
    = Some newOwnerId /\
  (forall planId' currentOwnerId' newOwnerId' db' e,
      (transferOwnership planId' currentOwnerId' newOwnerId' db').1 = Err e ->
      (transferOwnership planId' currentOwnerId' newOwnerId' db').2 = db').
Proof.
  intros Hplan Hcur [r0 Hnew] Hne. unfold getUserRole in *.
  split; [|split; [|split; [|split]]].
  - unfold transferOwnership. run. rewrite Hcur.
    rewrite bool_decide_eq_false_2 by (intros Hc; apply Hc; reflexivity).
    rewrite Hnew.
    unfold planParticipant_update at 1. rewrite Hcur.
    unfold planParticipant_update. simpl.
    rewrite lookup_insert_ne by congruence. rewrite Hnew.
    unfold plan_update_creator. simpl. rewrite Hplan.
    eexists. reflexivity.
  - simpl. rewrite lookup_insert_ne by congruence. apply lookup_insert_eq.
  - simpl. apply lookup_insert_eq.
  - simpl. rewrite lookup_insert_eq. reflexivity.
  - intros. eapply transferOwnership_rollback; eassumption.
Qed.

(** [updateParticipantRole] writes only on success. *)
Lemma updateParticipantRole_outcome planId operatorId updateDto db :
  match updateParticipantRole planId operatorId updateDto db with
  | (Err _, db') => db' = db
  | (Ok _, _) => True
  end.
Proof.
  unfold updateParticipantRole, bind at 1. unfold gets at 1.
  destruct (negb (canChangeRole planId operatorId db)); [reflexivity|].
  unfold bind at 1. rewrite findUserByKeyOrPhone_cases.
  destruct (findUserByKeyOrPhone _ _ db).1 as [t|e0]; [|reflexivity].
  run. destruct (planParticipant db !! (planId, t)) as [r|] eqn:Hp; [|reflexivity].
  destruct (bool_decide (t = operatorId)); [reflexivity|].
  destruct (bool_decide (r = owner)); [reflexivity|].
  destruct (bool_decide (upd_role updateDto = owner)); [reflexivity|].
  unfold planParticipant_update. rewrite Hp. exact I.
Qed.

Lemma updateParticipantRole_denied_keeps planId operatorId updateDto db e :
  (updateParticipantRole planId operatorId updateDto db).1 = Err e ->
  (updateParticipantRole planId operatorId updateDto db).2 = db.
Proof.
  pose proof (updateParticipantRole_outcome planId operatorId updateDto db) as H.
  destruct (updateParticipantRole planId operatorId updateDto db) as [[a|e'] db'];
    simpl; [discriminate | intros _; exact H].
Qed.

(** C5, amended.  For an operator holding the owner role and a request
    whose target resolves to a participant of the plan,
    [updateParticipantRole] refuses: with Conflict when the target is the
    operator; with Forbidden when another target holds the owner role; with
    Forbidden when the requested role is owner.  Whenever the call refuses,
    for whatever reason, every stored role is as before. *)
Theorem updateParticipantRole_denials
    (planId operatorId targetUser : Z) (updateDto : UpdateParticipantRoleDto)
    (targetRole : ParticipantRole) (db : Db) :
  getUserRole planId operatorId db = Some owner ->
  (findUserByKeyOrPhone (upd_user_key updateDto) (upd_phone updateDto) db).1 = Ok targetUser ->
  getUserRole planId targetUser db = Some targetRole ->
  (targetUser = operatorId ->
     updateParticipantRole planId operatorId updateDto db =
     (Err (ConflictException "Cannot change your own role"), db)) /\
  (targetUser <> operatorId -> targetRole = owner ->
     updateParticipantRole planId operatorId updateDto db =
     (Err (ForbiddenException "Cannot change owner role. Use transfer ownership instead."),
      db)) /\
  (targetUser <> operatorId -> targetRole <> owner -> upd_role updateDto = owner ->
     updateParticipantRole planId operatorId updateDto db =
     (Err (ForbiddenException "Cannot assign owner role. Use transfer ownership instead."),
      db)) /\
  (forall planId' operatorId' updateDto' db' e,
      (updateParticipantRole planId' operatorId' updateDto' db').1 = Err e ->
      (updateParticipantRole planId' operatorId' updateDto' db').2 = db').
Proof.
  intros Hop Hfind Htarget.
  assert (Hrun : updateParticipantRole planId operatorId updateDto db =
    (if bool_decide (targetUser = operatorId)
     then throw (ConflictException "Cannot change your own role")
     else if bool_decide (targetRole = owner)
     then throw (ForbiddenException
                   "Cannot change owner role. Use transfer ownership instead.")
     else if bool_decide (upd_role updateDto = owner)
     then throw (ForbiddenException
                   "Cannot assign owner role. Use transfer ownership instead.")
     else planParticipant_update planId targetUser (upd_role updateDto)) db).
  { unfold updateParticipantRole, bind at 1. unfold gets at 1.
    unfold canChangeRole, hasRole. rewrite Hop. simpl.
    unfold bind at 1. rewrite findUserByKeyOrPhone_cases, Hfind.
    unfold getUserRole in Htarget. run. rewrite Htarget. reflexivity. }
  rewrite Hrun. clear Hrun. split; [|split; [|split]].
  - intros ->. rewrite bool_decide_eq_true_2 by reflexivity. reflexivity.
  - intros Hne ->. rewrite bool_decide_eq_false_2 by assumption.
    rewrite bool_decide_eq_true_2 by reflexivity. reflexivity.
  - intros Hne Hno Hrole. rewrite bool_decide_eq_false_2 by assumption.
    rewrite bool_decide_eq_false_2 by assumption.
    rewrite bool_decide_eq_true_2 by assumption. reflexivity.
  - intros. eapply updateParticipantRole_denied_keeps; eassumption.
Qed.

(** [inviteParticipant] writes only on success. *)
Lemma inviteParticipant_outcome planId inviterId inviteDto db :
  match inviteParticipant planId inviterId inviteDto db with
  | (Err _, db') => db' = db
  | (Ok _, _) => True
  end.
Proof.
  unfold inviteParticipant, bind at 1. unfold gets at 1.
  destruct (negb (canInviteMembers planId inviterId db)); [reflexivity|].
  unfold bind at 1. rewrite findUserByKeyOrPhone_cases.
  destruct (findUserByKeyOrPhone _ _ db).1 as [t|e0]; [|reflexivity].
  run. destruct (planParticipant db !! (planId, t)) as [r|] eqn:Hp; [reflexivity|].
  unfold planParticipant_create.
  destruct (isElevated (inv_role inviteDto)).
  - destruct (bool_decide (getUserRole planId inviterId db <> Some owner)); [reflexivity|].
    destruct (plan db !! planId); [|reflexivity].
    case_bool_decide; [reflexivity|]. rewrite Hp. exact I.
  - destruct (plan db !! planId); [|reflexivity].
    case_bool_decide; [reflexivity|]. rewrite Hp. exact I.
Qed.

(** C8, amended.  An inviter whose role is admin and who asks for the role
    admin or owner is always refused and no participant is added; the error
    is the Forbidden of the elevation check whenever the target resolves to
    a user who is not yet a participant (before that, the target lookup and
    the membership check answer with their own errors).  An inviter whose
    role is owner succeeds with any requested role for such a target, the
    role defaulting to member. *)
Theorem inviteParticipant_elevation
    (planId inviterId : Z) (inviteDto : InviteParticipantDto) (db : Db) :
  (getUserRole planId inviterId db = Some admin ->
   inv_role inviteDto = Some admin \/ inv_role inviteDto = Some owner ->
   (exists e, inviteParticipant planId inviterId inviteDto db = (Err e, db)) /\
   (forall targetUser,
       (findUserByKeyOrPhone (inv_user_key inviteDto) (inv_phone inviteDto) db).1
         = Ok targetUser ->
       getUserRole planId targetUser db = None ->
       inviteParticipant planId inviterId inviteDto db =
       (Err (ForbiddenException "Only owner can invite admin or owner"), db))) /\
  (getUserRole planId inviterId db = Some owner ->
   forall targetUser,
     (findUserByKeyOrPhone (inv_user_key inviteDto) (inv_phone inviteDto) db).1
       = Ok targetUser ->
     getUserRole planId targetUser db = None ->
     is_Some (plan db !! planId) ->
     inviteParticipant planId inviterId inviteDto db =
     (Ok (mkParticipant planId targetUser (default member (inv_role inviteDto))),
      set_planParticipant
        (insert (planId, targetUser) (default member (inv_role inviteDto))) db)).
Proof.
  split.
  - intros Hinv Hrole.
    assert (Helev : isElevated (inv_role inviteDto) = true)
      by (destruct Hrole as [-> | ->]; reflexivity).
    assert (Hforbidden : forall targetUser,
       (findUserByKeyOrPhone (inv_user_key inviteDto) (inv_phone inviteDto) db).1
         = Ok targetUser ->
       getUserRole planId targetUser db = None ->
       inviteParticipant planId inviterId inviteDto db =
       (Err (ForbiddenException "Only owner can invite admin or owner"), db)).
    { intros t Hfind Hnone. unfold inviteParticipant, bind at 1. unfold gets at 1.
      unfold canInviteMembers, hasRole. rewrite Hinv. simpl.
      unfold bind at 1. rewrite findUserByKeyOrPhone_cases, Hfind.
      unfold getUserRole in *. step. rewrite Hnone, Helev, Hinv. reflexivity. }
    split; [|exact Hforbidden].
    pose proof (inviteParticipant_outcome planId inviterId inviteDto db) as Hout.
    destruct (inviteParticipant planId inviterId inviteDto db) as [[a|e] db'] eqn:Hrun.
    + exfalso. revert Hrun. unfold inviteParticipant, bind at 1. unfold gets at 1.
      unfold canInviteMembers, hasRole. rewrite Hinv. simpl.
      unfold bind at 1. rewrite findUserByKeyOrPhone_cases.
      destruct (findUserByKeyOrPhone _ _ db).1 as [t|e0]; [|discriminate].
      unfold getUserRole in *.
      step. destruct (planParticipant db !! (planId, t)); [discriminate|].
      rewrite Helev, Hinv. discriminate.
    + subst db'. exists e. reflexivity.
  - intros Hinv t Hfind Hnone [p Hplan].
    unfold inviteParticipant, bind at 1. unfold gets at 1.
    unfold canInviteMembers, hasRole. rewrite Hinv. simpl.
    unfold bind at 1. rewrite findUserByKeyOrPhone_cases, Hfind.
    pose proof (findUserByKeyOrPhone_registered _ _ _ _ Hfind) as Huser.
    unfold getUserRole in *. step. rewrite Hnone.
    unfold planParticipant_create.
    destruct (isElevated (inv_role inviteDto)); rewrite ?Hinv; simpl;
      rewrite Hplan, (bool_decide_eq_false_2 (t ∉ map u_id (user db))), Hnone
        by (intros Hc; exact (Hc Huser));
      reflexivity.
Qed.

End WithEnginePlan.

(** *** The statements above on [sample_db]

    The examples run on [caseless_engine]. *)

#[local] Existing Instance caseless_engine.

Lemma canRemoveMember_spec_witness :
  canRemoveMember 1 20 10 sample_db = false /\
  canRemoveMember 1 10 10 sample_db = false /\
  canRemoveMember 1 20 30 sample_db = true.
Proof.
  split; [|split].
  - apply (proj1 (proj2 (proj2 canRemoveMember_spec)) 1 20 10 sample_db owner);
      [reflexivity | reflexivity | right; reflexivity].
  - apply (proj2 (proj2 (proj2 canRemoveMember_spec)) 1 10 10 sample_db); reflexivity.
  - apply (proj1 (proj2 canRemoveMember_spec) 1 20 30 sample_db).
    exists admin, member. simpl. repeat split; try reflexivity; try lia.
    right. split; [reflexivity | lia].
Defined.

Lemma self_removal_forbidden_witness :
  removeParticipant 1 (Some "k20") None 20 sample_db =
  (Err (ForbiddenException "You do not have permission to remove this participant"), sample_db).
Proof.
  apply (proj1 (proj2 self_removal_forbidden) 1 20 (Some "k20") None sample_db).
  reflexivity.
Defined.

(** C2, as the claim states it, fails when the caller names themselves as
    the new owner: the transfer succeeds and the caller is still the owner,
    not an admin. *)
Lemma transferOwnership_self_counterexample :
  getUserRole 1 10 sample_db = Some owner /\
  is_Some (getUserRole 1 10 sample_db) /\
  (exists r, (transferOwnership 1 10 10 sample_db).1 = Ok r) /\
  getUserRole 1 10 (transferOwnership 1 10 10 sample_db).2 = Some owner /\
  getUserRole 1 10 (transferOwnership 1 10 10 sample_db).2 <> Some admin.
Proof.
  split; [reflexivity|]. split; [eexists; reflexivity|].
  split; [eexists; vm_compute; reflexivity|].
  split; [vm_compute; reflexivity|].
  vm_compute. discriminate.
Qed.

Lemma transferOwnership_spec_witness :
  getUserRole 1 10 (transferred 1 10 20 (mkPlan false 10) sample_db) = Some admin.
Proof.
  refine (proj1 (proj2 (transferOwnership_spec 1 10 20 sample_db (mkPlan false 10) _ _ _ _))).
  - reflexivity.
  - reflexivity.
  - exists admin. reflexivity.
  - lia.
Defined.

(** C5, as the claim states it, fails for the self-targeting case: the
    owner changing their own role is refused with Conflict, not Forbidden. *)
Lemma updateParticipantRole_self_counterexample :
  getUserRole 1 10 sample_db = Some owner /\
  (findUserByKeyOrPhone (Some "k10") None sample_db).1 = Ok 10 /\
  updateParticipantRole 1 10 (mkUpdateDto 1 (Some "k10") None member) sample_db =
    (Err (ConflictException "Cannot change your own role"), sample_db) /\
  (forall message,
      (updateParticipantRole 1 10 (mkUpdateDto 1 (Some "k10") None member) sample_db).1
      <> Err (ForbiddenException message)).
Proof.
  split; [reflexivity|]. split; [reflexivity|]. split; [reflexivity|].
  intros message. vm_compute. discriminate.
Qed.

Lemma updateParticipantRole_denials_witness :
  updateParticipantRole 1 10 (mkUpdateDto 1 (Some "k30") None owner) sample_db =
  (Err (ForbiddenException "Cannot assign owner role. Use transfer ownership instead."),
   sample_db).
Proof.
  refine (proj1 (proj2 (proj2
    (updateParticipantRole_denials 1 10 30 (mkUpdateDto 1 (Some "k30") None owner)
       member sample_db _ _ _))) _ _ _).
  - reflexivity.
  - reflexivity.
  - reflexivity.
  - lia.
  - discriminate.
  - reflexivity.
Defined.

(** C8, as the claim states it, fails when the invited user already takes
    part in the plan: the admin's elevated invitation is refused with
    Conflict by the earlier membership check, not with Forbidden. *)
Lemma inviteParticipant_conflict_counterexample :
  getUserRole 1 20 sample_db = Some admin /\
  inviteParticipant 1 20 (mkInviteDto 1 (Some "k30") None (Some admin)) sample_db =
    (Err (ConflictException "User is already a participant"), sample_db) /\
  (forall message,
      (inviteParticipant 1 20 (mkInviteDto 1 (Some "k30") None (Some admin)) sample_db).1
      <> Err (ForbiddenException message)).
Proof.
  split; [reflexivity|]. split; [reflexivity|].
  intros message. vm_compute. discriminate.
Qed.

Lemma inviteParticipant_elevation_witness :
  inviteParticipant 1 20 (mkInviteDto 1 (Some "k40") None (Some owner)) sample_db =
    (Err (ForbiddenException "Only owner can invite admin or owner"), sample_db) /\
  inviteParticipant 1 10 (mkInviteDto 1 (Some "k40") None (Some owner)) sample_db =
    (Ok (mkParticipant 1 40 owner),
     set_planParticipant (insert (1, 40) owner) sample_db).
Proof.
  split.
  - refine (proj2 (proj1
      (inviteParticipant_elevation 1 20 (mkInviteDto 1 (Some "k40") None (Some owner)) sample_db)
      _ _) 40 _ _).
    + reflexivity.
    + right. reflexivity.
    + reflexivity.
    + reflexivity.
  - refine (proj2
      (inviteParticipant_elevation 1 10 (mkInviteDto 1 (Some "k40") None (Some owner)) sample_db)
      _ 40 _ _ _).
    + reflexivity.
    + reflexivity.
    + reflexivity.
    + exists (mkPlan false 10). reflexivity.
Defined.

(** *** The scenarios of the specification, run on [sample_db] *)

Example admin_removes_member :
  removeParticipant 1 (Some "k30") None 20 sample_db =
  (Ok "Participant removed successfully", set_planParticipant (delete (1, 30)) sample_db).
Proof. reflexivity. Qed.

Example admin_cannot_remove_owner :
  removeParticipant 1 (Some "k10") None 20 sample_db =
  (Err (ForbiddenException "You do not have permission to remove this participant"),
   sample_db).
Proof. reflexivity. Qed.

(** The target of a removal is looked up in the store: a key spelled in
    another case names the same user where the store disregards case. *)
Example target_in_other_case :
  removeParticipant 1 (Some "K30") None 20 sample_db =
    (Ok "Participant removed successfully",
     set_planParticipant (delete (1, 30)) sample_db) /\
  removeParticipant (E := exact_engine) 1 (Some "K30") None 20 sample_db =
    (Err (NotFoundException
            ("User with user_key " +:+ dquote +:+ "K30" +:+ dquote +:+ " not found")),
     sample_db).
Proof. split; reflexivity. Qed.

Example owner_transfers_to_admin :
  let db' := (transferOwnership 1 10 20 sample_db).2 in
  getUserRole 1 10 db' = Some admin /\ getUserRole 1 20 db' = Some owner /\
  p_creator <$> plan db' !! 1 = Some 20.
Proof. vm_compute. repeat split. Qed.

End PlanFacts.

(** * Properties of the global role/permission relation *)

Module RbacFacts.
Import Rbac.

Section WithEngine.
Context {E : Engine}.

(** *** The insertion-ordered set of [getUserPermissions] *)

Section SetFold.
Context {A : Type} (f : A -> string).

Lemma elem_of_Set_add s x c : c ∈ Set_add s x <-> c ∈ s \/ c = x.
Proof.
  unfold Set_add. destruct (decide (x ∈ s)) as [Hin|Hnin].
  - split; [tauto|]. intros [H| ->]; assumption.
  - rewrite elem_of_app, list_elem_of_singleton. reflexivity.
Qed.

Lemma NoDup_Set_add s x : NoDup s -> NoDup (Set_add s x).
Proof.
  intros Hs. unfold Set_add. destruct (decide (x ∈ s)) as [Hin|Hnin]; [assumption|].
  apply NoDup_app. split; [assumption|]. split.
  - intros y Hy Hx. apply list_elem_of_singleton in Hx. subst y. contradiction.
  - apply NoDup_singleton.
Qed.

Lemma elem_of_fold_Set_add (l : list A) s c :
  c ∈ fold_left (fun acc a => Set_add acc (f a)) l s <->
  c ∈ s \/ exists a, a ∈ l /\ f a = c.
Proof.
  revert s. induction l as [|a l IH]; intros s; simpl.
  - split; [tauto|]. intros [H|(a & Ha & _)]; [assumption|]. inversion Ha.
  - rewrite IH, elem_of_Set_add. split.
    + intros [[H| ->]|(b & Hb & Hf)].
      * left. assumption.
      * right. exists a. split; [left|reflexivity].
      * right. exists b. split; [right; assumption|assumption].
    + intros [H|(b & Hb & Hf)].
      * left. left. assumption.
      * apply elem_of_cons in Hb. destruct Hb as [-> | Hb].
        -- left. right. symmetry. assumption.
        -- right. exists b. split; assumption.
Qed.

Lemma NoDup_fold_Set_add (l : list A) s :
  NoDup s -> NoDup (fold_left (fun acc a => Set_add acc (f a)) l s).
Proof.
  revert s. induction l as [|a l IH]; intros s Hs; simpl; [assumption|].
  apply IH, NoDup_Set_add, Hs.
Qed.

End SetFold.

Lemma elem_of_collect db roles s c :
  c ∈ collect db roles s <->
  c ∈ s \/ exists r p, r ∈ roles /\ p ∈ role_permissions (role_id r) db /\ perm_code p = c.
Proof.
  unfold collect. revert s. induction roles as [|r roles IH]; intros s; simpl.
  - split; [tauto|]. intros [H|(r & p & Hr & _)]; [assumption|]. inversion Hr.
  - rewrite IH, elem_of_fold_Set_add. split.
    + intros [[H|(p & Hp & Hc)]|(r' & p & Hr & Hp & Hc)].
      * left. assumption.
      * right. exists r, p. split; [left|]. split; assumption.
      * right. exists r', p. split; [right; assumption|]. split; assumption.
    + intros [H|(r' & p & Hr & Hp & Hc)].
      * left. left. assumption.
      * apply elem_of_cons in Hr. destruct Hr as [-> | Hr].
        -- left. right. exists p. split; assumption.
        -- right. exists r', p. split; [assumption|]. split; assumption.
Qed.

Lemma NoDup_collect db roles s : NoDup s -> NoDup (collect db roles s).
Proof.
  unfold collect. revert s. induction roles as [|r roles IH]; intros s Hs; simpl;
    [assumption|].
  apply IH, NoDup_fold_Set_add, Hs.
Qed.

Lemma user_roles_with_userRole userId ur db :
  exists extra, user_roles userId (with_userRole ur db) = (user_roles userId db ++ extra)%list.
Proof.
  unfold user_roles, userRole_findMany, with_userRole. simpl.
  rewrite filter_app, omap_app. eexists. reflexivity.
Qed.

(** C6.  [getUserPermissions] returns, without repetition, exactly the
    union of the permission codes of the roles assigned to the user; it is
    empty, not an error, for a user without roles; and giving the user one
    more role never removes a code from the result. *)
Theorem getUserPermissions_union :
  (forall (userId : Z) (db : Db),
      list_to_set (getUserPermissions userId db) = permission_union userId db) /\
  (forall (userId : Z) (db : Db), NoDup (getUserPermissions userId db)) /\
  (forall (userId : Z) (db : Db),
      userRole_findMany userId db = [] -> getUserPermissions userId db = []) /\
  (forall (userId : Z) (db : Db) (ur : UserRole) (c : string),
      ur_user_id ur = userId ->
      c ∈ getUserPermissions userId db ->
      c ∈ getUserPermissions userId (with_userRole ur db)).
Proof.
  split; [|split; [|split]].
  - intros userId db. apply set_eq. intros c.
    rewrite elem_of_list_to_set. change (getUserPermissions userId db)
      with (collect db (user_roles userId db) []).
    rewrite elem_of_collect. unfold permission_union.
    rewrite elem_of_union_list. split.
    + intros [H|(r & p & Hr & Hp & Hc)]; [inversion H|].
      exists (list_to_set (perm_code <$> role_permissions (role_id r) db)). split.
      * apply list_elem_of_fmap. exists r. split; [reflexivity|assumption].
      * apply elem_of_list_to_set, list_elem_of_fmap. exists p. split; [congruence|assumption].
    + intros (X & HX & Hc). apply list_elem_of_fmap in HX. destruct HX as (r & -> & Hr).
      apply elem_of_list_to_set, list_elem_of_fmap in Hc. destruct Hc as (p & -> & Hp).
      right. exists r, p. split; [assumption|]. split; [assumption|reflexivity].
  - intros userId db. apply (NoDup_collect db (user_roles userId db) []), NoDup_nil_2.
  - intros userId db Hnone. unfold getUserPermissions, user_roles. rewrite Hnone.
    reflexivity.
  - intros userId db ur c _ Hc.
    change (c ∈ collect (with_userRole ur db) (user_roles userId (with_userRole ur db)) []).
    change (c ∈ collect db (user_roles userId db) []) in Hc.
    destruct (user_roles_with_userRole userId ur db) as [extra ->].
    apply elem_of_collect. apply elem_of_collect in Hc.
    destruct Hc as [Hc|(r & p & Hr & Hp & Hcode)]; [inversion Hc|].
    right. exists r, p. split; [apply elem_of_app; left; assumption|].
    split; [exact Hp|assumption].
Qed.

(** *** Role mutations of UserService *)

Lemma new_userRoles_role_ids userId seq roleIds :
  map ur_role_id (new_userRoles userId seq roleIds) = roleIds.
Proof.
  unfold new_userRoles. revert seq. induction roleIds as [|i l IH]; intros seq; simpl;
    [reflexivity|]. rewrite IH. reflexivity.
Qed.

Lemma new_userRoles_user userId seq roleIds :
  Forall (fun ur => ur_user_id ur = userId) (new_userRoles userId seq roleIds).
Proof.
  unfold new_userRoles. revert seq. induction roleIds as [|i l IH]; intros seq; simpl;
    constructor; [reflexivity | apply IH].
Qed.

Lemma new_userRoles_length userId seq roleIds :
  length (new_userRoles userId seq roleIds) = length roleIds.
Proof.
  rewrite <- (new_userRoles_role_ids userId seq roleIds) at 2.
  rewrite length_map. reflexivity.
Qed.

Lemma filter_all {A} (P : A -> Prop) `{!forall x, Decision (P x)} (l : list A) :
  Forall P l -> filter P l = l.
Proof.
  induction 1 as [|x l Hx Hl IH]; [reflexivity|].
  rewrite filter_cons_True by assumption. rewrite IH. reflexivity.
Qed.

Lemma filter_none {A} (P : A -> Prop) `{!forall x, Decision (P x)} (l : list A) :
  Forall (fun x => ~ P x) l -> filter P l = [].
Proof.
  induction 1 as [|x l Hx Hl IH]; [reflexivity|].
  rewrite filter_cons_False by assumption. exact IH.
Qed.

Lemma remove_by_id_length {A} (key : A -> Z) (P : A -> Prop) `{!forall x, Decision (P x)}
    (i : Z) (rows rows' : list A) :
  remove_by_id key i rows = Some rows' ->
  length rows = S (length rows') /\
  (length (filter P rows) <= S (length (filter P rows')))%nat.
Proof.
  revert rows'. induction rows as [|r rows IH]; intros rows' Hrm; simpl in Hrm;
    [discriminate|].
  case_bool_decide.
  - injection Hrm as <-. split; [reflexivity|].
    destruct (decide (P r)).
    + rewrite filter_cons_True by assumption. reflexivity.
    + rewrite filter_cons_False by assumption. lia.
  - destruct (remove_by_id key i rows) as [rest|]; [|discriminate].
    injection Hrm as <-. destruct (IH rest eq_refl) as [Hlen Hfilter].
    split; [simpl; lia|].
    destruct (decide (P r)).
    + rewrite !filter_cons_True by assumption. simpl. lia.
    + rewrite !filter_cons_False by assumption. exact Hfilter.
Qed.

(** The decision list of [_removeRoleByUserId], one store read per line. *)
Lemma _removeRoleByUserId_cases userId userKey roleCode db :
  _removeRoleByUserId userId userKey roleCode db =
  match role_findByCode roleCode db with
  | None => (Err (NotFoundException ("Role with code " +:+ roleCode +:+ " not found")), db)
  | Some role =>
    match userRole_findUnique userId (role_id role) db with
    | None => (Err (NotFoundException ("User does not have role: " +:+ role_name role)), db)
    | Some ur =>
      if bool_decide (length (userRole_findMany userId db) = 1%nat)
      then (Err (ConflictException
                   "Cannot remove the last role. User must have at least one role."), db)
      else
        match remove_by_id ur_id (ur_id ur) (userRole db) with
        | None => (Err (PrismaClientKnownRequestError "P2025"), db)
        | Some rows =>
          (Ok (mkRemoveRoleResult "Role removed successfully" userId userKey role),
           set_userRole rows (userRole_seq db) db)
        end
    end
  end.
Proof.
  unfold _removeRoleByUserId. step.
  destruct (role_findByCode roleCode db) as [role|]; [|reflexivity].
  destruct (userRole_findUnique userId (role_id role) db) as [ur|]; [|reflexivity].
  case_bool_decide; [reflexivity|].
  unfold userRole_delete. destruct (remove_by_id ur_id (ur_id ur) (userRole db)); reflexivity.
Qed.

(** The decision list of [_assignRolesByUserId]. *)
Lemma _assignRolesByUserId_cases userId userKey roleCodes db :
  let roles := role_findManyByCodes roleCodes db in
  let newRoleIds :=
    filter (fun i => i ∉ map ur_role_id (userRole_findMany userId db)) (map role_id roles) in
  _assignRolesByUserId userId userKey roleCodes db =
  if bool_decide (length roles <> length roleCodes)
  then (Err (NotFoundException
               ("Roles not found: "
                +:+ String.concat ", " (notFoundCodes (map role_code roles) roleCodes))), db)
  else if bool_decide (length newRoleIds = 0%nat)
  then (Err (ConflictException "All roles are already assigned to this user"), db)
  else if batch_unique (map (fun ur => (ur_user_id ur, ur_role_id ur)) (userRole db))
                       (map (fun roleId => (userId, roleId)) newRoleIds)
  then (Ok (mkAssignRolesResult
              (pretty (length newRoleIds) +:+ " role(s) assigned successfully")
              userId userKey (filter (fun r => role_id r ∈ newRoleIds) roles)),
        set_userRole (userRole db ++ new_userRoles userId (userRole_seq db) newRoleIds)
                     (userRole_seq db + Z.of_nat (length newRoleIds)) db)
  else (Err (PrismaClientKnownRequestError "P2002"), db).
Proof.
  intros roles newRoleIds. unfold _assignRolesByUserId. step. fold roles.
  case_bool_decide; [reflexivity|]. fold newRoleIds.
  case_bool_decide; [reflexivity|].
  unfold userRole_createMany.
  destruct (batch_unique _ _); [|reflexivity].
  rewrite length_map. reflexivity.
Qed.

(** The decision list of [_updateUserRolesByUserId]; the writes are those
    of the transaction body, undone as a whole when the insert is refused. *)
Lemma _updateUserRolesByUserId_cases userId userKey roleCodes db :
  let roles := role_findManyByCodes roleCodes db in
  let kept := filter (fun ur => ur_user_id ur <> userId) (userRole db) in
  let db' := set_userRole (kept ++ new_userRoles userId (userRole_seq db) (map role_id roles))
                          (userRole_seq db + Z.of_nat (length roles)) db in
  _updateUserRolesByUserId userId userKey roleCodes db =
  if bool_decide (length roleCodes = 0%nat)
  then (Err (ConflictException "User must have at least one role"), db)
  else if bool_decide (length roles <> length roleCodes)
  then (Err (NotFoundException
               ("Roles not found: "
                +:+ String.concat ", " (notFoundCodes (map role_code roles) roleCodes))), db)
  else if batch_unique (map (fun ur => (ur_user_id ur, ur_role_id ur)) kept)
                       (map (fun roleId => (userId, roleId)) (map role_id roles))
  then (Ok (mkUpdateUserRolesResult "User roles updated successfully" userId userKey
              (user_roles userId db')), db')
  else (Err (PrismaClientKnownRequestError "P2002"), db).
Proof.
  intros roles kept db'. unfold _updateUserRolesByUserId.
  case_bool_decide; [reflexivity|]. step. fold roles.
  case_bool_decide; [reflexivity|].
  unfold userRole_deleteMany, userRole_createMany. simpl. fold kept.
  destruct (batch_unique _ _); [|reflexivity].
  unfold db', set_userRole, new_userRoles. rewrite !length_map. reflexivity.
Qed.

Lemma held_role_found userId roleId db ur :
  ur ∈ userRole_findMany userId db -> ur_role_id ur = roleId ->
  exists ur', userRole_findUnique userId roleId db = Some ur'.
Proof.
  intros Hin Hrole. apply list_elem_of_filter in Hin. destruct Hin as [Huser Hin].
  unfold userRole_findUnique.
  destruct (find _ (userRole db)) as [ur'|] eqn:Hfind; [exists ur'; reflexivity|].
  apply find_none with (x := ur) in Hfind; [|apply list_elem_of_In, Hin].
  rewrite !bool_decide_eq_true_2 in Hfind by assumption. discriminate.
Qed.

Lemma found_role_held userId roleId db ur :
  userRole_findUnique userId roleId db = Some ur ->
  ur ∈ userRole_findMany userId db /\ ur_role_id ur = roleId.
Proof.
  unfold userRole_findUnique. intros Hfind. apply find_some in Hfind.
  destruct Hfind as [Hin Htest]. apply andb_prop in Htest. destruct Htest as [Hu Hr].
  apply bool_decide_eq_true in Hu, Hr. split; [|assumption].
  apply list_elem_of_filter. split; [assumption|]. apply list_elem_of_In, Hin.
Qed.

Lemma userRole_findMany_replaced userId db kept seq roleIds seq' :
  kept = filter (fun ur => ur_user_id ur <> userId) (userRole db) ->
  userRole_findMany userId (set_userRole (kept ++ new_userRoles userId seq roleIds) seq' db)
  = new_userRoles userId seq roleIds.
Proof.
  intros ->. unfold userRole_findMany, set_userRole. simpl. rewrite filter_app.
  rewrite filter_none, filter_all; [reflexivity| |].
  - apply new_userRoles_user.
  - apply Forall_forall. intros ur Hur. apply list_elem_of_filter in Hur.
    destruct Hur as [Hne _]. exact Hne.
Qed.

Lemma userRole_findMany_extended userId db seq roleIds seq' :
  userRole_findMany userId (set_userRole (userRole db ++ new_userRoles userId seq roleIds) seq' db)
  = (userRole_findMany userId db ++ new_userRoles userId seq roleIds)%list.
Proof.
  unfold userRole_findMany, set_userRole. simpl. rewrite filter_app.
  rewrite (filter_all _ (new_userRoles userId seq roleIds)); [reflexivity|].
  apply new_userRoles_user.
Qed.

(** C7.  Removing the only role a user holds is refused with Conflict and
    changes nothing.  A removal that succeeds found the role code, found
    the user holding that role and counted at least two roles, and deletes
    one row; a removal that fails changes nothing.  After any successful
    removal, assignment or replacement the user holds at least one role. *)
Theorem removeRole_last_role_floor :
  (forall (userId : Z) (userKey roleCode : string) (db : Db) (R : Role) (ur : UserRole),
      role_findByCode roleCode db = Some R ->
      userRole_findMany userId db = [ur] ->
      ur_role_id ur = role_id R ->
      _removeRoleByUserId userId userKey roleCode db =
      (Err (ConflictException
              "Cannot remove the last role. User must have at least one role."), db)) /\
  (forall (userId : Z) (userKey roleCode : string) (db db' : Db) (res : RemoveRoleResult),
      _removeRoleByUserId userId userKey roleCode db = (Ok res, db') ->
      exists (R : Role) (ur : UserRole),
        role_findByCode roleCode db = Some R /\
        ur ∈ userRole_findMany userId db /\ ur_role_id ur = role_id R /\
        (2 <= length (userRole_findMany userId db))%nat /\
        length (userRole db) = S (length (userRole db')) /\
        (1 <= length (userRole_findMany userId db'))%nat) /\
  (forall (userId : Z) (userKey roleCode : string) (db db' : Db) (e : HttpException),
      _removeRoleByUserId userId userKey roleCode db = (Err e, db') -> db' = db) /\
  (forall (userId : Z) (userKey : string) (roleCodes : list string) (db db' : Db)
          (res : AssignRolesResult),
      _assignRolesByUserId userId userKey roleCodes db = (Ok res, db') ->
      (1 <= length (userRole_findMany userId db'))%nat) /\
  (forall (userId : Z) (userKey : string) (roleCodes : list string) (db db' : Db)
          (res : UpdateUserRolesResult),
      _updateUserRolesByUserId userId userKey roleCodes db = (Ok res, db') ->
      (1 <= length (userRole_findMany userId db'))%nat).
Proof.
  split; [|split; [|split; [|split]]].
  - intros userId userKey roleCode db R ur HR Hrows Hrole.
    rewrite _removeRoleByUserId_cases, HR.
    destruct (held_role_found userId (role_id R) db ur) as [ur' ->];
      [rewrite Hrows; left | assumption |].
    rewrite Hrows. reflexivity.
  - intros userId userKey roleCode db db' res. rewrite _removeRoleByUserId_cases.
    destruct (role_findByCode roleCode db) as [R|]; [|discriminate].
    destruct (userRole_findUnique userId (role_id R) db) as [ur|] eqn:Hur; [|discriminate].
    case_bool_decide as Hcount; [discriminate|].
    destruct (remove_by_id ur_id (ur_id ur) (userRole db)) as [rows|] eqn:Hrm; [|discriminate].
    intros Heq. injection Heq as _ <-.
    apply found_role_held in Hur. destruct Hur as [Hin Hrole].
    destruct (remove_by_id_length ur_id (fun ur => ur_user_id ur = userId) _ _ _ Hrm)
      as [Hlen Hfilter].
    assert (Hpos : (1 <= length (userRole_findMany userId db))%nat).
    { destruct (userRole_findMany userId db); [inversion Hin | simpl; lia]. }
    exists R, ur. split; [reflexivity|]. split; [assumption|]. split; [assumption|].
    unfold userRole_findMany in *. simpl. repeat split; lia.
  - intros userId userKey roleCode db db' e. rewrite _removeRoleByUserId_cases.
    destruct (role_findByCode roleCode db) as [R|]; [|intros [= _ <-]; reflexivity].
    destruct (userRole_findUnique userId (role_id R) db) as [ur|];
      [|intros [= _ <-]; reflexivity].
    case_bool_decide; [intros [= _ <-]; reflexivity|].
    destruct (remove_by_id ur_id (ur_id ur) (userRole db));
      [discriminate | intros [= _ <-]; reflexivity].
  - intros userId userKey roleCodes db db' res.
    rewrite _assignRolesByUserId_cases.
    case_bool_decide; [discriminate|].
    case_bool_decide as Hnew; [discriminate|].
    destruct (batch_unique _ _); [|discriminate].
    intros Heq. injection Heq as _ <-.
    rewrite userRole_findMany_extended, length_app, new_userRoles_length. lia.
  - intros userId userKey roleCodes db db' res.
    rewrite _updateUserRolesByUserId_cases.
    case_bool_decide as Hempty; [discriminate|].
    case_bool_decide as Hlen; [discriminate|].
    destruct (batch_unique _ _); [|discriminate].
    intros Heq. injection Heq as _ <-.
    rewrite userRole_findMany_replaced by reflexivity.
    rewrite new_userRoles_length, length_map. lia.
Qed.

(** *** The order of an index *)

Lemma insert_before_perm {A} (before : A -> A -> bool) (x : A) (l : list A) :
  insert_before before x l ≡ₚ x :: l.
Proof.
  induction l as [|y l IH]; [reflexivity|]. simpl.
  destruct (before x y); [reflexivity|].
  rewrite IH. apply perm_swap.
Qed.

Lemma index_order_perm {A} (before : A -> A -> bool) (l : list A) :
  index_order before l ≡ₚ l.
Proof.
  induction l as [|x l IH]; [reflexivity|].
  change (index_order before (x :: l)) with (insert_before before x (index_order before l)).
  rewrite insert_before_perm, IH. reflexivity.
Qed.

(** *** Resolving codes against a table with a unique [code] column *)

Lemma filter_ext_in {B} (P Q : B -> Prop) `{!forall x, Decision (P x)}
    `{!forall x, Decision (Q x)} (l : list B) :
  (forall x, x ∈ l -> P x <-> Q x) -> filter P l = filter Q l.
Proof.
  induction l as [|x l IH]; intros Hext; [reflexivity|].
  assert (Hl : filter P l = filter Q l).
  { apply IH. intros y Hy. apply Hext. right. exact Hy. }
  destruct (decide (P x)) as [HP|HP].
  - rewrite !filter_cons_True; [rewrite Hl; reflexivity | | assumption].
    apply Hext; [left | assumption].
  - rewrite !filter_cons_False; [exact Hl | | assumption].
    intros HQ. apply HP, Hext; [left | assumption].
Qed.

Lemma NoDup_map_inj_on {B C} (f : B -> C) (l : list B) (x y : B) :
  NoDup (map f l) -> x ∈ l -> y ∈ l -> f x = f y -> x = y.
Proof.
  induction l as [|z l IH]; intros Hnd Hx Hy Hf; [inversion Hx|].
  simpl in Hnd. apply NoDup_cons in Hnd. destruct Hnd as [Hz Hnd].
  apply elem_of_cons in Hx. apply elem_of_cons in Hy.
  destruct Hx as [-> | Hx], Hy as [-> | Hy].
  - reflexivity.
  - exfalso. apply Hz. rewrite Hf. apply list_elem_of_fmap. exists y.
    split; [reflexivity | exact Hy].
  - exfalso. apply Hz. rewrite <- Hf. apply list_elem_of_fmap. exists x.
    split; [reflexivity | exact Hx].
  - apply IH; assumption.
Qed.

(** The missing codes are found with [includes]: only membership counts. *)
Lemma notFoundCodes_perm (found found' codes : list string) :
  found ≡ₚ found' -> notFoundCodes found codes = notFoundCodes found' codes.
Proof.
  intros Hperm. unfold notFoundCodes. apply filter_ext_in. intros c _.
  rewrite Hperm. reflexivity.
Qed.

Section Resolve.
Context {A : Type} (code : A -> string) (rows : list A).

Lemma elem_of_findManyByCodes (codes : list string) (r : A) :
  r ∈ findManyByCodes code rows codes <->
  r ∈ rows /\ weight (code r) ∈ map weight codes.
Proof. unfold findManyByCodes. rewrite list_elem_of_filter. tauto. Qed.

(** The codes reported missing are exactly the listed codes that are not,
    character by character, the code of a row: a listed code that selects a
    row through its weight but is spelled otherwise is reported too. *)
Lemma notFoundCodes_unresolved (codes : list string) :
  notFoundCodes (map code (findManyByCodes code rows codes)) codes
  = filter (fun c => c ∉ map code rows) codes.
Proof.
  unfold notFoundCodes. apply filter_ext_in. intros c Hc.
  split; intros Hnot Hin; apply Hnot.
  - apply list_elem_of_fmap in Hin. destruct Hin as (r & -> & Hr).
    apply list_elem_of_fmap. exists r. split; [reflexivity|].
    apply elem_of_findManyByCodes. split; [exact Hr|].
    apply list_elem_of_fmap. exists (code r). split; [reflexivity | exact Hc].
  - apply list_elem_of_fmap in Hin. destruct Hin as (r & -> & Hr).
    apply elem_of_findManyByCodes in Hr. destruct Hr as [Hr _].
    apply list_elem_of_fmap. exists r. split; [reflexivity | assumption].
Qed.

Lemma NoDup_weights_found (codes : list string) :
  NoDup (map (fun r => weight (code r)) rows) ->
  NoDup (map (fun r => weight (code r)) (findManyByCodes code rows codes)).
Proof.
  intros Hnd. eapply sublist_NoDup; [exact Hnd|].
  apply (fmap_sublist (fun r => weight (code r))), sublist_filter.
Qed.

Lemma weights_found_listed (codes : list string) (w : string) :
  w ∈ map (fun r => weight (code r)) (findManyByCodes code rows codes) ->
  w ∈ map weight codes /\ w ∈ map (fun r => weight (code r)) rows.
Proof.
  intros Hin. apply list_elem_of_fmap in Hin. destruct Hin as (r & -> & Hr).
  apply elem_of_findManyByCodes in Hr. destruct Hr as [Hr Hlisted].
  split; [exact Hlisted|]. apply list_elem_of_fmap. exists r.
  split; [reflexivity | exact Hr].
Qed.

(** Codes of distinct weights that all select a row: as many rows as
    codes. *)
Lemma found_length_resolved (codes : list string) :
  NoDup (map (fun r => weight (code r)) rows) -> NoDup (map weight codes) ->
  (forall c, c ∈ codes -> weight c ∈ map (fun r => weight (code r)) rows) ->
  length (findManyByCodes code rows codes) = length codes.
Proof.
  intros Hrows Hcodes Hall.
  rewrite <- (length_map (fun r => weight (code r)) (findManyByCodes code rows codes)).
  rewrite <- (length_map weight codes).
  apply Permutation_length, NoDup_Permutation;
    [apply NoDup_weights_found, Hrows | exact Hcodes |].
  intros w. split.
  - intros Hin. apply weights_found_listed in Hin. apply Hin.
  - intros Hw. apply list_elem_of_fmap in Hw. destruct Hw as (c & -> & Hc).
    specialize (Hall c Hc). apply list_elem_of_fmap in Hall.
    destruct Hall as (r & Hw & Hr). apply list_elem_of_fmap. exists r.
    split; [exact Hw|]. apply elem_of_findManyByCodes. split; [exact Hr|].
    rewrite <- Hw. apply list_elem_of_fmap. exists c. split; [reflexivity | exact Hc].
Qed.

(** A listed code that selects no row leaves fewer rows than codes. *)
Lemma found_length_unresolved (codes : list string) (c : string) :
  NoDup (map (fun r => weight (code r)) rows) -> c ∈ codes ->
  weight c ∉ map (fun r => weight (code r)) rows ->
  (length (findManyByCodes code rows codes) < length codes)%nat.
Proof.
  intros Hrows Hc Hmissing.
  rewrite <- (length_map (fun r => weight (code r)) (findManyByCodes code rows codes)).
  rewrite <- (length_map weight codes).
  apply Nat.le_lt_trans
    with (length (filter (fun w => w ∈ map (fun r => weight (code r)) rows)
                         (map weight codes))).
  - apply submseteq_length, NoDup_submseteq; [apply NoDup_weights_found, Hrows|].
    intros w Hin. apply weights_found_listed in Hin.
    apply list_elem_of_filter. split; apply Hin.
  - apply (length_filter_lt _ (map weight codes) (weight c)); [|exact Hmissing].
    apply list_elem_of_fmap. exists c. split; [reflexivity | exact Hc].
Qed.

(** Two listed codes of the same weight, be they the same code twice,
    leave fewer rows than codes, although both may well select a row. *)
Lemma found_length_repeated (codes : list string) :
  NoDup (map (fun r => weight (code r)) rows) -> ~ NoDup (map weight codes) ->
  (length (findManyByCodes code rows codes) < length codes)%nat.
Proof.
  intros Hrows Hrep.
  rewrite <- (length_map (fun r => weight (code r)) (findManyByCodes code rows codes)).
  rewrite <- (length_map weight codes).
  assert (Hsub : map (fun r => weight (code r)) (findManyByCodes code rows codes)
                 ⊆+ map weight codes).
  { apply NoDup_submseteq; [apply NoDup_weights_found, Hrows|].
    intros w Hin. apply weights_found_listed in Hin. apply Hin. }
  pose proof (submseteq_length _ _ Hsub) as Hle.
  destruct (decide (length (map (fun r => weight (code r))
                                (findManyByCodes code rows codes))
                    = length (map weight codes))) as [Heq|Hne]; [|lia].
  exfalso. apply Hrep.
  apply submseteq_length_Permutation in Hsub; [|lia].
  rewrite <- Hsub. apply NoDup_weights_found, Hrows.
Qed.

(** Codes spelled as stored select their rows, and distinct ones have
    distinct weights under the unique index. *)
Lemma exact_code_selects (c : string) :
  c ∈ map code rows -> weight c ∈ map (fun r => weight (code r)) rows.
Proof.
  intros Hc. apply list_elem_of_fmap in Hc. destruct Hc as (r & -> & Hr).
  apply list_elem_of_fmap. exists r. split; [reflexivity | exact Hr].
Qed.


Lemma repeated_codes_weights (codes : list string) :
  ~ NoDup codes -> ~ NoDup (map weight codes).
Proof. intros Hrep Hnd. apply Hrep. exact (NoDup_fmap_1 weight codes Hnd). Qed.


End Resolve.

(** The same for the two tables, in whatever order the engine returns the
    rows. *)
Lemma role_findManyByCodes_perm (codes : list string) db :
  role_findManyByCodes codes db ≡ₚ findManyByCodes role_code (role db) codes.
Proof. apply index_order_perm. Qed.

Lemma permission_findManyByCodes_perm (codes : list string) db :
  permission_findManyByCodes codes db ≡ₚ findManyByCodes perm_code (permission db) codes.
Proof. apply index_order_perm. Qed.

Lemma elem_of_role_findManyByCodes (codes : list string) db r :
  r ∈ role_findManyByCodes codes db <->
  r ∈ role db /\ weight (role_code r) ∈ map weight codes.
Proof. rewrite role_findManyByCodes_perm. apply elem_of_findManyByCodes. Qed.

Lemma elem_of_permission_findManyByCodes (codes : list string) db p :
  p ∈ permission_findManyByCodes codes db <->
  p ∈ permission db /\ weight (perm_code p) ∈ map weight codes.
Proof. rewrite permission_findManyByCodes_perm. apply elem_of_findManyByCodes. Qed.

Lemma role_codes_missing (codes : list string) db :
  notFoundCodes (map role_code (role_findManyByCodes codes db)) codes
  = filter (fun c => c ∉ map role_code (role db)) codes.
Proof.
  rewrite (notFoundCodes_perm _ (map role_code (findManyByCodes role_code (role db) codes)))
    by (apply Permutation_map, role_findManyByCodes_perm).
  apply notFoundCodes_unresolved.
Qed.


Lemma found_permissions_stored (permissionCodes : list string) db :
  Forall (fun p => p ∈ permission db) (permission_findManyByCodes permissionCodes db).
Proof.
  apply Forall_forall. intros p Hp. apply elem_of_permission_findManyByCodes in Hp.
  apply Hp.
Qed.

Lemma permission_ids_found_NoDup (permissionCodes : list string) db :
  NoDup (map perm_id (permission db)) ->
  NoDup (map perm_id (permission_findManyByCodes permissionCodes db)).
Proof.
  intros Hnd. rewrite permission_findManyByCodes_perm.
  eapply sublist_NoDup; [exact Hnd|]. apply (fmap_sublist perm_id), sublist_filter.
Qed.

(** *** RoleService *)

Lemma new_rolePermissions_role roleId seq perms :
  Forall (fun rp => rp_role_id rp = roleId) (new_rolePermissions roleId seq perms).
Proof.
  unfold new_rolePermissions. revert seq. induction perms as [|p l IH]; intros seq; simpl;
    constructor; [reflexivity | apply IH].
Qed.

Lemma new_rolePermissions_ids roleId seq perms :
  map rp_permission_id (new_rolePermissions roleId seq perms) = map perm_id perms.
Proof.
  unfold new_rolePermissions. revert seq. induction perms as [|p l IH]; intros seq; simpl;
    [reflexivity|]. rewrite IH. reflexivity.
Qed.

(** Under the primary key, looking a stored permission up by its id gives
    that permission back. *)
Lemma permission_findById_stored db p :
  NoDup (map perm_id (permission db)) -> p ∈ permission db ->
  permission_findById (perm_id p) db = Some p.
Proof.
  unfold permission_findById. induction (permission db) as [|q l IH]; intros Hnd Hin;
    [inversion Hin|]. simpl in *. apply NoDup_cons in Hnd. destruct Hnd as [Hq Hnd].
  case_bool_decide as Heq.
  - apply elem_of_cons in Hin. destruct Hin as [-> | Hin]; [reflexivity|].
    exfalso. apply Hq. rewrite Heq. apply list_elem_of_fmap. exists p. split; [reflexivity|assumption].
  - apply elem_of_cons in Hin. destruct Hin as [-> | Hin]; [contradiction|].
    apply IH; assumption.
Qed.

Lemma omap_findById_stored db (perms : list Permission) rps :
  NoDup (map perm_id (permission db)) ->
  Forall (fun p => p ∈ permission db) perms ->
  map rp_permission_id rps = map perm_id perms ->
  omap (fun rp => permission_findById (rp_permission_id rp) db) rps = perms.
Proof.
  intros Hnd Hall. revert rps. induction Hall as [|p perms Hp Hall IH]; intros rps Hids.
  - destruct rps; [reflexivity | discriminate].
  - destruct rps as [|rp rps]; [discriminate|]. simpl in Hids.
    injection Hids as Hid Hids. specialize (IH rps Hids).
    assert (Hf : permission_findById (rp_permission_id rp) db = Some p)
      by (rewrite Hid; apply permission_findById_stored; assumption).
    simpl. rewrite Hf. simpl. f_equal. exact IH.
Qed.

Lemma role_permissions_replaced roleId perms db :
  NoDup (map perm_id (permission db)) ->
  Forall (fun p => p ∈ permission db) perms ->
  role_permissions roleId (replaced_permissions roleId perms db) = perms.
Proof.
  intros Hnd Hall. unfold role_permissions, rolePermission_findMany. simpl.
  rewrite filter_app.
  rewrite filter_none, filter_all; simpl.
  - apply (omap_findById_stored (replaced_permissions roleId perms db));
      [exact Hnd | exact Hall | apply new_rolePermissions_ids].
  - apply new_rolePermissions_role.
  - apply Forall_forall. intros rp Hrp. apply list_elem_of_filter in Hrp.
    destruct Hrp as [Hne _]. exact Hne.
Qed.

Lemma batch_unique_fresh {A} (stored : list (Z * Z)) (k : Z) (f : A -> Z) (l : list A) :
  NoDup (map f l) -> Forall (fun s => s.1 <> k) stored ->
  batch_unique stored (map (fun a => (k, f a)) l) = true.
Proof.
  intros Hnd Hstored. unfold batch_unique. apply bool_decide_eq_true_2. split.
  - rewrite <- (map_map f (fun i => (k, i))).
    apply NoDup_fmap_2; [|exact Hnd]. intros i j Hij. congruence.
  - apply Forall_forall. intros x Hx Hin. apply list_elem_of_fmap in Hx.
    destruct Hx as (i & -> & _). rewrite Forall_forall in Hstored.
    apply (Hstored _ Hin). reflexivity.
Qed.

Lemma permission_findManyByCodes_lazy (permissionCodes : list string) db :
  (if bool_decide (0 < length permissionCodes)%nat
   then permission_findManyByCodes permissionCodes db else [])
  = permission_findManyByCodes permissionCodes db.
Proof.
  case_bool_decide as Hlen; [reflexivity|].
  destruct permissionCodes; [|simpl in Hlen; lia].
  unfold permission_findManyByCodes, findManyByCodes. rewrite filter_none; [reflexivity|].
  apply Forall_forall. intros p _ Hin. inversion Hin.
Qed.

Lemma fetch_permissions (permissionCodes : list string) db :
  (if bool_decide (0 < length permissionCodes)%nat
   then gets (permission_findManyByCodes permissionCodes)
   else ret []) db
  = (Ok (permission_findManyByCodes permissionCodes db), db).
Proof.
  rewrite <- (permission_findManyByCodes_lazy permissionCodes db).
  case_bool_decide; reflexivity.
Qed.

Lemma rolePermission_replace roleId (perms : list Permission) db n :
  NoDup (map perm_id perms) ->
  rolePermission_deleteMany roleId db = (Ok n, replaced_permissions roleId [] db) ->
  (if bool_decide (0 < length perms)%nat
   then rolePermission_createMany (map (fun p => (roleId, perm_id p)) perms)
   else ret tt) (replaced_permissions roleId [] db)
  = (Ok tt, replaced_permissions roleId perms db).
Proof.
  intros Hnd _. case_bool_decide as Hlen.
  - unfold rolePermission_createMany.
    rewrite (batch_unique_fresh _ roleId perm_id perms).
    + unfold replaced_permissions, new_rolePermissions. simpl.
      rewrite app_nil_r, Z.add_0_r, length_map. reflexivity.
    + exact Hnd.
    + apply Forall_forall. intros x Hx. apply list_elem_of_fmap in Hx.
      destruct Hx as (rp & -> & Hrp). simpl in Hrp. rewrite app_nil_r in Hrp.
      apply list_elem_of_filter in Hrp. apply Hrp.
  - assert (Hnil : perms = []) by (destruct perms; [reflexivity | simpl in Hlen; lia]).
    rewrite Hnil. reflexivity.
Qed.

(** What [updateRolePermissions] does to an existing role. *)
Lemma updateRolePermissions_run roleId permissionCodes db R :
  NoDup (map perm_id (permission db)) ->
  role_findById roleId db = Some R ->
  updateRolePermissions roleId permissionCodes db =
  (Ok (Some (R, permission_findManyByCodes permissionCodes db)),
   replaced_permissions roleId (permission_findManyByCodes permissionCodes db) db).
Proof.
  intros Hnd HR. set (perms := permission_findManyByCodes permissionCodes db).
  assert (Hstored : Forall (fun p => p ∈ permission db) perms)
    by apply found_permissions_stored.
  assert (Hperms : role_permissions roleId (replaced_permissions roleId perms db) = perms)
    by (apply role_permissions_replaced; assumption).
  assert (Hdel : rolePermission_deleteMany roleId db
                 = (Ok (length (rolePermission_findMany roleId db)),
                    replaced_permissions roleId [] db)).
  { unfold rolePermission_deleteMany, replaced_permissions. simpl.
    rewrite app_nil_r, Z.add_0_r. reflexivity. }
  unfold updateRolePermissions.
  erewrite bind_ok by reflexivity. rewrite HR.
  erewrite bind_ok by apply fetch_permissions. fold perms.
  apply transaction_ok.
  erewrite bind_ok by exact Hdel.
  erewrite bind_ok.
  2:{ eapply rolePermission_replace; [|exact Hdel].
      apply permission_ids_found_NoDup, Hnd. }
  erewrite bind_ok.
  2:{ unfold role_touch.
      change (role_findById roleId (replaced_permissions roleId perms db))
        with (role_findById roleId db).
      rewrite HR. reflexivity. }
  unfold gets.
  change (role_findById roleId (replaced_permissions roleId perms db))
    with (role_findById roleId db).
  rewrite HR, Hperms. reflexivity.
Qed.



(** *** Assigning and replacing the roles of a user *)

Lemma role_findById_stored db r :
  NoDup (map role_id (role db)) -> r ∈ role db ->
  role_findById (role_id r) db = Some r.
Proof.
  unfold role_findById. induction (role db) as [|q l IH]; intros Hnd Hin;
    [inversion Hin|]. simpl in *. apply NoDup_cons in Hnd. destruct Hnd as [Hq Hnd].
  case_bool_decide as Heq.
  - apply elem_of_cons in Hin. destruct Hin as [-> | Hin]; [reflexivity|].
    exfalso. apply Hq. rewrite Heq. apply list_elem_of_fmap. exists r.
    split; [reflexivity | assumption].
  - apply elem_of_cons in Hin. destruct Hin as [-> | Hin]; [contradiction|].
    apply IH; assumption.
Qed.

Lemma omap_role_findById_stored db (roles : list Role) urs :
  NoDup (map role_id (role db)) ->
  Forall (fun r => r ∈ role db) roles ->
  map ur_role_id urs = map role_id roles ->
  omap (fun ur => role_findById (ur_role_id ur) db) urs = roles.
Proof.
  intros Hnd Hall. revert urs. induction Hall as [|r roles Hr Hall IH]; intros urs Hids.
  - destruct urs; [reflexivity | discriminate].
  - destruct urs as [|ur urs]; [discriminate|]. simpl in Hids.
    injection Hids as Hid Hids. specialize (IH urs Hids).
    assert (Hf : role_findById (ur_role_id ur) db = Some r)
      by (rewrite Hid; apply role_findById_stored; assumption).
    simpl. rewrite Hf. simpl. f_equal. exact IH.
Qed.

Lemma batch_unique_intro {A} (stored : list (Z * Z)) (k : Z) (f : A -> Z) (l : list A) :
  NoDup (map f l) -> (forall a, a ∈ l -> (k, f a) ∉ stored) ->
  batch_unique stored (map (fun a => (k, f a)) l) = true.
Proof.
  intros Hnd Hfresh. unfold batch_unique. apply bool_decide_eq_true_2. split.
  - rewrite <- (map_map f (fun i => (k, i))).
    apply NoDup_fmap_2; [|exact Hnd]. intros i j Hij. congruence.
  - apply Forall_forall. intros x Hx. apply list_elem_of_fmap in Hx.
    destruct Hx as (a & -> & Ha). apply Hfresh, Ha.
Qed.

Lemma role_ids_found_NoDup db roleCodes :
  NoDup (map role_id (role db)) -> NoDup (map role_id (role_findManyByCodes roleCodes db)).
Proof.
  intros Hnd. rewrite role_findManyByCodes_perm.
  eapply sublist_NoDup; [exact Hnd|].
  apply (fmap_sublist role_id), sublist_filter.
Qed.


Lemma all_resolved_none_missing db (roleCodes : list string) :
  (forall c, c ∈ roleCodes -> c ∈ map role_code (role db)) ->
  notFoundCodes (map role_code (role_findManyByCodes roleCodes db)) roleCodes = [].
Proof.
  intros Hall. rewrite role_codes_missing. apply filter_none, Forall_forall.
  intros c Hc Hnot. apply Hnot, Hall, Hc.
Qed.

(** A request naming two codes of the same weight, be they the same code
    twice, is answered as if a role were missing. *)
Lemma repeated_weight_length db (roleCodes : list string) :
  Db_wf db -> ~ NoDup (map weight roleCodes) ->
  length (role_findManyByCodes roleCodes db) <> length roleCodes.
Proof.
  intros Hwf Hrep. rewrite role_findManyByCodes_perm.
  pose proof (found_length_repeated role_code (role db) roleCodes (wf_role_code db Hwf) Hrep)
    as Hlt.
  lia.
Qed.

Lemma repeated_code_length db (roleCodes : list string) :
  Db_wf db -> ~ NoDup roleCodes ->
  length (role_findManyByCodes roleCodes db) <> length roleCodes.
Proof.
  intros Hwf Hrep. apply repeated_weight_length; [exact Hwf|].
  apply repeated_codes_weights, Hrep.
Qed.

Lemma selected_length db (roleCodes : list string) :
  Db_wf db -> NoDup (map weight roleCodes) ->
  (forall c, c ∈ roleCodes -> weight c ∈ map (fun r => weight (role_code r)) (role db)) ->
  length (role_findManyByCodes roleCodes db) = length roleCodes.
Proof.
  intros Hwf Hnd Hall. rewrite role_findManyByCodes_perm.
  apply (found_length_resolved role_code (role db) roleCodes (wf_role_code db Hwf) Hnd Hall).
Qed.


Lemma unresolved_length db (roleCodes : list string) c :
  Db_wf db -> c ∈ roleCodes ->
  weight c ∉ map (fun r => weight (role_code r)) (role db) ->
  length (role_findManyByCodes roleCodes db) <> length roleCodes.
Proof.
  intros Hwf Hc Hmissing. rewrite role_findManyByCodes_perm.
  pose proof (found_length_unresolved role_code (role db) roleCodes c
                (wf_role_code db Hwf) Hc Hmissing) as Hlt.
  lia.
Qed.


Lemma filter_map_comm {A B} (f : A -> B) (P : B -> Prop) `{!forall y, Decision (P y)}
    (l : list A) :
  filter P (map f l) = map f (filter (fun a => P (f a)) l).
Proof.
  induction l as [|a l IH]; [reflexivity|]. simpl.
  destruct (decide (P (f a))) as [HP|HP].
  - rewrite !filter_cons_True by assumption. simpl. rewrite IH. reflexivity.
  - rewrite !filter_cons_False by assumption. exact IH.
Qed.

Lemma newRoleIds_not_yet_held userId roleCodes db :
  filter (fun i => i ∉ map ur_role_id (userRole_findMany userId db))
         (map role_id (role_findManyByCodes roleCodes db))
  = map role_id (not_yet_held userId roleCodes db).
Proof.
  unfold not_yet_held.
  exact (filter_map_comm role_id
           (fun i => i ∉ map ur_role_id (userRole_findMany userId db))
           (role_findManyByCodes roleCodes db)).
Qed.

Lemma assigned_not_yet_held userId roleCodes db :
  filter (fun r => role_id r ∈ map role_id (not_yet_held userId roleCodes db))
         (role_findManyByCodes roleCodes db)
  = not_yet_held userId roleCodes db.
Proof.
  unfold not_yet_held at 2. apply filter_ext_in. intros r Hr. split.
  - intros Hin. apply list_elem_of_fmap in Hin. destruct Hin as (r' & Hid & Hr').
    apply list_elem_of_filter in Hr'. destruct Hr' as [Hnew _]. rewrite Hid. exact Hnew.
  - intros Hnew. apply list_elem_of_fmap. exists r. split; [reflexivity|].
    apply list_elem_of_filter. split; assumption.
Qed.

(** When every listed code is spelled as stored or selects nothing, the
    codes reported missing are exactly the codes that select no row. *)
Lemma missing_codes_unselected db (roleCodes : list string) :
  (forall c, c ∈ roleCodes ->
     weight c ∈ map (fun r => weight (role_code r)) (role db) ->
     c ∈ map role_code (role db)) ->
  filter (fun c => c ∉ map role_code (role db)) roleCodes
  = filter (fun c => weight c ∉ map (fun r => weight (role_code r)) (role db)) roleCodes.
Proof.
  intros Hspelled. apply filter_ext_in. intros c Hc. split; intros Hnot Hin; apply Hnot.
  - apply Hspelled; assumption.
  - apply (exact_code_selects role_code), Hin.
Qed.

Lemma elem_of_not_yet_held userId roleCodes db r :
  r ∈ not_yet_held userId roleCodes db <->
  r ∈ role db /\ weight (role_code r) ∈ map weight roleCodes /\
  role_id r ∉ map ur_role_id (userRole_findMany userId db).
Proof.
  unfold not_yet_held. rewrite list_elem_of_filter, elem_of_role_findManyByCodes. tauto.
Qed.

(** C4.  When a listed code selects no role in the store (the column
    compares by weight), [_assignRolesByUserId] fails with NotFound and
    nothing is stored; its message lists the codes that are not, character
    by character, the code of a stored role, which are exactly the codes
    selecting nothing when every other code is spelled as stored.  For a
    list of codes of distinct weights that all select a role: if the user
    holds every role selected it fails with Conflict and nothing is stored;
    otherwise it stores exactly the pairs for the selected roles not held
    yet and returns those roles, in the order the store returned them.  A
    list that repeats a code is refused with NotFound and an empty list of
    missing codes, although every code resolves; so is, with the codes not
    spelled as stored listed, any list with two codes of the same weight. *)
Theorem assignRoles_outcomes :
  (forall (userId : Z) (userKey : string) (roleCodes : list string) (db : Db) (c : string),
      Db_wf db -> c ∈ roleCodes ->
      weight c ∉ map (fun r => weight (role_code r)) (role db) ->
      let missing := filter (fun c => c ∉ map role_code (role db)) roleCodes in
      _assignRolesByUserId userId userKey roleCodes db =
      (Err (NotFoundException ("Roles not found: " +:+ String.concat ", " missing)), db) /\
      c ∈ missing /\
      ((forall c', c' ∈ roleCodes ->
          weight c' ∈ map (fun r => weight (role_code r)) (role db) ->
          c' ∈ map role_code (role db)) ->
       missing = filter (fun c => weight c ∉ map (fun r => weight (role_code r)) (role db))
                        roleCodes)) /\
  (forall (userId : Z) (userKey : string) (roleCodes : list string) (db : Db),
      Db_wf db -> NoDup (map weight roleCodes) ->
      (forall c, c ∈ roleCodes ->
                 weight c ∈ map (fun r => weight (role_code r)) (role db)) ->
      not_yet_held userId roleCodes db = [] ->
      _assignRolesByUserId userId userKey roleCodes db =
      (Err (ConflictException "All roles are already assigned to this user"), db)) /\
  (forall (userId : Z) (userKey : string) (roleCodes : list string) (db : Db),
      Db_wf db -> NoDup (map weight roleCodes) ->
      (forall c, c ∈ roleCodes ->
                 weight c ∈ map (fun r => weight (role_code r)) (role db)) ->
      not_yet_held userId roleCodes db <> [] ->
      (exists message seq,
         _assignRolesByUserId userId userKey roleCodes db =
         (Ok (mkAssignRolesResult message userId userKey (not_yet_held userId roleCodes db)),
          set_userRole
            (userRole db
               ++ new_userRoles userId (userRole_seq db)
                    (map role_id (not_yet_held userId roleCodes db)))
            seq db)) /\
      (forall r, r ∈ not_yet_held userId roleCodes db <->
                 r ∈ role db /\ weight (role_code r) ∈ map weight roleCodes /\
                 role_id r ∉ map ur_role_id (userRole_findMany userId db))) /\
  (forall (userId : Z) (userKey : string) (roleCodes : list string) (db : Db),
      Db_wf db -> ~ NoDup roleCodes ->
      (forall c, c ∈ roleCodes -> c ∈ map role_code (role db)) ->
      _assignRolesByUserId userId userKey roleCodes db =
      (Err (NotFoundException "Roles not found: "), db)) /\
  (forall (userId : Z) (userKey : string) (roleCodes : list string) (db : Db),
      Db_wf db -> ~ NoDup (map weight roleCodes) ->
      _assignRolesByUserId userId userKey roleCodes db =
      (Err (NotFoundException
              ("Roles not found: "
               +:+ String.concat ", "
                     (filter (fun c => c ∉ map role_code (role db)) roleCodes))), db)).
Proof.
  split; [|split; [|split; [|split]]].
  - intros userId userKey roleCodes db c Hwf Hc Hmissing missing. split; [|split].
    + pose proof (_assignRolesByUserId_cases userId userKey roleCodes db) as Hrun.
      cbv zeta in Hrun. rewrite Hrun. clear Hrun.
      rewrite bool_decide_eq_true_2 by (eapply unresolved_length; eassumption).
      rewrite role_codes_missing. reflexivity.
    + apply list_elem_of_filter. split; [|exact Hc].
      intros Hin. apply Hmissing, (exact_code_selects role_code), Hin.
    + apply missing_codes_unselected.
  - intros userId userKey roleCodes db Hwf Hnd Hall Hheld.
    pose proof (_assignRolesByUserId_cases userId userKey roleCodes db) as Hrun.
    cbv zeta in Hrun. rewrite Hrun. clear Hrun.
    rewrite bool_decide_eq_false_2
      by (intros Hlen; apply Hlen, selected_length; assumption).
    rewrite newRoleIds_not_yet_held, Hheld. reflexivity.
  - intros userId userKey roleCodes db Hwf Hnd Hall Hnew.
    split; [|intros r; apply elem_of_not_yet_held].
    pose proof (_assignRolesByUserId_cases userId userKey roleCodes db) as Hrun.
    cbv zeta in Hrun. rewrite Hrun. clear Hrun.
    rewrite bool_decide_eq_false_2
      by (intros Hlen; apply Hlen, selected_length; assumption).
    rewrite newRoleIds_not_yet_held, assigned_not_yet_held.
    rewrite bool_decide_eq_false_2
      by (rewrite length_map; destruct (not_yet_held userId roleCodes db);
          [congruence | discriminate]).
    rewrite map_map.
    rewrite (batch_unique_intro _ userId role_id (not_yet_held userId roleCodes db)).
    + eexists. eexists. reflexivity.
    + eapply sublist_NoDup; [apply (role_ids_found_NoDup db roleCodes), Hwf|].
      apply (fmap_sublist role_id), sublist_filter.
    + intros r Hr Hstored. apply list_elem_of_filter in Hr. destruct Hr as [Hfresh _].
      apply Hfresh. apply list_elem_of_fmap in Hstored.
      destruct Hstored as (ur & Hpair & Hur). injection Hpair as Huser Hrole.
      apply list_elem_of_fmap. exists ur. split; [exact Hrole|].
      apply list_elem_of_filter. split; [symmetry; exact Huser | exact Hur].
  - intros userId userKey roleCodes db Hwf Hrep Hall.
    pose proof (_assignRolesByUserId_cases userId userKey roleCodes db) as Hrun.
    cbv zeta in Hrun. rewrite Hrun. clear Hrun.
    rewrite bool_decide_eq_true_2 by (apply repeated_code_length; assumption).
    rewrite all_resolved_none_missing by assumption. reflexivity.
  - intros userId userKey roleCodes db Hwf Hrep.
    pose proof (_assignRolesByUserId_cases userId userKey roleCodes db) as Hrun.
    cbv zeta in Hrun. rewrite Hrun. clear Hrun.
    rewrite bool_decide_eq_true_2 by (apply repeated_weight_length; assumption).
    rewrite role_codes_missing. reflexivity.
Qed.

End WithEngine.

(** *** The statements above on [sample_db]

    The examples run on [caseless_engine] unless they say otherwise. *)

#[local] Existing Instance caseless_engine.

Lemma sample_db_wf : Db_wf sample_db.
Proof. split; apply (bool_decide_unpack _); vm_compute; exact I. Qed.

Lemma getUserPermissions_union_witness :
  getUserPermissions 300 sample_db = [] /\
  "plan:update" ∈ getUserPermissions 100 (with_userRole (mkUserRole 4 100 1) sample_db).
Proof.
  split.
  - apply (proj1 (proj2 (proj2 getUserPermissions_union)) 300 sample_db). reflexivity.
  - apply (proj2 (proj2 (proj2 getUserPermissions_union)) 100 sample_db).
    + reflexivity.
    + vm_compute. right. left.
Defined.

Lemma removeRole_last_role_floor_witness :
  _removeRoleByUserId 100 "k100" "editor" sample_db =
  (Err (ConflictException
          "Cannot remove the last role. User must have at least one role."), sample_db).
Proof.
  apply (proj1 removeRole_last_role_floor 100 "k100" "editor" sample_db
           (mkRole 2 "Editor" "editor" None false) (mkUserRole 1 100 2));
    reflexivity.
Defined.



Lemma assignRoles_outcomes_witness :
  _assignRolesByUserId 100 "k100" ["admin"; "admin"] sample_db =
  (Err (NotFoundException "Roles not found: "), sample_db).
Proof.
  apply (proj1 (proj2 (proj2 (proj2 assignRoles_outcomes))) 100 "k100" ["admin"; "admin"]
           sample_db sample_db_wf).
  - exact (bool_decide_unpack (~ NoDup ["admin"; "admin"]) I).
  - apply Forall_forall.
    exact (bool_decide_unpack
             (Forall (fun c => c ∈ map role_code (role sample_db)) ["admin"; "admin"]) I).
Defined.

(** *** The scenarios of the specification, run on [sample_db] *)

Example editor_permissions :
  getUserPermissions 100 sample_db = ["plan:read"; "plan:update"].
Proof. reflexivity. Qed.

Example assign_with_unknown_code :
  _assignRolesByUserId 100 "k100" ["admin"; "nonexistent"] sample_db =
  (Err (NotFoundException "Roles not found: nonexistent"), sample_db).
Proof. reflexivity. Qed.

(** A code spelled in another case selects its role on a store that
    disregards case and nothing on one that compares character by
    character; two spellings of one code count as two codes against one
    row. *)
Example assign_other_case :
  (_assignRolesByUserId 100 "k100" ["ADMIN"] sample_db).1 =
    Ok (mkAssignRolesResult "1 role(s) assigned successfully" 100 "k100"
          [mkRole 1 "Admin" "admin" None true]) /\
  _assignRolesByUserId (E := exact_engine) 100 "k100" ["ADMIN"] sample_db =
    (Err (NotFoundException "Roles not found: ADMIN"), sample_db) /\
  _assignRolesByUserId 100 "k100" ["admin"; "ADMIN"] sample_db =
    (Err (NotFoundException "Roles not found: ADMIN"), sample_db).
Proof. repeat split. Qed.

(** The rows of a [findMany] come in the order of the index read: here the
    index on [code], against the order of insertion. *)
Example found_in_index_order :
  let db := mkDb [mkRole 1 "User" "user" None true; mkRole 2 "Admin" "admin" None true]
                 [] [] [] 2 0 0 in
  role_findManyByCodes ["user"; "admin"] db
    = [mkRole 2 "Admin" "admin" None true; mkRole 1 "User" "user" None true] /\
  role_findManyByCodes (E := exact_engine) ["user"; "admin"] db
    = [mkRole 1 "User" "user" None true; mkRole 2 "Admin" "admin" None true].
Proof. split; reflexivity. Qed.

Example assign_then_remove :
  let db1 := (_assignRolesByUserId 200 "k200" ["editor"] sample_db).2 in
  let db2 := (_removeRoleByUserId 200 "k200" "editor" db1).2 in
  map ur_role_id (userRole_findMany 200 db2) = map ur_role_id (userRole_findMany 200 sample_db).
Proof. reflexivity. Qed.

End RbacFacts.

(** * Further properties of the plan services *)

Module PlanMore.
Import Plan.

Section WithEnginePlanMore.
Context {E : Engine}.

(** A participant's rank decides every capability: whoever passes the check
    for a role passes it for every lower role, so the capabilities nest
    (owner-only inside admin inside member inside participant), and
    [ensurePermission] returns normally exactly for the users [hasRole]
    accepts, throwing Forbidden with the required role otherwise. *)
Theorem hasRole_rank_monotone :
  (forall (planId userId : Z) (r r' : ParticipantRole) (db : Db),
      hasRole planId userId r db = true -> roleLevel r' <= roleLevel r ->
      hasRole planId userId r' db = true) /\
  (forall (planId userId : Z) (db : Db),
      (canDeletePlan planId userId db = true ->
       canChangeRole planId userId db = true /\ canModifyPlan planId userId db = true) /\
      (canModifyPlan planId userId db = true ->
       canDeleteTask planId userId db = true /\ canInviteMembers planId userId db = true /\
       canCreateTask planId userId db = true) /\
      (canCreateTask planId userId db = true ->
       canModifyTask planId userId db = true /\ isParticipant planId userId db = true)) /\
  (forall (planId userId : Z) (r : ParticipantRole) (action : string) (db : Db),
      ensurePermission planId userId r action db =
      if hasRole planId userId r db then (Ok tt, db)
      else (Err (ForbiddenException
                   ("You do not have permission to " +:+ action
                    +:+ ". Required role: " +:+ roleName r)), db)).
Proof.
  assert (Hmono : forall planId userId r r' db,
             hasRole planId userId r db = true -> roleLevel r' <= roleLevel r ->
             hasRole planId userId r' db = true).
  { intros planId userId r r' db. unfold hasRole.
    destruct (getUserRole planId userId db) as [ur|]; [|discriminate].
    destruct ur, r, r'; simpl; intros H Hle; try reflexivity; try discriminate H; lia. }
  split; [exact Hmono|]. split.
  - intros planId userId db.
    unfold canDeletePlan, canChangeRole, canModifyPlan, canDeleteTask, canInviteMembers,
      canCreateTask, canModifyTask.
    split; [|split].
    + intros H. split; [exact H|]. apply (Hmono _ _ owner); [exact H | simpl; lia].
    + intros H. split; [exact H|]. split; [exact H|].
      apply (Hmono _ _ admin); [exact H | simpl; lia].
    + intros H. split; [exact H|]. unfold isParticipant, hasRole in *.
      destruct (getUserRole planId userId db); [reflexivity | discriminate].
  - intros planId userId r action db. unfold ensurePermission. step.
    destruct (hasRole planId userId r db); reflexivity.
Qed.

(** [canViewPlan] answers NotFound for a plan that does not exist and true
    for a public plan whoever asks, signed in or not.  A private plan is
    visible to its participants only: an anonymous caller gets false, and so
    does the user id 0, which the test [!userId] takes for absent even when
    it is a participant.  [canViewTasks] gives the same answers. *)
Theorem canViewPlan_visibility (planId : Z) (db : Db) :
  (plan db !! planId = None ->
   forall userId,
     canViewPlan planId userId db = (Err (NotFoundException "Plan not found"), db)) /\
  (forall p, plan db !! planId = Some p -> p_is_public p = true ->
   forall userId, canViewPlan planId userId db = (Ok true, db)) /\
  (forall p, plan db !! planId = Some p -> p_is_public p = false ->
   canViewPlan planId None db = (Ok false, db) /\
   canViewPlan planId (Some 0) db = (Ok false, db) /\
   (forall userId, userId <> 0 ->
      canViewPlan planId (Some userId) db = (Ok (isParticipant planId userId db), db))) /\
  (forall userId, canViewTasks planId userId db = canViewPlan planId userId db).
Proof.
  unfold canViewTasks, canViewPlan. step.
  split; [|split; [|split]].
  - intros ->. reflexivity.
  - intros p -> ->. reflexivity.
  - intros p -> ->. split; [reflexivity|]. split; [reflexivity|].
    intros userId Hne. destruct userId; [contradiction | reflexivity | reflexivity].
  - reflexivity.
Qed.

(** [getPermissionSummary] for a participant reports [canView] without
    reading the plan, each task/plan flag as the matching predicate, and
    [canRemoveMembers] as true whatever the role, although a member or
    viewer passes [canRemoveMember] for no target at all.  For a user who is
    not a participant it fails with NotFound when the plan is missing and
    otherwise reports the plan's publicity as [canView] and nothing else. *)
Theorem getPermissionSummary_flags (planId userId : Z) (db : Db) :
  (forall r, getUserRole planId userId db = Some r ->
     getPermissionSummary planId userId db =
     (Ok (mkSummary (Some r) true
            (canCreateTask planId userId db) (canModifyTask planId userId db)
            (canDeleteTask planId userId db) (canModifyPlan planId userId db)
            (canDeletePlan planId userId db) (canInviteMembers planId userId db)
            true (canChangeRole planId userId db)), db) /\
     (roleLevel r < roleLevel admin ->
      forall targetUserId, canRemoveMember planId userId targetUserId db = false)) /\
  (getUserRole planId userId db = None ->
     (plan db !! planId = None ->
      getPermissionSummary planId userId db =
      (Err (NotFoundException "Plan not found"), db)) /\
     (forall p, plan db !! planId = Some p ->
      getPermissionSummary planId userId db =
      (Ok (mkSummary None (p_is_public p) false false false false false false false false),
       db))).
Proof.
  split.
  - intros r Hr. split.
    + unfold getPermissionSummary. step. rewrite Hr. reflexivity.
    + intros Hlow t. unfold canRemoveMember. rewrite Hr.
      destruct (getUserRole planId t db); [|reflexivity].
      destruct r; simpl in Hlow; try lia; reflexivity.
  - intros Hnone. unfold getPermissionSummary, canViewPlan. step. rewrite Hnone. split.
    + intros ->. reflexivity.
    + intros p ->. destruct (p_is_public p); [reflexivity|].
      destruct (truthy_num (Some userId)) eqn:Htruthy; simpl; [|reflexivity].
      unfold isParticipant. simpl.
      destruct userId; simpl in *; try discriminate; rewrite Hnone; reflexivity.
Qed.

(** The decision list of [joinPlan]. *)
Lemma joinPlan_cases planId userId db :
  joinPlan planId userId db =
  match plan db !! planId with
  | None => (Err (NotFoundException "Plan not found"), db)
  | Some p =>
    if p_is_public p then
      match planParticipant db !! (planId, userId) with
      | Some _ => (Err (ConflictException "Already joined this plan"), db)
      | None =>
        if bool_decide (userId ∉ map u_id (user db))
        then (Err (PrismaClientKnownRequestError "P2003"), db)
        else (Ok (mkParticipant planId userId member),
              set_planParticipant (insert (planId, userId) member) db)
      end
    else (Err (ForbiddenException "Cannot join private plan without invitation"), db)
  end.
Proof.
  unfold joinPlan. step.
  destruct (plan db !! planId) as [p|] eqn:Hplan; [|reflexivity].
  destruct (p_is_public p); [|reflexivity]. simpl.
  destruct (planParticipant db !! (planId, userId)) eqn:Hpart; [reflexivity|].
  unfold planParticipant_create. rewrite Hplan, Hpart. reflexivity.
Qed.

(** The decision list of [leavePlan]. *)
Lemma leavePlan_cases planId userId db :
  leavePlan planId userId db =
  match planParticipant db !! (planId, userId) with
  | None => (Err (NotFoundException "You are not a participant of this plan"), db)
  | Some role =>
    if bool_decide (role = owner)
    then (Err (ConflictException
                 "Owner cannot leave their own plan. Transfer ownership first."), db)
    else (Ok "Successfully left the plan",
          set_planParticipant (delete (planId, userId)) db)
  end.
Proof.
  unfold leavePlan. step.
  destruct (planParticipant db !! (planId, userId)) as [role|] eqn:Hpart; [|reflexivity].
  case_bool_decide; [reflexivity|].
  unfold planParticipant_delete. rewrite Hpart. reflexivity.
Qed.

(** [joinPlan] succeeds exactly when the plan is public, the user has not
    joined it and the user id names a row of [users]; the user is then a
    member, able to create tasks but not to delete them or to remove anyone,
    every other participant row is as before, and a second call is refused
    with Conflict.  A user id that names no user is refused by the foreign
    key of the insert (P2003).  A private plan answers Forbidden even to
    someone who is already a participant, and a refused call leaves the
    store as it was. *)
Theorem joinPlan_outcome (planId userId : Z) (db : Db) :
  (forall res db', joinPlan planId userId db = (Ok res, db') ->
     (exists p, plan db !! planId = Some p /\ p_is_public p = true) /\
     getUserRole planId userId db = None /\
     userId ∈ map u_id (user db) /\
     res = mkParticipant planId userId member /\
     getUserRole planId userId db' = Some member /\
     canCreateTask planId userId db' = true /\
     canDeleteTask planId userId db' = false /\
     (forall t, canRemoveMember planId userId t db' = false) /\
     (forall k, k <> (planId, userId) -> planParticipant db' !! k = planParticipant db !! k) /\
     joinPlan planId userId db' = (Err (ConflictException "Already joined this plan"), db')) /\
  (forall p, plan db !! planId = Some p -> p_is_public p = true ->
     getUserRole planId userId db = None ->
     (userId ∈ map u_id (user db) ->
      exists res db', joinPlan planId userId db = (Ok res, db')) /\
     (userId ∉ map u_id (user db) ->
      joinPlan planId userId db = (Err (PrismaClientKnownRequestError "P2003"), db))) /\
  (forall p, plan db !! planId = Some p -> p_is_public p = false ->
     joinPlan planId userId db =
     (Err (ForbiddenException "Cannot join private plan without invitation"), db)) /\
  (forall e db', joinPlan planId userId db = (Err e, db') -> db' = db).
Proof.
  split; [|split; [|split]].
  - intros res db'. rewrite joinPlan_cases.
    destruct (plan db !! planId) as [p|] eqn:Hplan; [|discriminate].
    destruct (p_is_public p) eqn:Hpub; [|discriminate].
    destruct (planParticipant db !! (planId, userId)) eqn:Hpart; [discriminate|].
    case_bool_decide as Huser; [discriminate|].
    intros [= <- <-].
    assert (Hrole : getUserRole planId userId
                      (set_planParticipant (insert (planId, userId) member) db) = Some member)
      by apply lookup_insert_eq.
    split; [exists p; split; [reflexivity | exact Hpub]|].
    split; [exact Hpart|]. split; [exact Huser|].
    split; [reflexivity|]. split; [exact Hrole|].
    split; [unfold canCreateTask, hasRole; rewrite Hrole; reflexivity|].
    split; [unfold canDeleteTask, hasRole; rewrite Hrole; reflexivity|].
    split.
    { intros t. unfold canRemoveMember. rewrite Hrole.
      destruct (getUserRole planId t _); reflexivity. }
    split.
    { intros k Hk. simpl. apply lookup_insert_ne. congruence. }
    rewrite joinPlan_cases. simpl. rewrite Hplan, Hpub.
    unfold getUserRole in Hrole. simpl in Hrole. rewrite Hrole. reflexivity.
  - intros p Hplan Hpub Hnone. rewrite joinPlan_cases, Hplan, Hpub.
    unfold getUserRole in Hnone. rewrite Hnone. split; intros Huser.
    + rewrite bool_decide_eq_false_2 by (intros Hc; exact (Hc Huser)).
      eexists. eexists. reflexivity.
    + rewrite bool_decide_eq_true_2 by exact Huser. reflexivity.
  - intros p Hplan Hpub. rewrite joinPlan_cases, Hplan, Hpub. reflexivity.
  - intros e db'. rewrite joinPlan_cases.
    destruct (plan db !! planId) as [p|]; [|intros [= _ <-]; reflexivity].
    destruct (p_is_public p); [|intros [= _ <-]; reflexivity].
    destruct (planParticipant db !! (planId, userId));
      [intros [= _ <-]; reflexivity|].
    case_bool_decide; [intros [= _ <-]; reflexivity | discriminate].
Qed.

(** Joining a plan and leaving it again restores the store exactly. *)
Theorem joinPlan_leavePlan_roundtrip (planId userId : Z) (db db1 : Db)
    (res : PlanParticipant) :
  joinPlan planId userId db = (Ok res, db1) ->
  leavePlan planId userId db1 = (Ok "Successfully left the plan", db).
Proof.
  rewrite joinPlan_cases.
  destruct (plan db !! planId) as [p|]; [|discriminate].
  destruct (p_is_public p); [|discriminate].
  destruct (planParticipant db !! (planId, userId)) eqn:Hpart; [discriminate|].
  case_bool_decide; [discriminate|].
  intros [= _ <-]. rewrite leavePlan_cases. simpl.
  rewrite lookup_insert_eq. simpl.
  unfold set_planParticipant. simpl.
  rewrite delete_insert_id by exact Hpart. destruct db; reflexivity.
Qed.

(** [leavePlan] refuses the owner with Conflict and a stranger with
    NotFound, changing nothing; for any other participant it deletes that
    one row, so the user is no participant afterwards, nobody else's row
    changes, and a second call is refused with NotFound. *)
Theorem leavePlan_outcome (planId userId : Z) (db : Db) :
  (getUserRole planId userId db = Some owner ->
     leavePlan planId userId db =
     (Err (ConflictException
             "Owner cannot leave their own plan. Transfer ownership first."), db)) /\
  (getUserRole planId userId db = None ->
     leavePlan planId userId db =
     (Err (NotFoundException "You are not a participant of this plan"), db)) /\
  (forall r, getUserRole planId userId db = Some r -> r <> owner ->
     exists db',
       leavePlan planId userId db = (Ok "Successfully left the plan", db') /\
       isParticipant planId userId db' = false /\
       (forall k, k <> (planId, userId) ->
                  planParticipant db' !! k = planParticipant db !! k) /\
       plan db' = plan db /\
       leavePlan planId userId db' =
       (Err (NotFoundException "You are not a participant of this plan"), db')).
Proof.
  unfold getUserRole. split; [|split].
  - intros Hr. rewrite leavePlan_cases, Hr. reflexivity.
  - intros Hr. rewrite leavePlan_cases, Hr. reflexivity.
  - intros r Hr Hne. rewrite leavePlan_cases, Hr.
    rewrite bool_decide_eq_false_2 by exact Hne.
    eexists. split; [reflexivity|].
    assert (Hgone : planParticipant (set_planParticipant (delete (planId, userId)) db)
                      !! (planId, userId) = None) by apply lookup_delete_eq.
    split; [unfold isParticipant, getUserRole; rewrite Hgone; reflexivity|].
    split; [intros k Hk; simpl; apply lookup_delete_ne; congruence|].
    split; [reflexivity|].
    rewrite leavePlan_cases, Hgone. reflexivity.
Qed.

(** What a passed [canRemoveMember] check says about the target. *)
Lemma canRemoveMember_true_inv planId operatorId targetUserId db :
  canRemoveMember planId operatorId targetUserId db = true ->
  targetUserId <> operatorId /\
  exists operatorRole targetRole,
    planParticipant db !! (planId, operatorId) = Some operatorRole /\
    planParticipant db !! (planId, targetUserId) = Some targetRole /\
    targetRole <> owner /\ roleLevel admin <= roleLevel operatorRole.
Proof.
  unfold canRemoveMember, getUserRole. intros Hcan. split.
  - intros ->. destruct (planParticipant db !! (planId, operatorId)) as [[]|];
      simpl in Hcan; discriminate.
  - destruct (planParticipant db !! (planId, operatorId)) as [ro|]; [|discriminate].
    destruct (planParticipant db !! (planId, targetUserId)) as [rt|]; [|discriminate].
    exists ro, rt. split; [reflexivity|]. split; [reflexivity|].
    destruct ro, rt; simpl in Hcan; try discriminate Hcan; simpl; split;
      try discriminate; lia.
Qed.

(** The decision list of [removeParticipant]: after the permission check
    nothing can stop the removal. *)
Lemma removeParticipant_cases planId user_key phone operatorId db :
  removeParticipant planId user_key phone operatorId db =
  match (findUserByKeyOrPhone user_key phone db).1 with
  | Err e => (Err e, db)
  | Ok targetUser =>
    if canRemoveMember planId operatorId targetUser db
    then (Ok "Participant removed successfully",
          set_planParticipant (delete (planId, targetUser)) db)
    else (Err (ForbiddenException "You do not have permission to remove this participant"),
          db)
  end.
Proof.
  unfold removeParticipant, bind at 1.
  rewrite PlanFacts.findUserByKeyOrPhone_cases.
  destruct (findUserByKeyOrPhone user_key phone db).1 as [t|e]; [|reflexivity].
  step. cbn [fst]. destruct (canRemoveMember planId operatorId t db) eqn:Hcan; [|reflexivity].
  apply canRemoveMember_true_inv in Hcan.
  destruct Hcan as (Hne & ro & rt & _ & Ht & Hrt & _). simpl.
  rewrite bool_decide_eq_false_2 by exact Hne. rewrite Ht.
  rewrite bool_decide_eq_false_2 by exact Hrt.
  unfold planParticipant_delete. rewrite Ht. reflexivity.
Qed.

(** The decision list of [updateParticipantRole]. *)
Lemma updateParticipantRole_cases planId operatorId updateDto db :
  updateParticipantRole planId operatorId updateDto db =
  if canChangeRole planId operatorId db then
    match (findUserByKeyOrPhone (upd_user_key updateDto) (upd_phone updateDto) db).1 with
    | Err e => (Err e, db)
    | Ok targetUser =>
      match planParticipant db !! (planId, targetUser) with
      | None => (Err (NotFoundException "Participant not found"), db)
      | Some role =>
        if bool_decide (targetUser = operatorId)
        then (Err (ConflictException "Cannot change your own role"), db)
        else if bool_decide (role = owner)
        then (Err (ForbiddenException
                     "Cannot change owner role. Use transfer ownership instead."), db)
        else if bool_decide (upd_role updateDto = owner)
        then (Err (ForbiddenException
                     "Cannot assign owner role. Use transfer ownership instead."), db)
        else (Ok (mkParticipant planId targetUser (upd_role updateDto)),
              set_planParticipant (insert (planId, targetUser) (upd_role updateDto)) db)
      end
    end
  else (Err (ForbiddenException "Only owner can change participant roles"), db).
Proof.
  unfold updateParticipantRole, bind at 1. unfold gets at 1.
  destruct (canChangeRole planId operatorId db); [|reflexivity]. simpl.
  unfold bind at 1. rewrite PlanFacts.findUserByKeyOrPhone_cases.
  destruct (findUserByKeyOrPhone _ _ db).1 as [t|e]; [|reflexivity].
  step. cbn [fst]. destruct (planParticipant db !! (planId, t)) as [r|] eqn:Hp; [|reflexivity].
  repeat (case_bool_decide; [reflexivity|]).
  unfold planParticipant_update. rewrite Hp. reflexivity.
Qed.

(** The decision list of [inviteParticipant]. *)
Lemma inviteParticipant_cases planId inviterId inviteDto db :
  inviteParticipant planId inviterId inviteDto db =
  if canInviteMembers planId inviterId db then
    match (findUserByKeyOrPhone (inv_user_key inviteDto) (inv_phone inviteDto) db).1 with
    | Err e => (Err e, db)
    | Ok targetUser =>
      match planParticipant db !! (planId, targetUser) with
      | Some _ => (Err (ConflictException "User is already a participant"), db)
      | None =>
        if isElevated (inv_role inviteDto)
           && bool_decide (getUserRole planId inviterId db <> Some owner)
        then (Err (ForbiddenException "Only owner can invite admin or owner"), db)
        else
          match plan db !! planId with
          | None => (Err (PrismaClientKnownRequestError "P2003"), db)
          | Some _ =>
            (Ok (mkParticipant planId targetUser (default member (inv_role inviteDto))),
             set_planParticipant
               (insert (planId, targetUser) (default member (inv_role inviteDto))) db)
          end
      end
    end
  else (Err (ForbiddenException "You do not have permission to invite members"), db).
Proof.
  unfold inviteParticipant, bind at 1. unfold gets at 1.
  destruct (canInviteMembers planId inviterId db); [|reflexivity]. simpl.
  unfold bind at 1. rewrite PlanFacts.findUserByKeyOrPhone_cases.
  destruct (findUserByKeyOrPhone _ _ db).1 as [t|e] eqn:Hfind; [|reflexivity].
  assert (Huser : bool_decide (t ∉ map u_id (user db)) = false).
  { apply bool_decide_eq_false_2. intros Hc.
    exact (Hc (PlanFacts.findUserByKeyOrPhone_registered _ _ _ _ Hfind)). }
  step. cbn [fst]. destruct (planParticipant db !! (planId, t)) as [r|] eqn:Hp; [reflexivity|].
  unfold planParticipant_create.
  destruct (isElevated (inv_role inviteDto)); simpl.
  - destruct (bool_decide (getUserRole planId inviterId db <> Some owner)); [reflexivity|].
    destruct (plan db !! planId); [rewrite Huser, Hp|]; reflexivity.
  - destruct (plan db !! planId); [rewrite Huser, Hp|]; reflexivity.
Qed.

Lemma owners_after_insert (m : gmap (Z * Z) ParticipantRole) k v k' :
  m !! k <> Some owner -> v <> owner ->
  (<[k:=v]> m !! k' = Some owner <-> m !! k' = Some owner).
Proof.
  intros Hold Hnew. destruct (decide (k = k')) as [<-|Hne].
  - rewrite lookup_insert_eq. split; [congruence | contradiction].
  - rewrite lookup_insert_ne by exact Hne. reflexivity.
Qed.

Lemma owners_after_delete (m : gmap (Z * Z) ParticipantRole) k k' :
  m !! k <> Some owner ->
  (delete k m !! k' = Some owner <-> m !! k' = Some owner).
Proof.
  intros Hold. destruct (decide (k = k')) as [<-|Hne].
  - rewrite lookup_delete_eq. split; [discriminate | contradiction].
  - rewrite lookup_delete_ne by exact Hne. reflexivity.
Qed.

(** Joining, leaving, removing a participant and changing a participant's
    role never make or unmake an owner: whatever the arguments and whether
    the call succeeds or not, every plan has the same owners after the call
    as before. *)
Theorem owners_unchanged (db : Db) (planId' userId' : Z) :
  (forall planId userId,
      getUserRole planId' userId' (joinPlan planId userId db).2 = Some owner <->
      getUserRole planId' userId' db = Some owner) /\
  (forall planId userId,
      getUserRole planId' userId' (leavePlan planId userId db).2 = Some owner <->
      getUserRole planId' userId' db = Some owner) /\
  (forall planId user_key phone operatorId,
      getUserRole planId' userId'
        (removeParticipant planId user_key phone operatorId db).2 = Some owner <->
      getUserRole planId' userId' db = Some owner) /\
  (forall planId operatorId updateDto,
      getUserRole planId' userId'
        (updateParticipantRole planId operatorId updateDto db).2 = Some owner <->
      getUserRole planId' userId' db = Some owner).
Proof.
  unfold getUserRole. split; [|split; [|split]].
  - intros planId userId. rewrite joinPlan_cases.
    destruct (plan db !! planId) as [p|]; [|reflexivity].
    destruct (p_is_public p); [|reflexivity].
    destruct (planParticipant db !! (planId, userId)) eqn:Hp; [reflexivity|].
    case_bool_decide; [reflexivity|].
    simpl. apply owners_after_insert; [rewrite Hp|]; discriminate.
  - intros planId userId. rewrite leavePlan_cases.
    destruct (planParticipant db !! (planId, userId)) as [r|] eqn:Hp; [|reflexivity].
    case_bool_decide as Hr; [reflexivity|].
    simpl. apply owners_after_delete. rewrite Hp. congruence.
  - intros planId uk ph op. rewrite removeParticipant_cases.
    destruct (findUserByKeyOrPhone uk ph db).1 as [t|e]; [|reflexivity].
    destruct (canRemoveMember planId op t db) eqn:Hcan; [|reflexivity].
    apply canRemoveMember_true_inv in Hcan.
    destruct Hcan as (_ & ro & rt & _ & Ht & Hrt & _).
    simpl. apply owners_after_delete. rewrite Ht. congruence.
  - intros planId op dto. rewrite updateParticipantRole_cases.
    destruct (canChangeRole planId op db); [|reflexivity].
    destruct (findUserByKeyOrPhone _ _ db).1 as [t|e]; [|reflexivity].
    destruct (planParticipant db !! (planId, t)) as [r|] eqn:Hp; [|reflexivity].
    case_bool_decide; [reflexivity|].
    case_bool_decide as Hr; [reflexivity|].
    case_bool_decide as Hnew; [reflexivity|].
    simpl. apply owners_after_insert; [rewrite Hp; congruence | exact Hnew].
Qed.

(** What [transferOwnership] does whenever the caller is the owner and the
    target a participant, the caller being allowed to name themselves. *)
Lemma transferOwnership_run planId currentOwnerId newOwnerId db p r :
  plan db !! planId = Some p ->
  planParticipant db !! (planId, currentOwnerId) = Some owner ->
  planParticipant db !! (planId, newOwnerId) = Some r ->
  transferOwnership planId currentOwnerId newOwnerId db =
  (Ok (mkParticipant planId currentOwnerId admin, mkParticipant planId newOwnerId owner,
       mkPlan (p_is_public p) newOwnerId),
   transferred planId currentOwnerId newOwnerId p db).
Proof.
  intros Hplan Hcur Hnew. unfold transferOwnership.
  erewrite bind_ok by reflexivity. cbv beta. rewrite Hcur.
  rewrite bool_decide_eq_false_2 by (intros Hc; apply Hc; reflexivity).
  erewrite bind_ok by reflexivity. cbv beta. rewrite Hnew.
  apply transaction_ok.
  erewrite bind_ok by (unfold planParticipant_update; rewrite Hcur; reflexivity).
  erewrite bind_ok.
  2:{ unfold planParticipant_update. simpl.
      assert (Hsome : is_Some (<[(planId, currentOwnerId):=admin]> (planParticipant db)
                                 !! (planId, newOwnerId))).
      { apply lookup_insert_is_Some. destruct (decide (currentOwnerId = newOwnerId));
          [left; congruence | right; split; [congruence | eexists; exact Hnew]]. }
      destruct Hsome as [x ->]. reflexivity. }
  erewrite bind_ok by (unfold plan_update_creator; simpl; rewrite Hplan; reflexivity).
  reflexivity.
Qed.

(** A transfer by the only owner of a plan leaves the target as the only
    owner of that plan and as its creator, and touches no other plan.  When
    the owner names themselves the participant table is left exactly as it
    was. *)
Theorem transferOwnership_single_owner (planId currentOwnerId newOwnerId : Z) (db : Db)
    (p : PlanRow) :
  plan db !! planId = Some p ->
  getUserRole planId currentOwnerId db = Some owner ->
  is_Some (getUserRole planId newOwnerId db) ->
  let db' := (transferOwnership planId currentOwnerId newOwnerId db).2 in
  ((forall u, getUserRole planId u db = Some owner -> u = currentOwnerId) ->
   forall u, getUserRole planId u db' = Some owner <-> u = newOwnerId) /\
  plan db' !! planId = Some (mkPlan (p_is_public p) newOwnerId) /\
  (forall planId' u, planId' <> planId ->
     getUserRole planId' u db' = getUserRole planId' u db /\
     plan db' !! planId' = plan db !! planId') /\
  (currentOwnerId = newOwnerId -> planParticipant db' = planParticipant db).
Proof.
  unfold getUserRole. intros Hplan Hcur [r Hnew]. cbv zeta.
  rewrite (transferOwnership_run _ _ _ _ p r Hplan Hcur Hnew). simpl.
  split; [|split; [|split]].
  - intros Honly u. destruct (decide (u = newOwnerId)) as [->|Hu].
    + rewrite lookup_insert_eq. tauto.
    + rewrite lookup_insert_ne by congruence.
      destruct (decide (u = currentOwnerId)) as [->|Hc].
      * rewrite lookup_insert_eq. split; [discriminate | contradiction].
      * rewrite lookup_insert_ne by congruence. split; [|contradiction].
        intros Hown. exfalso. apply Hc, Honly, Hown.
  - apply lookup_insert_eq.
  - intros planId' u Hne. rewrite !lookup_insert_ne by congruence. split; reflexivity.
  - intros <-. rewrite insert_insert_eq. apply insert_id. exact Hcur.
Qed.

(** [inviteParticipant] lets the owner of a plan invite a user as owner:
    the call succeeds and the plan then has two owners, the inviter and the
    invited user.  An invitation with any other role leaves the owners of
    every plan as they were, whether it succeeds or not. *)
Theorem inviteParticipant_second_owner (planId inviterId : Z)
    (inviteDto : InviteParticipantDto) (db : Db) :
  (forall targetUser,
      getUserRole planId inviterId db = Some owner ->
      inv_role inviteDto = Some owner ->
      (findUserByKeyOrPhone (inv_user_key inviteDto) (inv_phone inviteDto) db).1
        = Ok targetUser ->
      getUserRole planId targetUser db = None ->
      is_Some (plan db !! planId) ->
      exists res db',
        inviteParticipant planId inviterId inviteDto db = (Ok res, db') /\
        targetUser <> inviterId /\
        getUserRole planId inviterId db' = Some owner /\
        getUserRole planId targetUser db' = Some owner) /\
  (inv_role inviteDto <> Some owner ->
   forall planId' userId',
     getUserRole planId' userId' (inviteParticipant planId inviterId inviteDto db).2
       = Some owner <->
     getUserRole planId' userId' db = Some owner).
Proof.
  unfold getUserRole. split.
  - intros t Hinv Hrole Hfind Hnone [p Hplan].
    rewrite inviteParticipant_cases. unfold canInviteMembers, hasRole, getUserRole.
    rewrite Hinv, Hfind, Hnone, Hrole, Hplan.
    rewrite bool_decide_eq_false_2 by (intros Hc; apply Hc; reflexivity). simpl.
    eexists. eexists. split; [reflexivity|].
    assert (Hne : t <> inviterId) by (intros ->; congruence).
    split; [exact Hne|]. simpl. split.
    + rewrite lookup_insert_ne by congruence. exact Hinv.
    + apply lookup_insert_eq.
  - intros Hrole planId' userId'. rewrite inviteParticipant_cases.
    destruct (canInviteMembers planId inviterId db); [|reflexivity].
    destruct (findUserByKeyOrPhone _ _ db).1 as [t|e]; [|reflexivity].
    destruct (planParticipant db !! (planId, t)) eqn:Hp; [reflexivity|].
    destruct (_ && _); [reflexivity|].
    destruct (plan db !! planId); [|reflexivity].
    simpl. apply owners_after_insert; [rewrite Hp; discriminate|].
    destruct (inv_role inviteDto) as [[]|]; simpl; congruence.
Qed.

(** The invitation gate comes first: a member, a viewer or a stranger is
    refused with Forbidden before the target is looked at, so even a request
    naming no user or an unknown user gets Forbidden from them.  An admin
    inviting without a role, or with member or viewer, adds the target with
    that role, member by default. *)
Theorem inviteParticipant_gate (planId inviterId : Z) (inviteDto : InviteParticipantDto)
    (db : Db) :
  (canInviteMembers planId inviterId db = false ->
   inviteParticipant planId inviterId inviteDto db =
   (Err (ForbiddenException "You do not have permission to invite members"), db)) /\
  (forall r, getUserRole planId inviterId db = Some r -> roleLevel r < roleLevel admin ->
   canInviteMembers planId inviterId db = false) /\
  (getUserRole planId inviterId db = None ->
   canInviteMembers planId inviterId db = false) /\
  (forall targetUser,
     canInviteMembers planId inviterId db = true ->
     isElevated (inv_role inviteDto) = false ->
     (findUserByKeyOrPhone (inv_user_key inviteDto) (inv_phone inviteDto) db).1
       = Ok targetUser ->
     getUserRole planId targetUser db = None ->
     is_Some (plan db !! planId) ->
     exists db',
       inviteParticipant planId inviterId inviteDto db =
       (Ok (mkParticipant planId targetUser (default member (inv_role inviteDto))), db') /\
       getUserRole planId targetUser db' = Some (default member (inv_role inviteDto)) /\
       canRemoveMember planId targetUser inviterId db' = false).
Proof.
  split; [|split; [|split]].
  - intros Hno. rewrite inviteParticipant_cases, Hno. reflexivity.
  - intros r Hr Hlow. unfold canInviteMembers, hasRole. rewrite Hr.
    destruct r; simpl in *; try reflexivity; lia.
  - intros Hr. unfold canInviteMembers, hasRole. rewrite Hr. reflexivity.
  - intros t Hcan Helev Hfind Hnone [p Hplan].
    rewrite inviteParticipant_cases, Hcan, Hfind.
    unfold getUserRole in Hnone. rewrite Hnone, Helev, Hplan. simpl.
    eexists. split; [reflexivity|].
    assert (Hrole : getUserRole planId t
                      (set_planParticipant
                         (insert (planId, t) (default member (inv_role inviteDto))) db)
                    = Some (default member (inv_role inviteDto)))
      by apply lookup_insert_eq.
    split; [exact Hrole|].
    unfold canRemoveMember. rewrite Hrole.
    destruct (getUserRole planId inviterId _); [|reflexivity].
    destruct (inv_role inviteDto) as [[]|]; simpl in *; try discriminate; reflexivity.
Qed.

(** [removeParticipant] removes exactly when the target resolves and the
    operator passes [canRemoveMember] for it: none of the later checks of the
    method can fail then.  The target's row is deleted, the target is no
    participant afterwards, and every other row, the operator's included, is
    as before; a refused call changes nothing. *)
Theorem removeParticipant_outcome (planId operatorId : Z) (user_key phone : option string)
    (db : Db) :
  (forall targetUser,
      (findUserByKeyOrPhone user_key phone db).1 = Ok targetUser ->
      canRemoveMember planId operatorId targetUser db = true ->
      removeParticipant planId user_key phone operatorId db =
      (Ok "Participant removed successfully",
       set_planParticipant (delete (planId, targetUser)) db)) /\
  (forall res db',
      removeParticipant planId user_key phone operatorId db = (Ok res, db') ->
      exists targetUser,
        (findUserByKeyOrPhone user_key phone db).1 = Ok targetUser /\
        canRemoveMember planId operatorId targetUser db = true /\
        isParticipant planId targetUser db' = false /\
        getUserRole planId operatorId db' = getUserRole planId operatorId db /\
        (forall k, k <> (planId, targetUser) ->
                   planParticipant db' !! k = planParticipant db !! k)) /\
  (forall e db',
      removeParticipant planId user_key phone operatorId db = (Err e, db') -> db' = db).
Proof.
  split; [|split].
  - intros t Hfind Hcan. rewrite removeParticipant_cases, Hfind, Hcan. reflexivity.
  - intros res db'. rewrite removeParticipant_cases.
    destruct (findUserByKeyOrPhone user_key phone db).1 as [t|e]; [|discriminate].
    destruct (canRemoveMember planId operatorId t db) eqn:Hcan; [|discriminate].
    intros [= _ <-]. exists t. split; [reflexivity|]. split; [exact Hcan|].
    apply canRemoveMember_true_inv in Hcan. destruct Hcan as [Hne _].
    unfold isParticipant, getUserRole. simpl. split.
    + rewrite lookup_delete_eq. reflexivity.
    + split; [apply lookup_delete_ne; congruence|].
      intros k Hk. apply lookup_delete_ne. congruence.
  - intros e db'. rewrite removeParticipant_cases.
    destruct (findUserByKeyOrPhone user_key phone db).1 as [t|e0];
      [|intros [= _ <-]; reflexivity].
    destruct (canRemoveMember planId operatorId t db);
      [discriminate | intros [= _ <-]; reflexivity].
Qed.

(** The target lookup depends on the [user] table only. *)
Lemma findUserByKeyOrPhone_frame uk ph db db' :
  user db' = user db ->
  (findUserByKeyOrPhone uk ph db').1 = (findUserByKeyOrPhone uk ph db).1.
Proof.
  intros Hu. unfold findUserByKeyOrPhone. step.
  destruct (negb _ && negb _); [reflexivity|].
  destruct (truthy uk); simpl; rewrite Hu; destruct (find _ _); reflexivity.
Qed.

(** Only the owner changes roles: an admin, member, viewer or stranger is
    refused with Forbidden whatever the request.  The owner changing another
    non-owner participant to a role other than owner succeeds; the target
    then holds the new role, every other row is as before, and repeating the
    request ends in the same store. *)
Theorem updateParticipantRole_outcome_ok (planId operatorId : Z)
    (updateDto : UpdateParticipantRoleDto) (db : Db) :
  (getUserRole planId operatorId db <> Some owner ->
   updateParticipantRole planId operatorId updateDto db =
   (Err (ForbiddenException "Only owner can change participant roles"), db)) /\
  (forall targetUser targetRole,
     getUserRole planId operatorId db = Some owner ->
     (findUserByKeyOrPhone (upd_user_key updateDto) (upd_phone updateDto) db).1
       = Ok targetUser ->
     getUserRole planId targetUser db = Some targetRole ->
     targetUser <> operatorId -> targetRole <> owner -> upd_role updateDto <> owner ->
     let db' := set_planParticipant (insert (planId, targetUser) (upd_role updateDto)) db in
     updateParticipantRole planId operatorId updateDto db =
       (Ok (mkParticipant planId targetUser (upd_role updateDto)), db') /\
     getUserRole planId targetUser db' = Some (upd_role updateDto) /\
     (forall k, k <> (planId, targetUser) ->
                planParticipant db' !! k = planParticipant db !! k) /\
     (updateParticipantRole planId operatorId updateDto db').2 = db').
Proof.
  split.
  - intros Hop. rewrite updateParticipantRole_cases.
    unfold canChangeRole, hasRole.
    destruct (getUserRole planId operatorId db) as [[]|]; simpl; try reflexivity.
    contradiction Hop. reflexivity.
  - intros t rt Hop Hfind Ht Hne Hrt Hnew db'.
    assert (Hrun : updateParticipantRole planId operatorId updateDto db =
                   (Ok (mkParticipant planId t (upd_role updateDto)), db')).
    { rewrite updateParticipantRole_cases. unfold canChangeRole, hasRole.
      rewrite Hop, Hfind. unfold getUserRole in Ht. rewrite Ht. simpl.
      rewrite !bool_decide_eq_false_2 by assumption. reflexivity. }
    split; [exact Hrun|].
    split; [apply lookup_insert_eq|].
    split; [intros k Hk; simpl; apply lookup_insert_ne; congruence|].
    rewrite updateParticipantRole_cases. unfold canChangeRole, hasRole, getUserRole in *.
    assert (Hfind' : (findUserByKeyOrPhone (upd_user_key updateDto) (upd_phone updateDto)
                        db').1 = Ok t).
    { rewrite <- Hfind. apply findUserByKeyOrPhone_frame. reflexivity. }
    rewrite Hfind'. unfold db' at 1 2. simpl.
    rewrite lookup_insert_ne by congruence. rewrite Hop. simpl.
    rewrite lookup_insert_eq.
    rewrite !bool_decide_eq_false_2 by assumption.
    unfold db', set_planParticipant. simpl. rewrite insert_insert_eq. reflexivity.
Qed.

End WithEnginePlanMore.

(** *** The statements above on [sample_db]

    The examples run on [caseless_engine]. *)

#[local] Existing Instance caseless_engine.

Lemma hasRole_rank_monotone_witness :
  hasRole 1 20 member sample_db = true.
Proof.
  apply (proj1 hasRole_rank_monotone 1 20 admin member sample_db);
    [reflexivity | simpl; lia].
Defined.

Lemma canViewPlan_visibility_witness :
  canViewPlan 1 (Some 40) sample_db = (Ok false, sample_db) /\
  canViewPlan 2 (Some 40) sample_db = (Err (NotFoundException "Plan not found"), sample_db).
Proof.
  split.
  - apply (proj2 (proj2 (proj1 (proj2 (proj2 (canViewPlan_visibility 1 sample_db)))
                           (mkPlan false 10) eq_refl eq_refl)) 40).
    lia.
  - apply (proj1 (canViewPlan_visibility 2 sample_db) eq_refl).
Defined.

Lemma getPermissionSummary_flags_witness :
  getPermissionSummary 1 30 sample_db =
    (Ok (mkSummary (Some member) true true true false false false false true false),
     sample_db) /\
  canRemoveMember 1 30 20 sample_db = false.
Proof.
  split.
  - apply (proj1 (proj1 (getPermissionSummary_flags 1 30 sample_db) member eq_refl)).
  - apply (proj2 (proj1 (getPermissionSummary_flags 1 30 sample_db) member eq_refl)).
    simpl. lia.
Defined.

Lemma joinPlan_outcome_witness :
  (exists res db',
     joinPlan 1 40 (set_plan (insert 1 (mkPlan true 10)) sample_db) = (Ok res, db')) /\
  joinPlan 1 999 (set_plan (insert 1 (mkPlan true 10)) sample_db) =
    (Err (PrismaClientKnownRequestError "P2003"),
     set_plan (insert 1 (mkPlan true 10)) sample_db).
Proof.
  split.
  - apply (proj1 (proj2 (joinPlan_outcome 1 40
                           (set_plan (insert 1 (mkPlan true 10)) sample_db)))
             (mkPlan true 10)); try reflexivity.
    exact (bool_decide_unpack (40 ∈ map u_id sample_users) I).
  - apply (proj1 (proj2 (joinPlan_outcome 1 999
                           (set_plan (insert 1 (mkPlan true 10)) sample_db)))
             (mkPlan true 10)); try reflexivity.
    exact (bool_decide_unpack (999 ∉ map u_id sample_users) I).
Defined.

Lemma joinPlan_leavePlan_roundtrip_witness :
  leavePlan 1 40
    (set_planParticipant (insert (1, 40) member) (set_plan (insert 1 (mkPlan true 10)) sample_db))
  = (Ok "Successfully left the plan", set_plan (insert 1 (mkPlan true 10)) sample_db).
Proof.
  apply (joinPlan_leavePlan_roundtrip 1 40 _ _ (mkParticipant 1 40 member)).
  reflexivity.
Defined.

Lemma leavePlan_outcome_witness :
  leavePlan 1 10 sample_db =
  (Err (ConflictException
          "Owner cannot leave their own plan. Transfer ownership first."), sample_db).
Proof. apply (proj1 (leavePlan_outcome 1 10 sample_db)). reflexivity. Defined.

Lemma owners_unchanged_witness :
  getUserRole 1 10 (leavePlan 1 30 sample_db).2 = Some owner.
Proof.
  apply (proj2 (proj1 (proj2 (owners_unchanged sample_db 1 10)) 1 30)). reflexivity.
Defined.

Lemma transferOwnership_single_owner_witness :
  getUserRole 1 20 (transferOwnership 1 10 20 sample_db).2 = Some owner /\
  getUserRole 1 10 (transferOwnership 1 10 20 sample_db).2 <> Some owner.
Proof.
  assert (Honly : forall u, getUserRole 1 u (transferOwnership 1 10 20 sample_db).2
                            = Some owner <-> u = 20);
    [|split; [apply Honly; reflexivity | intros Hc; apply Honly in Hc; discriminate Hc]].
  refine (proj1 (transferOwnership_single_owner 1 10 20 sample_db (mkPlan false 10) _ _ _) _).
  - reflexivity.
  - reflexivity.
  - exists admin. reflexivity.
  - intros u. unfold getUserRole. simpl.
    destruct (decide (u = 10)) as [->|H10]; [reflexivity|].
    rewrite lookup_insert_ne by congruence.
    destruct (decide (u = 20)) as [->|H20]; [rewrite lookup_insert_eq; discriminate|].
    rewrite lookup_insert_ne by congruence.
    destruct (decide (u = 30)) as [->|H30]; [rewrite lookup_singleton_eq; discriminate|].
    rewrite lookup_singleton_ne by congruence. discriminate.
Defined.

Lemma inviteParticipant_second_owner_witness :
  exists res db',
    inviteParticipant 1 10 (mkInviteDto 1 (Some "k40") None (Some owner)) sample_db
      = (Ok res, db') /\
    40 <> 10 /\
    getUserRole 1 10 db' = Some owner /\ getUserRole 1 40 db' = Some owner.
Proof.
  refine (proj1 (inviteParticipant_second_owner 1 10
                   (mkInviteDto 1 (Some "k40") None (Some owner)) sample_db) 40 _ _ _ _ _).
  - reflexivity.
  - reflexivity.
  - reflexivity.
  - reflexivity.
  - exists (mkPlan false 10). reflexivity.
Defined.

Lemma inviteParticipant_gate_witness :
  inviteParticipant 1 30 (mkInviteDto 1 None None None) sample_db =
    (Err (ForbiddenException "You do not have permission to invite members"), sample_db) /\
  exists db',
    inviteParticipant 1 20 (mkInviteDto 1 (Some "k40") None None) sample_db
    = (Ok (mkParticipant 1 40 member), db') /\
    getUserRole 1 40 db' = Some member /\
    canRemoveMember 1 40 20 db' = false.
Proof.
  split.
  - apply (proj1 (inviteParticipant_gate 1 30 (mkInviteDto 1 None None None) sample_db)).
    reflexivity.
  - refine (proj2 (proj2 (proj2 (inviteParticipant_gate 1 20
              (mkInviteDto 1 (Some "k40") None None) sample_db))) 40 _ _ _ _ _).
    + reflexivity.
    + reflexivity.
    + reflexivity.
    + reflexivity.
    + exists (mkPlan false 10). reflexivity.
Defined.

Lemma removeParticipant_outcome_witness :
  removeParticipant 1 (Some "k20") None 10 sample_db =
  (Ok "Participant removed successfully", set_planParticipant (delete (1, 20)) sample_db).
Proof.
  apply (proj1 (removeParticipant_outcome 1 10 (Some "k20") None sample_db) 20);
    reflexivity.
Defined.

Lemma updateParticipantRole_outcome_ok_witness :
  updateParticipantRole 1 10 (mkUpdateDto 1 (Some "k30") None admin) sample_db =
  (Ok (mkParticipant 1 30 admin), set_planParticipant (insert (1, 30) admin) sample_db).
Proof.
  refine (proj1 (proj2 (updateParticipantRole_outcome_ok 1 10
                          (mkUpdateDto 1 (Some "k30") None admin) sample_db)
                   30 member _ _ _ _ _ _)).
  - reflexivity.
  - reflexivity.
  - reflexivity.
  - lia.
  - discriminate.
  - discriminate.
Defined.

End PlanMore.

(** * Further properties of the global role/permission relation *)

Module RbacMore.
Import Rbac.

Section WithEngineMore.
Context {E : Engine}.

Lemma findFirstByRole_held userId (test : Role -> bool) db :
  (exists ur, userRole_findFirstByRole userId test db = Some ur) <->
  (exists r, r ∈ user_roles userId db /\ test r = true).
Proof.
  unfold userRole_findFirstByRole, user_roles, userRole_findMany. split.
  - intros [ur Hfind]. apply find_some in Hfind. destruct Hfind as [Hin Htest].
    apply andb_prop in Htest. destruct Htest as [Hu Hr].
    apply bool_decide_eq_true in Hu.
    destruct (role_findById (ur_role_id ur) db) as [r|] eqn:Hrole; [|discriminate].
    exists r. split; [|exact Hr]. apply list_elem_of_omap. exists ur.
    split; [|exact Hrole]. apply list_elem_of_filter.
    split; [exact Hu | apply list_elem_of_In, Hin].
  - intros (r & Hin & Htest). apply list_elem_of_omap in Hin.
    destruct Hin as (ur & Hur & Hrole). apply list_elem_of_filter in Hur.
    destruct Hur as [Hu Hur].
    destruct (find _ (userRole db)) as [ur'|] eqn:Hfind; [exists ur'; reflexivity|].
    apply find_none with (x := ur) in Hfind; [|apply list_elem_of_In, Hur].
    rewrite Hrole, Htest, bool_decide_eq_true_2 in Hfind by exact Hu. discriminate.
Qed.

Lemma hasRole_held userId roleCode db :
  hasRole userId roleCode db = true <->
  exists r, r ∈ user_roles userId db /\ weight (role_code r) = weight roleCode.
Proof.
  unfold hasRole.
  pose proof (findFirstByRole_held userId
                (fun r => bool_decide (weight (role_code r) = weight roleCode)) db) as H.
  destruct (userRole_findFirstByRole userId _ db) as [ur|].
  - split; [|reflexivity]. intros _. destruct (proj1 H) as (r & Hr & Ht); [eauto|].
    exists r. split; [exact Hr|]. apply bool_decide_eq_true in Ht. exact Ht.
  - split; [discriminate|]. intros (r & Hr & Hc).
    destruct (proj2 H) as [ur Hur]; [|discriminate].
    exists r. split; [exact Hr|]. apply bool_decide_eq_true_2, Hc.
Qed.

Lemma hasAnyRole_held userId roleCodes db :
  hasAnyRole userId roleCodes db = true <->
  exists r, r ∈ user_roles userId db /\ weight (role_code r) ∈ map weight roleCodes.
Proof.
  unfold hasAnyRole.
  pose proof (findFirstByRole_held userId
                (fun r => bool_decide (weight (role_code r) ∈ map weight roleCodes)) db) as H.
  destruct (userRole_findFirstByRole userId _ db) as [ur|].
  - split; [|reflexivity]. intros _. destruct (proj1 H) as (r & Hr & Ht); [eauto|].
    exists r. split; [exact Hr|]. apply bool_decide_eq_true in Ht. exact Ht.
  - split; [discriminate|]. intros (r & Hr & Hc).
    destruct (proj2 H) as [ur Hur]; [|discriminate].
    exists r. split; [exact Hr|]. apply bool_decide_eq_true_2, Hc.
Qed.

Lemma hasAnyRole_some userId roleCodes db :
  hasAnyRole userId roleCodes db = true <->
  exists c, c ∈ roleCodes /\ hasRole userId c db = true.
Proof.
  rewrite hasAnyRole_held. split.
  - intros (r & Hr & Hw). apply list_elem_of_fmap in Hw. destruct Hw as (c & Hw & Hc).
    exists c. split; [exact Hc|]. apply hasRole_held. exists r. split; assumption.
  - intros (c & Hc & Hhas). apply hasRole_held in Hhas. destruct Hhas as (r & Hr & Hw).
    exists r. split; [exact Hr|]. apply list_elem_of_fmap. exists c. split; assumption.
Qed.

Lemma hasAllRoles_held userId roleCodes db :
  hasAllRoles userId roleCodes db = true <->
  forall c, c ∈ roleCodes -> exists r, r ∈ user_roles userId db /\ role_code r = c.
Proof.
  unfold hasAllRoles. rewrite forallb_forall. split.
  - intros H c Hc. specialize (H c (proj1 (list_elem_of_In _ _) Hc)).
    apply bool_decide_eq_true in H. apply list_elem_of_fmap in H.
    destruct H as (r & -> & Hr). exists r. split; [exact Hr | reflexivity].
  - intros H c Hc. apply bool_decide_eq_true_2.
    destruct (H c (proj2 (list_elem_of_In _ _) Hc)) as (r & Hr & <-).
    apply list_elem_of_fmap. exists r. split; [reflexivity | exact Hr].
Qed.

(** The role rows joined to a user's [user_roles] rows are rows of
    [roles]. *)
Lemma user_roles_stored userId db r :
  r ∈ user_roles userId db -> r ∈ role db.
Proof.
  intros Hr. apply list_elem_of_omap in Hr. destruct Hr as (ur & _ & Hfind).
  apply find_some in Hfind. apply list_elem_of_In, Hfind.
Qed.

(** The three role tests.  [hasRole] and [hasAnyRole] compare the codes in
    the store, by weight; [hasAllRoles] compares them in the service,
    character by character.  So [hasAnyRole] is the disjunction of [hasRole]
    over the listed codes, while [hasAllRoles] implies [hasRole] for every
    listed code and is equivalent to it only for codes spelled as stored.
    On an empty list [hasAnyRole] is false and [hasAllRoles] true. *)
Theorem role_tests_agree (userId : Z) (db : Db) :
  (forall roleCode,
      hasRole userId roleCode db = true <->
      exists r, r ∈ user_roles userId db /\ weight (role_code r) = weight roleCode) /\
  (forall roleCodes,
      hasAnyRole userId roleCodes db = true <->
      exists c, c ∈ roleCodes /\ hasRole userId c db = true) /\
  (forall roleCodes,
      hasAllRoles userId roleCodes db = true <->
      forall c, c ∈ roleCodes -> exists r, r ∈ user_roles userId db /\ role_code r = c) /\
  (forall roleCodes,
      hasAllRoles userId roleCodes db = true ->
      forall c, c ∈ roleCodes -> hasRole userId c db = true) /\
  (forall roleCodes,
      Db_wf db -> (forall c, c ∈ roleCodes -> c ∈ map role_code (role db)) ->
      (forall c, c ∈ roleCodes -> hasRole userId c db = true) ->
      hasAllRoles userId roleCodes db = true) /\
  hasAnyRole userId [] db = false /\
  hasAllRoles userId [] db = true /\
  (forall roleCode, hasAnyRole userId [roleCode] db = hasRole userId roleCode db).
Proof.
  split; [intros roleCode; apply hasRole_held|].
  split; [intros roleCodes; apply hasAnyRole_some|].
  split; [intros roleCodes; apply hasAllRoles_held|].
  split; [|split; [|split; [|split]]].
  - intros roleCodes H c Hc. apply hasRole_held.
    destruct (proj1 (hasAllRoles_held userId roleCodes db) H c Hc) as (r & Hr & <-).
    exists r. split; [exact Hr | reflexivity].
  - intros roleCodes Hwf Hspelled H. apply hasAllRoles_held. intros c Hc.
    specialize (H c Hc). apply hasRole_held in H. destruct H as (r & Hr & Hw).
    exists r. split; [exact Hr|].
    pose proof (Hspelled c Hc) as Hstored. apply list_elem_of_fmap in Hstored.
    destruct Hstored as (r' & -> & Hr').
    rewrite (RbacFacts.NoDup_map_inj_on (fun r => weight (role_code r)) (role db) r r'
               (wf_role_code db Hwf) (user_roles_stored userId db r Hr) Hr' Hw).
    reflexivity.
  - destruct (hasAnyRole userId [] db) eqn:H; [|reflexivity].
    apply hasAnyRole_some in H. destruct H as (c & Hc & _). inversion Hc.
  - reflexivity.
  - intros roleCode. destruct (hasRole userId roleCode db) eqn:Hhas.
    + apply hasAnyRole_some. exists roleCode. split; [left | exact Hhas].
    + destruct (hasAnyRole userId [roleCode] db) eqn:H; [|reflexivity].
      apply hasAnyRole_some in H. destruct H as (c & Hc & Hhas').
      apply list_elem_of_singleton in Hc. subst c. congruence.
Qed.

(** The decision list of [RolesGuard.canActivate]. *)
Lemma RolesGuard_cases requiredRoles user db :
  RolesGuard_canActivate requiredRoles user db =
  match requiredRoles with
  | None | Some [] => (Ok true, db)
  | Some roles =>
    if unauthenticated user
    then (Err (ForbiddenException "User not authenticated"), db)
    else if hasAnyRole (request_user_id user) roles db then (Ok true, db)
    else (Err (ForbiddenException
                 ("Insufficient roles. Required one of: " +:+ String.concat ", " roles)),
          db)
  end.
Proof.
  unfold RolesGuard_canActivate. destruct requiredRoles as [[|c roles]|]; try reflexivity.
  simpl. destruct (unauthenticated user); [reflexivity|]. step.
  destruct (hasAnyRole _ _ db); reflexivity.
Qed.

(** The store after one more [user_roles] row keeps every role the user
    had. *)
Lemma user_roles_kept userId ur db r :
  r ∈ user_roles userId db -> r ∈ user_roles userId (with_userRole ur db).
Proof.
  intros Hr. destruct (RbacFacts.user_roles_with_userRole userId ur db) as [extra ->].
  apply elem_of_app. left. exact Hr.
Qed.

(** [RolesGuard] lets every request through, anonymous ones included, when
    the handler requires no role.  Otherwise an anonymous request, or one
    whose user id is 0, is refused with Forbidden, and a signed-in user
    passes exactly when holding at least one of the required roles.  The
    guard answers true or throws, never false, never writes, and a user who
    passes still passes after being given one more role. *)
Theorem RolesGuard_decision (user : option RequestUser) (db : Db) :
  (forall requiredRoles,
      requiredRoles = None \/ requiredRoles = Some [] ->
      RolesGuard_canActivate requiredRoles user db = (Ok true, db)) /\
  (forall roles, roles <> [] -> unauthenticated user = true ->
      RolesGuard_canActivate (Some roles) user db =
      (Err (ForbiddenException "User not authenticated"), db)) /\
  (forall roles userId, roles <> [] -> userId <> 0 ->
      user = Some (mkRequestUser (Some userId)) ->
      (RolesGuard_canActivate (Some roles) user db = (Ok true, db) <->
       exists c, c ∈ roles /\ hasRole userId c db = true) /\
      (forall ur, RolesGuard_canActivate (Some roles) user db = (Ok true, db) ->
                  RolesGuard_canActivate (Some roles) user (with_userRole ur db)
                  = (Ok true, with_userRole ur db))) /\
  (forall requiredRoles b db',
      RolesGuard_canActivate requiredRoles user db = (Ok b, db') -> b = true /\ db' = db) /\
  (forall requiredRoles e db',
      RolesGuard_canActivate requiredRoles user db = (Err e, db') -> db' = db).
Proof.
  split; [|split; [|split; [|split]]].
  - intros requiredRoles [-> | ->]; reflexivity.
  - intros roles Hne Hanon. rewrite RolesGuard_cases, Hanon.
    destruct roles; [contradiction | reflexivity].
  - intros roles userId Hne Hid ->.
    assert (Hrun : forall db0,
               RolesGuard_canActivate (Some roles) (Some (mkRequestUser (Some userId))) db0
               = (Ok true, db0) <-> hasAnyRole userId roles db0 = true).
    { intros db0. rewrite RolesGuard_cases. destruct roles as [|c roles]; [contradiction|].
      assert (Hauth : unauthenticated (Some (mkRequestUser (Some userId))) = false)
        by (destruct userId; [contradiction | reflexivity | reflexivity]).
      rewrite Hauth. cbv iota.
      change (request_user_id (Some (mkRequestUser (Some userId)))) with userId.
      destruct (hasAnyRole userId (c :: roles) db0); split; intros H;
        first [reflexivity | discriminate H]. }
    split.
    + rewrite Hrun. apply hasAnyRole_some.
    + intros ur. rewrite !Hrun. intros Hany.
      apply hasAnyRole_held in Hany. destruct Hany as (r & Hr & Hw).
      apply hasAnyRole_held. exists r.
      split; [apply user_roles_kept, Hr | exact Hw].
  - intros requiredRoles b db'. rewrite RolesGuard_cases.
    destruct requiredRoles as [[|c roles]|]; try (intros [= <- <-]; split; reflexivity).
    destruct (unauthenticated user); [discriminate|].
    destruct (hasAnyRole _ _ db); [intros [= <- <-]; split; reflexivity | discriminate].
  - intros requiredRoles e db'. rewrite RolesGuard_cases.
    destruct requiredRoles as [[|c roles]|]; try discriminate.
    destruct (unauthenticated user); [intros [= _ <-]; reflexivity|].
    destruct (hasAnyRole _ _ db); [discriminate | intros [= _ <-]; reflexivity].
Qed.

Lemma getUserPermissions_held userId db c :
  c ∈ getUserPermissions userId db <->
  exists r p, r ∈ user_roles userId db /\ p ∈ role_permissions (role_id r) db /\
              perm_code p = c.
Proof.
  change (getUserPermissions userId db) with (collect db (user_roles userId db) []).
  rewrite RbacFacts.elem_of_collect. split; [|intros H; right; exact H].
  intros [H|H]; [inversion H | exact H].
Qed.

Lemma getUserPermissions_kept userId ur db c :
  c ∈ getUserPermissions userId db ->
  c ∈ getUserPermissions userId (with_userRole ur db).
Proof.
  rewrite !getUserPermissions_held. intros (r & p & Hr & Hp & Hc).
  exists r, p. split; [apply user_roles_kept, Hr|]. split; [exact Hp | exact Hc].
Qed.

(** The decision list of [PermissionsGuard.canActivate]. *)
Lemma PermissionsGuard_cases requiredPermissions user db :
  PermissionsGuard_canActivate requiredPermissions user db =
  match requiredPermissions with
  | None | Some [] => (Ok true, db)
  | Some permissions =>
    if unauthenticated user
    then (Err (ForbiddenException "User not authenticated"), db)
    else if forallb (fun permission =>
                       bool_decide (permission ∈ getUserPermissions (request_user_id user) db))
                    permissions
    then (Ok true, db)
    else (Err (ForbiddenException
                 ("Insufficient permissions. Required: "
                  +:+ String.concat ", " permissions)), db)
  end.
Proof.
  unfold PermissionsGuard_canActivate.
  destruct requiredPermissions as [[|c permissions]|]; try reflexivity.
  cbv iota. rewrite bool_decide_eq_false_2 by discriminate.
  destruct (unauthenticated user); [reflexivity|]. step.
  destruct (forallb _ _); reflexivity.
Qed.

(** [PermissionsGuard] lets every request through when the handler requires
    no permission, refuses an anonymous request (or the user id 0) with
    Forbidden otherwise, and lets a signed-in user pass exactly when every
    required permission is granted by one of the user's roles.  It answers
    true or throws, never false, never writes, and a user who passes still
    passes after being given one more role. *)
Theorem PermissionsGuard_decision (user : option RequestUser) (db : Db) :
  (forall requiredPermissions,
      requiredPermissions = None \/ requiredPermissions = Some [] ->
      PermissionsGuard_canActivate requiredPermissions user db = (Ok true, db)) /\
  (forall permissions, permissions <> [] -> unauthenticated user = true ->
      PermissionsGuard_canActivate (Some permissions) user db =
      (Err (ForbiddenException "User not authenticated"), db)) /\
  (forall permissions userId, permissions <> [] -> userId <> 0 ->
      user = Some (mkRequestUser (Some userId)) ->
      (PermissionsGuard_canActivate (Some permissions) user db = (Ok true, db) <->
       forall c, c ∈ permissions ->
         exists r p, r ∈ user_roles userId db /\ p ∈ role_permissions (role_id r) db /\
                     perm_code p = c) /\
      (PermissionsGuard_canActivate (Some permissions) user db = (Ok true, db) <->
       forall c, c ∈ permissions -> hasPermission userId c db = true) /\
      (forall ur, PermissionsGuard_canActivate (Some permissions) user db = (Ok true, db) ->
                  PermissionsGuard_canActivate (Some permissions) user (with_userRole ur db)
                  = (Ok true, with_userRole ur db))) /\
  (forall requiredPermissions b db',
      PermissionsGuard_canActivate requiredPermissions user db = (Ok b, db') ->
      b = true /\ db' = db) /\
  (forall requiredPermissions e db',
      PermissionsGuard_canActivate requiredPermissions user db = (Err e, db') -> db' = db).
Proof.
  split; [|split; [|split; [|split]]].
  - intros requiredPermissions [-> | ->]; reflexivity.
  - intros permissions Hne Hanon. rewrite PermissionsGuard_cases, Hanon.
    destruct permissions; [contradiction | reflexivity].
  - intros permissions userId Hne Hid ->.
    assert (Hrun : forall db0,
               PermissionsGuard_canActivate (Some permissions)
                 (Some (mkRequestUser (Some userId))) db0 = (Ok true, db0) <->
               forall c, c ∈ permissions -> c ∈ getUserPermissions userId db0).
    { intros db0. rewrite PermissionsGuard_cases.
      destruct permissions as [|c0 permissions]; [contradiction|].
      assert (Hauth : unauthenticated (Some (mkRequestUser (Some userId))) = false)
        by (destruct userId; [contradiction | reflexivity | reflexivity]).
      rewrite Hauth. cbv iota.
      change (request_user_id (Some (mkRequestUser (Some userId)))) with userId.
      destruct (forallb _ (c0 :: permissions)) eqn:Hall.
      - split; [|reflexivity]. intros _ c Hc. rewrite forallb_forall in Hall.
        specialize (Hall c (proj1 (list_elem_of_In _ _) Hc)).
        apply bool_decide_eq_true in Hall. exact Hall.
      - split; [discriminate|]. intros H. exfalso.
        assert (Htrue : forallb (fun permission =>
                   bool_decide (permission ∈ getUserPermissions userId db0))
                   (c0 :: permissions) = true).
        { apply forallb_forall. intros c Hc. apply bool_decide_eq_true_2, H.
          apply list_elem_of_In, Hc. }
        congruence. }
    split; [|split].
    + rewrite Hrun. split; intros H c Hc; apply getUserPermissions_held, H, Hc.
    + rewrite Hrun. unfold hasPermission. split; intros H c Hc.
      * apply bool_decide_eq_true_2, H, Hc.
      * specialize (H c Hc). apply bool_decide_eq_true in H. exact H.
    + intros ur. rewrite !Hrun. intros H c Hc. apply getUserPermissions_kept, H, Hc.
  - intros requiredPermissions b db'. rewrite PermissionsGuard_cases.
    destruct requiredPermissions as [[|c permissions]|];
      try (intros [= <- <-]; split; reflexivity).
    destruct (unauthenticated user); [discriminate|].
    destruct (forallb _ _); [intros [= <- <-]; split; reflexivity | discriminate].
  - intros requiredPermissions e db'. rewrite PermissionsGuard_cases.
    destruct requiredPermissions as [[|c permissions]|]; try discriminate.
    destruct (unauthenticated user); [intros [= _ <-]; reflexivity|].
    destruct (forallb _ _); [discriminate | intros [= _ <-]; reflexivity].
Qed.

Lemma filter_other_kept (userId other : Z) (rows : list UserRole) :
  other <> userId ->
  filter (fun ur => ur_user_id ur = other) (filter (fun ur => ur_user_id ur <> userId) rows)
  = filter (fun ur => ur_user_id ur = other) rows.
Proof.
  intros Hne. induction rows as [|ur rows IH]; [reflexivity|].
  destruct (decide (ur_user_id ur = userId)) as [Hu|Hu].
  - rewrite (filter_cons_False (fun ur => ur_user_id ur <> userId)) by tauto.
    rewrite (filter_cons_False (fun ur => ur_user_id ur = other)) by congruence.
    exact IH.
  - rewrite (filter_cons_True (fun ur => ur_user_id ur <> userId)) by exact Hu.
    destruct (decide (ur_user_id ur = other)) as [Ho|Ho].
    + rewrite !(filter_cons_True (fun ur => ur_user_id ur = other)) by exact Ho.
      rewrite IH. reflexivity.
    + rewrite !(filter_cons_False (fun ur => ur_user_id ur = other)) by exact Ho.
      exact IH.
Qed.

Lemma filter_other_new (userId other seq : Z) (roleIds : list Z) :
  other <> userId ->
  filter (fun ur => ur_user_id ur = other) (new_userRoles userId seq roleIds) = [].
Proof.
  intros Hne. apply RbacFacts.filter_none.
  eapply Forall_impl; [apply RbacFacts.new_userRoles_user|].
  intros ur Hur. simpl in *. congruence.
Qed.

(** Under a primary key, deleting by the key of a stored row removes that
    row and no other. *)
Lemma remove_by_id_stored {A} (key : A -> Z) (P : A -> Prop) `{!forall x, Decision (P x)}
    (x : A) (rows rows' : list A) :
  NoDup (map key rows) -> x ∈ rows -> ~ P x ->
  remove_by_id key (key x) rows = Some rows' ->
  filter P rows' = filter P rows.
Proof.
  revert rows'. induction rows as [|r rows IH]; intros rows' Hnd Hin HP Hrm;
    [inversion Hin|].
  simpl in Hrm. simpl in Hnd. apply NoDup_cons in Hnd. destruct Hnd as [Hr Hnd].
  case_bool_decide as Hkey.
  - injection Hrm as <-.
    assert (r = x) as ->.
    { apply elem_of_cons in Hin. destruct Hin as [-> | Hin]; [reflexivity|].
      exfalso. apply Hr. rewrite Hkey. apply list_elem_of_fmap. exists x.
      split; [reflexivity | exact Hin]. }
    rewrite filter_cons_False by exact HP. reflexivity.
  - destruct (remove_by_id key (key x) rows) as [rest|] eqn:Hrest; [|discriminate].
    injection Hrm as <-.
    apply elem_of_cons in Hin. destruct Hin as [-> | Hin]; [contradiction|].
    specialize (IH rest Hnd Hin HP eq_refl).
    destruct (decide (P r)).
    + rewrite !filter_cons_True by assumption. rewrite IH. reflexivity.
    + rewrite !filter_cons_False by assumption. exact IH.
Qed.

(** Assigning, replacing and removing roles of one user never touch the
    role rows of another user, nor the role and permission tables, whether
    the call succeeds or fails; for the removal this rests on the primary
    key of [user_roles]. *)
Theorem role_changes_are_local (userId other : Z) (userKey : string) (db : Db) :
  other <> userId ->
  (forall roleCodes,
      let db' := (_assignRolesByUserId userId userKey roleCodes db).2 in
      userRole_findMany other db' = userRole_findMany other db /\
      role db' = role db /\ rolePermission db' = rolePermission db) /\
  (forall roleCodes,
      let db' := (_updateUserRolesByUserId userId userKey roleCodes db).2 in
      userRole_findMany other db' = userRole_findMany other db /\
      role db' = role db /\ rolePermission db' = rolePermission db) /\
  (forall roleCode,
      NoDup (map ur_id (userRole db)) ->
      let db' := (_removeRoleByUserId userId userKey roleCode db).2 in
      userRole_findMany other db' = userRole_findMany other db /\
      role db' = role db /\ rolePermission db' = rolePermission db).
Proof.
  intros Hne. split; [|split].
  - intros roleCodes. cbv zeta.
    pose proof (RbacFacts._assignRolesByUserId_cases userId userKey roleCodes db) as Hrun.
    cbv zeta in Hrun. rewrite Hrun. clear Hrun.
    repeat (case_bool_decide; [repeat split; reflexivity|]).
    destruct (batch_unique _ _); [|repeat split; reflexivity].
    unfold userRole_findMany. simpl. rewrite filter_app, filter_other_new by exact Hne.
    rewrite app_nil_r. repeat split; reflexivity.
  - intros roleCodes. cbv zeta.
    pose proof (RbacFacts._updateUserRolesByUserId_cases userId userKey roleCodes db) as Hrun.
    cbv zeta in Hrun. rewrite Hrun. clear Hrun.
    repeat (case_bool_decide; [repeat split; reflexivity|]).
    destruct (batch_unique _ _); [|repeat split; reflexivity].
    unfold userRole_findMany. simpl. rewrite filter_app, filter_other_new by exact Hne.
    rewrite app_nil_r, filter_other_kept by exact Hne. repeat split; reflexivity.
  - intros roleCode Hnd. cbv zeta. rewrite RbacFacts._removeRoleByUserId_cases.
    destruct (role_findByCode roleCode db) as [R|]; [|repeat split; reflexivity].
    destruct (userRole_findUnique userId (role_id R) db) as [ur|] eqn:Hur;
      [|repeat split; reflexivity].
    case_bool_decide; [repeat split; reflexivity|].
    destruct (remove_by_id ur_id (ur_id ur) (userRole db)) as [rows|] eqn:Hrm;
      [|repeat split; reflexivity].
    apply RbacFacts.found_role_held in Hur. destruct Hur as [Hin _].
    apply list_elem_of_filter in Hin. destruct Hin as [Hu Hin].
    unfold userRole_findMany. simpl.
    rewrite (remove_by_id_stored ur_id (fun ur => ur_user_id ur = other) ur _ _ Hnd Hin)
      by (congruence || exact Hrm).
    repeat split; reflexivity.
Qed.

(** After a successful [_assignRolesByUserId] the user passes [hasRole]
    for every code the request names and still holds every role held
    before; the roles reported as assigned are stored roles a listed code
    selects and the user did not hold.  [hasAllRoles], which compares the
    codes character by character, holds for the request when its codes are
    spelled as stored. *)
Theorem assignRoles_then_holds (userId : Z) (userKey : string) (roleCodes : list string)
    (db db' : Db) (res : AssignRolesResult) :
  Db_wf db ->
  _assignRolesByUserId userId userKey roleCodes db = (Ok res, db') ->
  (forall c, c ∈ roleCodes -> hasRole userId c db' = true) /\
  (forall r, r ∈ user_roles userId db -> r ∈ user_roles userId db') /\
  ar_assignedRoles res <> [] /\
  (forall r, r ∈ ar_assignedRoles res ->
     r ∈ role db /\ weight (role_code r) ∈ map weight roleCodes /\
     role_id r ∉ map ur_role_id (userRole_findMany userId db)) /\
  ((forall c, c ∈ roleCodes -> c ∈ map role_code (role db)) ->
   hasAllRoles userId roleCodes db' = true).
Proof.
  intros Hwf.
  pose proof (RbacFacts._assignRolesByUserId_cases userId userKey roleCodes db) as Hrun.
  cbv zeta in Hrun. rewrite Hrun. clear Hrun.
  case_bool_decide as Hlen; [discriminate|].
  rewrite RbacFacts.newRoleIds_not_yet_held, RbacFacts.assigned_not_yet_held.
  case_bool_decide as Hnew; [discriminate|].
  destruct (batch_unique _ _); [|discriminate].
  intros [= <- <-]. simpl.
  set (db' := set_userRole _ _ db).
  assert (Hroles : user_roles userId db'
                   = (user_roles userId db ++ not_yet_held userId roleCodes db)%list).
  { unfold user_roles, db'. rewrite RbacFacts.userRole_findMany_extended, omap_app.
    f_equal. apply (RbacFacts.omap_role_findById_stored db).
    - apply Hwf.
    - apply Forall_forall. intros r Hr. apply RbacFacts.elem_of_not_yet_held in Hr.
      apply Hr.
    - apply RbacFacts.new_userRoles_role_ids. }
  assert (Hkept : forall r, r ∈ user_roles userId db -> r ∈ user_roles userId db').
  { intros r Hr. rewrite Hroles. apply elem_of_app. left. exact Hr. }
  assert (Hholds : forall c, c ∈ roleCodes ->
            exists r, r ∈ user_roles userId db' /\ r ∈ role db /\
                      weight (role_code r) = weight c).
  { intros c Hc.
    destruct (decide (weight c ∈ map (fun r => weight (role_code r)) (role db)))
      as [Hres|Hmiss].
    - apply list_elem_of_fmap in Hres. destruct Hres as (r & Hw & Hr).
      exists r. split; [|split; [exact Hr | symmetry; exact Hw]].
      rewrite Hroles. apply elem_of_app.
      destruct (decide (role_id r ∈ map ur_role_id (userRole_findMany userId db)))
        as [Hheld|Hfresh].
      + left. apply list_elem_of_fmap in Hheld. destruct Hheld as (ur & Hid & Hur).
        apply list_elem_of_omap. exists ur. split; [exact Hur|].
        rewrite <- Hid. apply RbacFacts.role_findById_stored; [apply Hwf | exact Hr].
      + right. apply RbacFacts.elem_of_not_yet_held. split; [exact Hr|].
        split; [|exact Hfresh]. rewrite <- Hw. apply list_elem_of_fmap. exists c.
        split; [reflexivity | exact Hc].
    - exfalso.
      apply (RbacFacts.unresolved_length db roleCodes c Hwf Hc Hmiss). exact Hlen. }
  split; [|split; [exact Hkept|split; [|split]]].
  - intros c Hc. apply hasRole_held. destruct (Hholds c Hc) as (r & Hr & _ & Hw).
    exists r. split; assumption.
  - rewrite length_map in Hnew. destruct (not_yet_held userId roleCodes db);
      [contradiction Hnew; reflexivity | discriminate].
  - intros r Hr. apply RbacFacts.elem_of_not_yet_held in Hr. exact Hr.
  - intros Hspelled. apply hasAllRoles_held. intros c Hc.
    destruct (Hholds c Hc) as (r & Hr & Hstored & Hw). exists r. split; [exact Hr|].
    pose proof (Hspelled c Hc) as Hc'. apply list_elem_of_fmap in Hc'.
    destruct Hc' as (r' & -> & Hr').
    rewrite (RbacFacts.NoDup_map_inj_on (fun r => weight (role_code r)) (role db) r r'
               (wf_role_code db Hwf) Hstored Hr' Hw).
    reflexivity.
Qed.

Lemma new_userRoles_pairs userId seq roleIds :
  map (fun ur => (ur_user_id ur, ur_role_id ur)) (new_userRoles userId seq roleIds)
  = map (fun roleId => (userId, roleId)) roleIds.
Proof.
  unfold new_userRoles. revert seq. induction roleIds as [|i l IH]; intros seq; simpl;
    [reflexivity|]. rewrite IH. reflexivity.
Qed.

Lemma omap_by_role_id (g : Z -> option Role) (rows : list UserRole) :
  omap (fun ur => g (ur_role_id ur)) rows = omap g (map ur_role_id rows).
Proof.
  induction rows as [|ur rows IH]; [reflexivity|]. simpl.
  destruct (g (ur_role_id ur)); simpl; [f_equal|]; exact IH.
Qed.

Lemma kept_after_replace userId seq roleIds (rows : list UserRole) :
  filter (fun ur => ur_user_id ur <> userId)
         ((filter (fun ur => ur_user_id ur <> userId) rows
             ++ new_userRoles userId seq roleIds)%list)
  = filter (fun ur => ur_user_id ur <> userId) rows.
Proof.
  rewrite filter_app.
  rewrite (RbacFacts.filter_all _ (filter _ rows)).
  - rewrite (RbacFacts.filter_none _ (new_userRoles userId seq roleIds));
      [apply app_nil_r|].
    eapply Forall_impl; [apply RbacFacts.new_userRoles_user|].
    intros ur Hur Hne. simpl in *. contradiction.
  - apply Forall_forall. intros ur Hur. apply list_elem_of_filter in Hur. apply Hur.
Qed.

(** Replacing a user's roles is idempotent: after a successful
    [_updateUserRolesByUserId], the same request succeeds again with the
    same answer and leaves the same user-role pairs in the table; only the
    row ids and the counter move on. *)
Theorem updateUserRoles_idempotent (userId : Z) (userKey : string)
    (roleCodes : list string) (db db1 : Db) (res : UpdateUserRolesResult) :
  _updateUserRolesByUserId userId userKey roleCodes db = (Ok res, db1) ->
  exists db2,
    _updateUserRolesByUserId userId userKey roleCodes db1 = (Ok res, db2) /\
    map (fun ur => (ur_user_id ur, ur_role_id ur)) (userRole db2)
    = map (fun ur => (ur_user_id ur, ur_role_id ur)) (userRole db1) /\
    user_roles userId db2 = user_roles userId db1.
Proof.
  pose proof (RbacFacts._updateUserRolesByUserId_cases userId userKey roleCodes db) as Hrun.
  cbv zeta in Hrun. rewrite Hrun. clear Hrun.
  case_bool_decide as Hempty; [discriminate|].
  case_bool_decide as Hlen; [discriminate|].
  destruct (batch_unique _ _) eqn:Hbatch; [|discriminate].
  intros [= <- <-].
  set (roles := role_findManyByCodes roleCodes db) in *.
  set (kept := filter (fun ur => ur_user_id ur <> userId) (userRole db)) in *.
  set (db1 := set_userRole (kept ++ new_userRoles userId (userRole_seq db) (map role_id roles))
                (userRole_seq db + Z.of_nat (length roles)) db).
  pose proof (RbacFacts._updateUserRolesByUserId_cases userId userKey roleCodes db1) as Hrun.
  cbv zeta in Hrun. rewrite Hrun. clear Hrun.
  change (role_findManyByCodes roleCodes db1) with roles.
  rewrite bool_decide_eq_false_2 by exact Hempty.
  rewrite bool_decide_eq_false_2 by (intros Hc; apply Hc; exact Hlen).
  change (userRole db1)
    with (kept ++ new_userRoles userId (userRole_seq db) (map role_id roles))%list.
  unfold kept at 1 2 3. rewrite kept_after_replace. fold kept. rewrite Hbatch.
  set (db2 := set_userRole _ _ db1).
  assert (Hroles : user_roles userId db2 = user_roles userId db1).
  { assert (H2 : userRole_findMany userId db2
                 = new_userRoles userId (userRole_seq db1) (map role_id roles)).
    { unfold db2. apply RbacFacts.userRole_findMany_replaced.
      unfold db1, kept. simpl. symmetry. apply kept_after_replace. }
    assert (H1 : userRole_findMany userId db1
                 = new_userRoles userId (userRole_seq db) (map role_id roles)).
    { unfold db1. apply RbacFacts.userRole_findMany_replaced. reflexivity. }
    unfold user_roles. rewrite H1, H2.
    rewrite (omap_by_role_id (fun i => role_findById i db2)).
    rewrite (omap_by_role_id (fun i => role_findById i db1)).
    rewrite !RbacFacts.new_userRoles_role_ids. reflexivity. }
  exists db2. rewrite Hroles. split; [reflexivity|]. split; [|reflexivity].
  unfold db2, db1. simpl. rewrite !map_app, !new_userRoles_pairs. reflexivity.
Qed.

Lemma find_app_none {A} (f : A -> bool) (l l' : list A) :
  find f l = None -> find f (l ++ l') = find f l'.
Proof.
  induction l as [|x l IH]; [reflexivity|]. simpl.
  destruct (f x); [discriminate | exact IH].
Qed.

Lemma remove_by_id_last {A} (key : A -> Z) (i : Z) (rows : list A) (x : A) :
  Forall (fun r => key r <> i) rows -> key x = i ->
  remove_by_id key i (rows ++ [x]) = Some rows.
Proof.
  intros Hrows Hx. induction Hrows as [|r rows Hr Hrows IH]; simpl.
  - rewrite bool_decide_eq_true_2 by exact Hx. reflexivity.
  - rewrite bool_decide_eq_false_2 by exact Hr. rewrite IH. reflexivity.
Qed.

(** Under the unique index on [code], the rows a single code selects are
    the one row [findUnique] returns. *)
Lemma findMany_single_code db c R :
  NoDup (map (fun r => weight (role_code r)) (role db)) ->
  role_findByCode c db = Some R ->
  role_findManyByCodes [c] db = [R].
Proof.
  intros Hnd Hfind.
  assert (Hsel : findManyByCodes role_code (role db) [c] = [R]).
  { revert Hnd Hfind. unfold role_findByCode, findManyByCodes.
    induction (role db) as [|r rows IH]; intros Hnd Hfind; [discriminate|].
    simpl in Hnd. apply NoDup_cons in Hnd. destruct Hnd as [Hr Hnd]. simpl in Hfind.
    case_bool_decide as Hc.
    - injection Hfind as ->.
      rewrite filter_cons_True by (simpl; rewrite Hc; left).
      f_equal. apply RbacFacts.filter_none, Forall_forall. intros r' Hr' Hin.
      simpl in Hin. apply list_elem_of_singleton in Hin. apply Hr. rewrite Hc, <- Hin.
      apply list_elem_of_fmap. exists r'. split; [reflexivity | exact Hr'].
    - rewrite filter_cons_False
        by (simpl; intros Hin; apply list_elem_of_singleton in Hin; contradiction).
      apply IH; assumption. }
  unfold role_findManyByCodes. rewrite Hsel. reflexivity.
Qed.

(** Assigning one role to a user who holds at least one other role and
    then removing it again succeeds twice and restores the [user_roles]
    table row for row, given the unique index on role codes and that no
    stored row id exceeds the AUTO_INCREMENT counter. *)
Theorem assign_remove_roundtrip (userId : Z) (userKey roleCode : string) (db : Db)
    (R : Role) :
  Db_wf db ->
  Forall (fun ur => ur_id ur <= userRole_seq db) (userRole db) ->
  role_findByCode roleCode db = Some R ->
  role_id R ∉ map ur_role_id (userRole_findMany userId db) ->
  userRole_findMany userId db <> [] ->
  exists res1 db1 res2 db2,
    _assignRolesByUserId userId userKey [roleCode] db = (Ok res1, db1) /\
    ar_assignedRoles res1 = [R] /\
    _removeRoleByUserId userId userKey roleCode db1 = (Ok res2, db2) /\
    rr_removedRole res2 = R /\
    userRole db2 = userRole db.
Proof.
  intros Hwf Hseq HR Hfresh Hsome.
  pose proof (findMany_single_code db roleCode R (wf_role_code db Hwf) HR) as Hroles.
  pose proof (RbacFacts._assignRolesByUserId_cases userId userKey [roleCode] db) as Hrun.
  cbv zeta in Hrun. rewrite RbacFacts.newRoleIds_not_yet_held in Hrun.
  rewrite RbacFacts.assigned_not_yet_held in Hrun.
  assert (Hnew : not_yet_held userId [roleCode] db = [R]).
  { unfold not_yet_held. rewrite Hroles. rewrite filter_cons_True by exact Hfresh.
    reflexivity. }
  rewrite Hnew, Hroles in Hrun. simpl in Hrun.
  assert (Hbatch : batch_unique
                     (map (fun ur => (ur_user_id ur, ur_role_id ur)) (userRole db))
                     [(userId, role_id R)] = true).
  { apply (RbacFacts.batch_unique_intro _ userId role_id [R]).
    - apply NoDup_singleton.
    - intros r Hr Hin. apply list_elem_of_singleton in Hr. subst r.
      apply Hfresh. apply list_elem_of_fmap in Hin.
      destruct Hin as (ur & Hpair & Hur). injection Hpair as Hu Hrole.
      apply list_elem_of_fmap. exists ur. split; [exact Hrole|].
      apply list_elem_of_filter. split; [symmetry; exact Hu | exact Hur]. }
  rewrite Hbatch in Hrun.
  set (row := mkUserRole (userRole_seq db + 1) userId (role_id R)).
  set (db1 := set_userRole (userRole db ++ [row]) (userRole_seq db + 1) db).
  eexists. exists db1. eexists. exists (set_userRole (userRole db) (userRole_seq db + 1) db1).
  split; [exact Hrun|]. split; [reflexivity|].
  rewrite RbacFacts._removeRoleByUserId_cases.
  change (role_findByCode roleCode db1) with (role_findByCode roleCode db). rewrite HR.
  assert (Hnone : find (fun ur => bool_decide (ur_user_id ur = userId)
                                  && bool_decide (ur_role_id ur = role_id R))
                       (userRole db) = None).
  { destruct (find _ (userRole db)) as [ur|] eqn:Hfind; [|reflexivity].
    exfalso. apply Hfresh.
    apply (RbacFacts.found_role_held userId (role_id R) db ur) in Hfind.
    destruct Hfind as [Hin Hrole]. apply list_elem_of_fmap. exists ur.
    split; [symmetry; exact Hrole | exact Hin]. }
  assert (Hunique : userRole_findUnique userId (role_id R) db1 = Some row).
  { unfold userRole_findUnique, db1. simpl. rewrite find_app_none by exact Hnone.
    simpl. rewrite !bool_decide_eq_true_2 by reflexivity. reflexivity. }
  rewrite Hunique.
  assert (Hcount : length (userRole_findMany userId db1) <> 1%nat).
  { unfold db1.
    change [row] with (new_userRoles userId (userRole_seq db) [role_id R]).
    rewrite (RbacFacts.userRole_findMany_extended userId db _ [role_id R]).
    rewrite length_app. simpl.
    destruct (userRole_findMany userId db); [contradiction | simpl; lia]. }
  rewrite bool_decide_eq_false_2 by exact Hcount.
  assert (Hrm : remove_by_id ur_id (ur_id row) (userRole db1) = Some (userRole db)).
  { unfold db1. simpl. apply remove_by_id_last; [|reflexivity].
    eapply Forall_impl; [exact Hseq|]. intros ur Hle. simpl in Hle. lia. }
  rewrite Hrm. split; [reflexivity|]. split; reflexivity.
Qed.

Section ByKey.
Context {A : Type} (key : A -> Z).

Lemma filter_key_kept (i j : Z) (rows : list A) :
  j <> i ->
  filter (fun r => key r = j) (filter (fun r => key r <> i) rows)
  = filter (fun r => key r = j) rows.
Proof.
  intros Hne. induction rows as [|r rows IH]; [reflexivity|].
  destruct (decide (key r = i)) as [Hi|Hi].
  - rewrite (filter_cons_False (fun r => key r <> i)) by tauto.
    rewrite (filter_cons_False (fun r => key r = j)) by congruence.
    exact IH.
  - rewrite (filter_cons_True (fun r => key r <> i)) by exact Hi.
    destruct (decide (key r = j)) as [Hj|Hj].
    + rewrite !(filter_cons_True (fun r => key r = j)) by exact Hj.
      rewrite IH. reflexivity.
    + rewrite !(filter_cons_False (fun r => key r = j)) by exact Hj.
      exact IH.
Qed.

Lemma filter_key_gone (i : Z) (rows : list A) :
  filter (fun r => key r = i) (filter (fun r => key r <> i) rows) = [].
Proof.
  apply RbacFacts.filter_none, Forall_forall. intros r Hr.
  apply list_elem_of_filter in Hr. apply Hr.
Qed.

Lemma filter_key_unused (i : Z) (rows : list A) :
  length (filter (fun r => key r = i) rows) = 0%nat ->
  filter (fun r => key r <> i) rows = rows.
Proof.
  intros Hlen. apply RbacFacts.filter_all, Forall_forall. intros r Hr Hkey.
  assert (Hin : r ∈ filter (fun r => key r = i) rows)
    by (apply list_elem_of_filter; split; assumption).
  destruct (filter (fun r => key r = i) rows); [inversion Hin | discriminate].
Qed.

Lemma remove_by_id_found (i : Z) (rows : list A) (r : A) :
  find (fun x => bool_decide (key x = i)) rows = Some r ->
  exists rows', remove_by_id key i rows = Some rows'.
Proof.
  induction rows as [|x rows IH]; [discriminate|]. simpl.
  case_bool_decide; [eexists; reflexivity|].
  intros Hfind. destruct (IH Hfind) as [rows' ->]. eexists. reflexivity.
Qed.

Lemma find_after_remove_other (i j : Z) (rows rows' : list A) :
  j <> i -> remove_by_id key i rows = Some rows' ->
  find (fun x => bool_decide (key x = j)) rows'
  = find (fun x => bool_decide (key x = j)) rows.
Proof.
  intros Hne. revert rows'. induction rows as [|x rows IH]; intros rows' Hrm;
    [discriminate|]. simpl in Hrm.
  case_bool_decide as Hi.
  - injection Hrm as <-. simpl. rewrite bool_decide_eq_false_2 by congruence.
    reflexivity.
  - destruct (remove_by_id key i rows) as [rest|]; [|discriminate].
    injection Hrm as <-. simpl. rewrite (IH rest eq_refl). reflexivity.
Qed.

Lemma find_after_remove_same (i : Z) (rows rows' : list A) :
  NoDup (map key rows) -> remove_by_id key i rows = Some rows' ->
  find (fun x => bool_decide (key x = i)) rows' = None.
Proof.
  revert rows'. induction rows as [|x rows IH]; intros rows' Hnd Hrm; [discriminate|].
  simpl in Hrm, Hnd. apply NoDup_cons in Hnd. destruct Hnd as [Hx Hnd].
  case_bool_decide as Hi.
  - injection Hrm as <-.
    destruct (find _ rows) as [y|] eqn:Hfind; [|reflexivity].
    apply find_some in Hfind. destruct Hfind as [Hin Hy].
    apply bool_decide_eq_true in Hy. exfalso. apply Hx. rewrite Hi, <- Hy.
    apply list_elem_of_fmap. exists y. split; [reflexivity | apply list_elem_of_In, Hin].
  - destruct (remove_by_id key i rows) as [rest|]; [|discriminate].
    injection Hrm as <-. simpl. rewrite bool_decide_eq_false_2 by exact Hi.
    apply IH; [exact Hnd | reflexivity].
Qed.

End ByKey.

(** The decision list of [deleteRole]. *)
Lemma deleteRole_cases roleId db :
  deleteRole roleId db =
  match role_findById roleId db with
  | None => (Err (NotFoundException ("Role with ID " +:+ pretty roleId +:+ " not found")), db)
  | Some r =>
    if role_is_system r
    then (Err (BadRequestException "Cannot delete system role"), db)
    else if bool_decide (0 < role_user_count roleId db)%nat
    then (Err (BadRequestException
                 ("Cannot delete role: " +:+ pretty (role_user_count roleId db)
                  +:+ " user(s) are using this role")), db)
    else
      match remove_by_id role_id roleId (role db) with
      | None => (Err (PrismaClientKnownRequestError "P2025"), db)
      | Some roles =>
        (Ok (mkDeleteRoleResult "Role deleted successfully" roleId (role_name r)),
         mkDb roles (permission db)
              (filter (fun rp => rp_role_id rp <> roleId) (rolePermission db))
              (filter (fun ur => ur_role_id ur <> roleId) (userRole db))
              (role_seq db) (rolePermission_seq db) (userRole_seq db))
      end
  end.
Proof.
  unfold deleteRole. step.
  destruct (role_findById roleId db) as [r|]; [|reflexivity].
  destruct (role_is_system r); [reflexivity|].
  case_bool_decide; [reflexivity|].
  unfold role_delete. destruct (remove_by_id role_id roleId (role db)); reflexivity.
Qed.

(** [deleteRole] refuses a missing role with NotFound, a system role and a
    role some user holds with BadRequest, and never changes the [user_roles]
    or [permissions] tables.  Otherwise it succeeds: the role row and its
    permission links are gone, and every other role keeps its row and its
    permissions; under the primary key of [roles] the deleted id then
    resolves to nothing and a second call answers NotFound. *)
Theorem deleteRole_outcome (roleId : Z) (db : Db) :
  (userRole (deleteRole roleId db).2 = userRole db /\
   permission (deleteRole roleId db).2 = permission db) /\
  (forall r, role_findById roleId db = Some r ->
     (role_is_system r = true ->
      deleteRole roleId db = (Err (BadRequestException "Cannot delete system role"), db)) /\
     (role_is_system r = false -> (0 < role_user_count roleId db)%nat ->
      deleteRole roleId db =
      (Err (BadRequestException
              ("Cannot delete role: " +:+ pretty (role_user_count roleId db)
               +:+ " user(s) are using this role")), db)) /\
     (role_is_system r = false -> role_user_count roleId db = 0%nat ->
      exists db',
        deleteRole roleId db =
          (Ok (mkDeleteRoleResult "Role deleted successfully" roleId (role_name r)), db') /\
        role_permissions roleId db' = [] /\
        (forall j, j <> roleId ->
           role_findById j db' = role_findById j db /\
           role_permissions j db' = role_permissions j db) /\
        (NoDup (map role_id (role db)) ->
           role_findById roleId db' = None /\
           deleteRole roleId db' =
           (Err (NotFoundException ("Role with ID " +:+ pretty roleId +:+ " not found")),
            db')))) /\
  (role_findById roleId db = None ->
   deleteRole roleId db =
   (Err (NotFoundException ("Role with ID " +:+ pretty roleId +:+ " not found")), db)).
Proof.
  split; [|split].
  - rewrite deleteRole_cases.
    destruct (role_findById roleId db) as [r|]; [|split; reflexivity].
    destruct (role_is_system r); [split; reflexivity|].
    case_bool_decide as Hcount; [split; reflexivity|].
    destruct (remove_by_id role_id roleId (role db)); [|split; reflexivity].
    simpl. split; [|reflexivity].
    apply (filter_key_unused ur_role_id). unfold role_user_count in Hcount. lia.
  - intros r Hr. rewrite deleteRole_cases, Hr. split; [|split].
    + intros ->. reflexivity.
    + intros -> Hcount. rewrite bool_decide_eq_true_2 by exact Hcount. reflexivity.
    + intros -> Hcount. rewrite bool_decide_eq_false_2 by lia.
      destruct (remove_by_id_found role_id roleId (role db) r Hr) as [roles Hrm].
      rewrite Hrm. eexists. split; [reflexivity|].
      unfold role_permissions, rolePermission_findMany, role_findById. simpl.
      split; [rewrite (filter_key_gone rp_role_id); reflexivity|].
      split.
      * intros j Hj. split.
        -- apply (find_after_remove_other role_id roleId j _ _ Hj Hrm).
        -- rewrite (filter_key_kept rp_role_id) by exact Hj. reflexivity.
      * intros Hnd.
        pose proof (find_after_remove_same role_id roleId _ _ Hnd Hrm) as Hgone.
        split; [exact Hgone|].
        rewrite deleteRole_cases. unfold role_findById. simpl. rewrite Hgone.
        reflexivity.
  - intros Hr. rewrite deleteRole_cases, Hr. reflexivity.
Qed.

Lemma role_permissions_other roleId j (perms : list Permission) db :
  j <> roleId ->
  role_permissions j (replaced_permissions roleId perms db) = role_permissions j db.
Proof.
  intros Hj. unfold role_permissions, rolePermission_findMany. simpl.
  rewrite filter_app, (filter_key_kept rp_role_id) by exact Hj.
  rewrite (RbacFacts.filter_none _ (new_rolePermissions roleId _ perms)).
  - rewrite app_nil_r. reflexivity.
  - eapply Forall_impl; [apply RbacFacts.new_rolePermissions_role|].
    intros rp Hrp. simpl in *. congruence.
Qed.

(** Replacing the permissions of a role is idempotent and local: the same
    request, repeated, gives the same answer and the same permissions for
    the role, and the first request changes neither the permissions of any
    other role nor the role, permission and user-role tables. *)
Theorem updateRolePermissions_idempotent (roleId : Z) (permissionCodes : list string)
    (db : Db) (R : Role) :
  Db_wf db ->
  role_findById roleId db = Some R ->
  let db1 := (updateRolePermissions roleId permissionCodes db).2 in
  (updateRolePermissions roleId permissionCodes db1).1
    = (updateRolePermissions roleId permissionCodes db).1 /\
  role_permissions roleId (updateRolePermissions roleId permissionCodes db1).2
    = role_permissions roleId db1 /\
  (forall j, j <> roleId -> role_permissions j db1 = role_permissions j db) /\
  role db1 = role db /\ permission db1 = permission db /\ userRole db1 = userRole db.
Proof.
  intros Hwf HR. cbv zeta.
  rewrite (RbacFacts.updateRolePermissions_run roleId permissionCodes db R
             (wf_perm_id db Hwf) HR). simpl.
  set (perms := permission_findManyByCodes permissionCodes db).
  set (db1 := replaced_permissions roleId perms db).
  assert (Hrun1 : updateRolePermissions roleId permissionCodes db1 =
                  (Ok (Some (R, perms)), replaced_permissions roleId perms db1)).
  { apply (RbacFacts.updateRolePermissions_run roleId permissionCodes db1 R).
    - exact (wf_perm_id db Hwf).
    - exact HR. }
  rewrite Hrun1. simpl. split; [reflexivity|]. split.
  - rewrite (RbacFacts.role_permissions_replaced roleId perms db1);
      [| exact (wf_perm_id db Hwf) | exact (RbacFacts.found_permissions_stored permissionCodes db)].
    unfold db1. rewrite RbacFacts.role_permissions_replaced;
      [reflexivity | exact (wf_perm_id db Hwf) | exact (RbacFacts.found_permissions_stored permissionCodes db)].
  - split; [intros j Hj; apply role_permissions_other, Hj|].
    repeat split; reflexivity.
Qed.

(** A change of a role's permissions is seen by the very next permission
    query: after [updateRolePermissions], a user's permissions are the codes
    of the stored permissions a listed code selects, if the user holds the
    role, together with the permissions of the user's other roles. *)
Theorem permissions_visible_at_once (roleId userId : Z) (permissionCodes : list string)
    (db : Db) (R : Role) :
  Db_wf db ->
  role_findById roleId db = Some R ->
  let db1 := (updateRolePermissions roleId permissionCodes db).2 in
  forall c,
    hasPermission userId c db1 = true <->
    exists r, r ∈ user_roles userId db /\
      ((role_id r = roleId /\ weight c ∈ map weight permissionCodes /\
        c ∈ map perm_code (permission db)) \/
       (role_id r <> roleId /\
        exists p, p ∈ role_permissions (role_id r) db /\ perm_code p = c)).
Proof.
  intros Hwf HR. cbv zeta.
  rewrite (RbacFacts.updateRolePermissions_run roleId permissionCodes db R
             (wf_perm_id db Hwf) HR). simpl.
  set (perms := permission_findManyByCodes permissionCodes db).
  intros c. unfold hasPermission. rewrite bool_decide_eq_true.
  rewrite getUserPermissions_held.
  change (user_roles userId (replaced_permissions roleId perms db))
    with (user_roles userId db).
  split.
  - intros (r & p & Hr & Hp & Hc). exists r. split; [exact Hr|].
    destruct (decide (role_id r = roleId)) as [Heq|Hne].
    + left. split; [exact Heq|]. rewrite Heq in Hp.
      rewrite RbacFacts.role_permissions_replaced in Hp;
        [| exact (wf_perm_id db Hwf)
         | exact (RbacFacts.found_permissions_stored permissionCodes db)].
      apply RbacFacts.elem_of_permission_findManyByCodes in Hp.
      destruct Hp as [Hp Hlisted]. subst c.
      split; [exact Hlisted|]. apply list_elem_of_fmap. exists p.
      split; [reflexivity | exact Hp].
    + right. split; [exact Hne|]. rewrite role_permissions_other in Hp by exact Hne.
      exists p. split; assumption.
  - intros (r & Hr & [(Heq & Hlisted & Hstored)|(Hne & p & Hp & Hc)]).
    + apply list_elem_of_fmap in Hstored. destruct Hstored as (p & -> & Hp).
      exists r, p. split; [exact Hr|]. split; [|reflexivity]. rewrite Heq.
      rewrite RbacFacts.role_permissions_replaced;
        [| exact (wf_perm_id db Hwf)
         | exact (RbacFacts.found_permissions_stored permissionCodes db)].
      apply RbacFacts.elem_of_permission_findManyByCodes. split; assumption.
    + exists r, p. split; [exact Hr|]. split; [|exact Hc].
      rewrite role_permissions_other by exact Hne. exact Hp.
Qed.






End WithEngineMore.

(** *** The statements above on [sample_db]

    The examples run on [caseless_engine] unless they say otherwise. *)

#[local] Existing Instance caseless_engine.

Lemma role_tests_agree_witness :
  hasAnyRole 200 ["EDITOR"; "USER"] sample_db = true /\
  hasAllRoles 200 ["admin"; "user"] sample_db = true.
Proof.
  split.
  - apply (proj1 (proj2 (role_tests_agree 200 sample_db)) ["EDITOR"; "USER"]).
    exists "USER". split; [right; left | reflexivity].
  - apply (proj1 (proj2 (proj2 (proj2 (proj2 (role_tests_agree 200 sample_db)))))
             ["admin"; "user"] RbacFacts.sample_db_wf).
    + apply Forall_forall.
      exact (bool_decide_unpack
               (Forall (fun c => c ∈ map role_code (role sample_db)) ["admin"; "user"]) I).
    + intros c Hc. apply elem_of_cons in Hc. destruct Hc as [-> | Hc]; [reflexivity|].
      apply list_elem_of_singleton in Hc. subst c. reflexivity.
Defined.

(** On a store that disregards case, [hasRole] accepts a code spelled in
    another case and [hasAllRoles] does not; on a store that compares
    character by character [hasRole] refuses it too. *)
Example role_tests_differ :
  hasRole 200 "ADMIN" sample_db = true /\
  hasAllRoles 200 ["ADMIN"] sample_db = false /\
  hasRole (E := exact_engine) 200 "ADMIN" sample_db = false.
Proof. repeat split. Qed.

Lemma RolesGuard_decision_witness :
  RolesGuard_canActivate (Some ["admin"]) (Some (mkRequestUser (Some 0))) sample_db =
    (Err (ForbiddenException "User not authenticated"), sample_db) /\
  RolesGuard_canActivate (Some ["admin"; "editor"]) (Some (mkRequestUser (Some 100))) sample_db
    = (Ok true, sample_db).
Proof.
  split.
  - apply (proj1 (proj2 (RolesGuard_decision (Some (mkRequestUser (Some 0))) sample_db))
             ["admin"]); [discriminate | reflexivity].
  - apply (proj1 (proj1 (proj2 (proj2 (RolesGuard_decision
             (Some (mkRequestUser (Some 100))) sample_db)))
             ["admin"; "editor"] 100 ltac:(discriminate) ltac:(lia) eq_refl)).
    exists "editor". split; [right; left | reflexivity].
Defined.

Lemma PermissionsGuard_decision_witness :
  PermissionsGuard_canActivate (Some ["plan:read"; "user:delete"])
    (Some (mkRequestUser (Some 200))) sample_db = (Ok true, sample_db).
Proof.
  pose proof (proj1 (proj2 (proj2 (PermissionsGuard_decision
                (Some (mkRequestUser (Some 200))) sample_db)))
                ["plan:read"; "user:delete"] 200) as H.
  destruct H as (_ & H & _); [discriminate | lia | reflexivity |].
  apply H. intros c Hc. apply elem_of_cons in Hc. destruct Hc as [-> | Hc]; [reflexivity|].
  apply list_elem_of_singleton in Hc. subst c. reflexivity.
Defined.

Lemma role_changes_are_local_witness :
  userRole_findMany 100 (_removeRoleByUserId 200 "k200" "user" sample_db).2
  = userRole_findMany 100 sample_db.
Proof.
  refine (proj1 (proj2 (proj2 (role_changes_are_local 200 100 "k200" sample_db _))
                   "user" _)).
  - lia.
  - exact (bool_decide_unpack (NoDup (map ur_id (userRole sample_db))) I).
Defined.

Lemma assignRoles_then_holds_witness :
  hasRole 100 "ADMIN"
    (_assignRolesByUserId 100 "k100" ["ADMIN"; "editor"] sample_db).2 = true.
Proof.
  refine (proj1 (assignRoles_then_holds 100 "k100" ["ADMIN"; "editor"] sample_db _
                   (mkAssignRolesResult "1 role(s) assigned successfully" 100 "k100"
                      [mkRole 1 "Admin" "admin" None true])
                   RbacFacts.sample_db_wf _) "ADMIN" _).
  - reflexivity.
  - left.
Defined.

Lemma updateUserRoles_idempotent_witness :
  exists db2,
    _updateUserRolesByUserId 100 "k100" ["admin"; "user"]
      (_updateUserRolesByUserId 100 "k100" ["admin"; "user"] sample_db).2
    = (Ok (mkUpdateUserRolesResult "User roles updated successfully" 100 "k100"
             [mkRole 1 "Admin" "admin" None true; mkRole 3 "User" "user" None true]), db2) /\
    map (fun ur => (ur_user_id ur, ur_role_id ur)) (userRole db2)
    = map (fun ur => (ur_user_id ur, ur_role_id ur))
          (userRole (_updateUserRolesByUserId 100 "k100" ["admin"; "user"] sample_db).2) /\
    user_roles 100 db2
    = user_roles 100 (_updateUserRolesByUserId 100 "k100" ["admin"; "user"] sample_db).2.
Proof.
  apply (updateUserRoles_idempotent 100 "k100" ["admin"; "user"] sample_db).
  reflexivity.
Defined.

Lemma assign_remove_roundtrip_witness :
  exists res1 db1 res2 db2,
    _assignRolesByUserId 200 "k200" ["editor"] sample_db = (Ok res1, db1) /\
    ar_assignedRoles res1 = [mkRole 2 "Editor" "editor" None false] /\
    _removeRoleByUserId 200 "k200" "editor" db1 = (Ok res2, db2) /\
    rr_removedRole res2 = mkRole 2 "Editor" "editor" None false /\
    userRole db2 = userRole sample_db.
Proof.
  apply (assign_remove_roundtrip 200 "k200" "editor" sample_db
           (mkRole 2 "Editor" "editor" None false) RbacFacts.sample_db_wf).
  - exact (bool_decide_unpack
             (Forall (fun ur => ur_id ur <= userRole_seq sample_db) (userRole sample_db)) I).
  - reflexivity.
  - exact (bool_decide_unpack
             (role_id (mkRole 2 "Editor" "editor" None false)
              ∉ map ur_role_id (userRole_findMany 200 sample_db)) I).
  - discriminate.
Defined.

Lemma deleteRole_outcome_witness :
  deleteRole 2 sample_db =
  (Err (BadRequestException "Cannot delete role: 1 user(s) are using this role"),
   sample_db).
Proof.
  apply (proj1 (proj2 (proj1 (proj2 (deleteRole_outcome 2 sample_db))
                         (mkRole 2 "Editor" "editor" None false) eq_refl)));
    [reflexivity | vm_compute; lia].
Defined.

Lemma updateRolePermissions_idempotent_witness :
  role_permissions 1 (updateRolePermissions 2 ["user:delete"] sample_db).2
  = role_permissions 1 sample_db.
Proof.
  refine (proj1 (proj2 (proj2 (updateRolePermissions_idempotent 2 ["user:delete"] sample_db
            (mkRole 2 "Editor" "editor" None false) RbacFacts.sample_db_wf eq_refl))) 1 _).
  lia.
Defined.

Lemma permissions_visible_at_once_witness :
  hasPermission 100 "user:delete"
    (updateRolePermissions 2 ["USER:DELETE"; "plan:publish"] sample_db).2 = true.
Proof.
  apply (proj2 (permissions_visible_at_once 2 100 ["USER:DELETE"; "plan:publish"] sample_db
           (mkRole 2 "Editor" "editor" None false) RbacFacts.sample_db_wf eq_refl
           "user:delete")).
  exists (mkRole 2 "Editor" "editor" None false). split; [left|].
  left. split; [reflexivity|]. split; [left | right; right; left].
Defined.




End RbacMore.
